(** * gen_experiments.py: validation and rendering of gRPC experiments

    A shallow embedding of [tools/codegen/core/gen_experiments.py].  The
    script loads two YAML documents (experiments and rollouts), validates
    them, and writes three files (experiments.h, experiments.cc and
    experiments.bzl).  Here the script is a function of its inputs: the two
    documents, the current date, the [--check] switch and the lines of the
    script's own source file (which [put_copyright] reads back).  Its
    effects (printing, writing files, raising, [sys.exit]) are threaded
    through an explicit state. *)

From Stdlib Require Import ZArith NArith String Ascii List Bool Lia Permutation
  Sorted.
Import ListNotations.

Set Warnings "-register-all".

(** ** Python strings *)

(** A Python [str] is a sequence of Unicode code points. *)
Definition pystr := list N.

Definition str (s : string) : pystr :=
  map N_of_ascii (list_ascii_of_string s).
Arguments str s%_string : simpl never.

(** The double quote, which the string literals of this file avoid. *)
Definition dq : pystr := [34%N].

Definition pystr_eqb (s t : pystr) : bool :=
  if list_eq_dec N.eq_dec s t then true else false.

(** [s < t] on [str]: lexicographic on code points. *)
Fixpoint pystr_ltb (s t : pystr) : bool :=
  match s, t with
  | _, [] => false
  | [], _ :: _ => true
  | c :: s', d :: t' =>
      if (c <? d)%N then true
      else if (d <? c)%N then false
      else pystr_ltb s' t'
  end.

Definition is_ascii (s : pystr) : bool := forallb (fun c => (c <? 128)%N) s.

(** [s.split(sep)] for a one-character separator: never the empty list. *)
Fixpoint split_on (sep : N) (s : pystr) : list pystr :=
  match s with
  | [] => [[]]
  | c :: s' =>
      if (c =? sep)%N then [] :: split_on sep s'
      else match split_on sep s' with
           | [] => [[c]]
           | w :: ws => (c :: w) :: ws
           end
  end.

Definition ascii_upper (c : N) : N :=
  if ((97 <=? c) && (c <=? 122))%N then (c - 32)%N else c.

Definition ascii_lower (c : N) : N :=
  if ((65 <=? c) && (c <=? 90))%N then (c + 32)%N else c.

(** What the script takes from the Unicode database of the interpreter,
    which is not part of the repository: case conversion of strings that
    hold a character above 127, the decimal digits and the white space
    above 127, and the [repr] of a string.  On ASCII the functions below
    say what Python does; these tables are consulted nowhere else. *)
Record unicodedata := {
  uni_upper : pystr -> pystr;
  uni_capitalize : pystr -> pystr;
  uni_decimal : N -> option N;
  uni_isspace : N -> bool;
  uni_repr : pystr -> pystr
}.

Section Strings.
Variable U : unicodedata.

(** [s.upper()] *)
Definition upper (s : pystr) : pystr :=
  if is_ascii s then map ascii_upper s else uni_upper U s.

(** [s.capitalize()]: first character upper case, the rest lower case. *)
Definition capitalize (s : pystr) : pystr :=
  if is_ascii s then
    match s with
    | [] => []
    | c :: s' => ascii_upper c :: map ascii_lower s'
    end
  else uni_capitalize U s.

(** [snake_to_pascal], source lines 144-145. *)
Definition snake_to_pascal (s : pystr) : pystr :=
  concat (map capitalize (split_on 95 s)).

(** The regular expression [\d] on [str]: any Unicode decimal digit. *)
Definition digit_value (c : N) : option N :=
  if (c <? 128)%N then
    if ((48 <=? c) && (c <=? 57))%N then Some (c - 48)%N else None
  else uni_decimal U c.

Definition isspace (c : N) : bool :=
  if (c <? 128)%N then
    (((9 <=? c) && (c <=? 13)) || ((28 <=? c) && (c <=? 32)))%N
  else uni_isspace U c.

(** [s.rstrip()] *)
Definition rstrip (s : pystr) : pystr :=
  fold_right (fun c acc =>
                match acc with
                | [] => if isspace c then [] else [c]
                | _ => c :: acc
                end) [] s.
End Strings.

(** Digits of [n] in base [b] (2 <= b <= 10), most significant first, as
    the [%d] and [%o] conversions print them. *)
Fixpoint digits_fuel (fuel : nat) (b n : N) (acc : pystr) : pystr :=
  match fuel with
  | O => acc
  | S fuel' =>
      let acc' := (48 + n mod b)%N :: acc in
      if (n / b =? 0)%N then acc' else digits_fuel fuel' b (n / b) acc'
  end.

Definition digits (b n : N) : pystr :=
  digits_fuel (S (N.to_nat (N.log2 n))) b n [].

(** ['%d' % z] *)
Definition format_d (z : Z) : pystr :=
  if (z <? 0)%Z then 45%N :: digits 10 (Z.abs_N z) else digits 10 (Z.abs_N z).

(** ['%03o' % n] for [n >= 0]: octal, padded with zeros to three digits. *)
Definition format_03o (n : N) : pystr :=
  let ds := digits 8 n in
  repeat 48%N (3 - length ds) ++ ds.


(** ** Exceptions and results *)

Inductive exn :=
| KeyError | NameError | ValueError | TypeError | AttributeError
| UnicodeEncodeError | OverflowError | IndexError
| SystemExit (code : Z).

Inductive result (A : Type) :=
| Ok (a : A)
| Raise (e : exn).
Arguments Ok {A} a.
Arguments Raise {A} e.

Definition rbind {A B} (r : result A) (k : A -> result B) : result B :=
  match r with
  | Ok a => k a
  | Raise e => Raise e
  end.

Declare Scope result_scope.
Delimit Scope result_scope with result.
Notation "x <- r ;; k" := (rbind r (fun x => k))
  (at level 61, r at next level, right associativity) : result_scope.

(** ** Values of a loaded YAML document

    The scalars and sequences [yaml.safe_load] produces; a record of a
    document is a Python [dict].  Floats, dates and mappings as field
    values are left out. *)

Inductive value :=
| VNone
| VBool (b : bool)
| VInt (z : Z)
| VStr (s : pystr)
| VList (l : list value).

(** [a == b].  [bool] is a subclass of [int]: [True == 1]. *)
Fixpoint py_eq (a b : value) : bool :=
  match a, b with
  | VNone, VNone => true
  | VBool x, VBool y => Bool.eqb x y
  | VBool x, VInt y => (Z.b2z x =? y)%Z
  | VInt x, VBool y => (x =? Z.b2z y)%Z
  | VInt x, VInt y => (x =? y)%Z
  | VStr s, VStr t => pystr_eqb s t
  | VList l, VList m =>
      (fix all2 (l m : list value) : bool :=
         match l, m with
         | [], [] => true
         | x :: l', y :: m' => py_eq x y && all2 l' m'
         | _, _ => false
         end) l m
  | _, _ => false
  end.

(** [a < b]: defined between numbers, between strings and between lists
    (at the first pair of unequal elements), a [TypeError] otherwise. *)
Fixpoint py_lt (a b : value) : result bool :=
  match a, b with
  | VBool x, VBool y => Ok (Z.b2z x <? Z.b2z y)%Z
  | VBool x, VInt y => Ok (Z.b2z x <? y)%Z
  | VInt x, VBool y => Ok (x <? Z.b2z y)%Z
  | VInt x, VInt y => Ok (x <? y)%Z
  | VStr s, VStr t => Ok (pystr_ltb s t)
  | VList l, VList m =>
      (fix lex (l m : list value) : result bool :=
         match l, m with
         | _, [] => Ok false
         | [], _ :: _ => Ok true
         | x :: l', y :: m' => if py_eq x y then lex l' m' else py_lt x y
         end) l m
  | _, _ => Raise TypeError
  end.

(** Truth value of an object, as [if x:] tests it. *)
Definition truthy (v : value) : bool :=
  match v with
  | VNone => false
  | VBool b => b
  | VInt z => negb (z =? 0)%Z
  | VStr s => match s with [] => false | _ => true end
  | VList l => match l with [] => false | _ => true end
  end.

(** Lists are not hashable, so they are no dictionary keys. *)
Definition hashable (v : value) : bool :=
  match v with
  | VList _ => false
  | _ => true
  end.

(** [isinstance(v, int)] *)
Definition as_int (v : value) : option Z :=
  match v with
  | VBool b => Some (Z.b2z b)
  | VInt z => Some z
  | _ => None
  end.

(** ** Dictionaries

    A [dict] in insertion order; a key is found by [==]. *)
Definition dict (V : Type) := list (value * V).

Fixpoint dict_find {V} (d : dict V) (k : value) : option V :=
  match d with
  | [] => None
  | (k', v) :: d' => if py_eq k' k then Some v else dict_find d' k
  end.

(** [k in d] *)
Definition dict_contains {V} (d : dict V) (k : value) : result bool :=
  if hashable k then
    Ok (match dict_find d k with Some _ => true | None => false end)
  else Raise TypeError.

(** [d[k]] *)
Definition dict_getitem {V} (d : dict V) (k : value) : result V :=
  if hashable k then
    match dict_find d k with
    | Some v => Ok v
    | None => Raise KeyError
    end
  else Raise TypeError.

(** [d[k] = v]: an existing key keeps its place. *)
Fixpoint dict_set {V} (d : dict V) (k : value) (v : V) : dict V :=
  match d with
  | [] => [(k, v)]
  | (k', v') :: d' =>
      if py_eq k' k then (k', v) :: d' else (k', v') :: dict_set d' k v
  end.

Definition record := dict value.

(** [sorted(l)] ordered by [key], with [<] as the only comparison: a
    stable insertion sort, which raises as soon as two keys do not
    compare. *)
Section Sorted.
Context {A : Type} (key : A -> value).
Local Open Scope result_scope.

Fixpoint insert_sorted (x : A) (l : list A) : result (list A) :=
  match l with
  | [] => Ok [x]
  | y :: l' =>
      b <- py_lt (key y) (key x) ;;
      if b then (r <- insert_sorted x l' ;; Ok (y :: r))
      else Ok (x :: y :: l')
  end.

Fixpoint sorted (l : list A) : result (list A) :=
  match l with
  | [] => Ok []
  | x :: l' => r <- sorted l' ;; insert_sorted x r
  end.
End Sorted.


(** ** Calendar dates

    [datetime.date] as the standard library defines it: a year, a month
    and a day of the proleptic Gregorian calendar, ordered as triples, with
    day arithmetic through the ordinal of the date. *)
Module Date.
Local Open Scope Z_scope.

Record date := mk { year : Z; month : Z; day : Z }.

Definition MAXYEAR := 9999.
Definition MAXORDINAL := 3652059.

Definition is_leap (y : Z) : bool :=
  (y mod 4 =? 0) && (negb (y mod 100 =? 0) || (y mod 400 =? 0)).

Definition DAYS_IN_MONTH (m : Z) : Z :=
  match m with
  | 1 => 31 | 2 => 28 | 3 => 31 | 4 => 30 | 5 => 31 | 6 => 30
  | 7 => 31 | 8 => 31 | 9 => 30 | 10 => 31 | 11 => 30 | 12 => 31
  | _ => 0
  end.

Definition DAYS_BEFORE_MONTH (m : Z) : Z :=
  match m with
  | 1 => 0 | 2 => 31 | 3 => 59 | 4 => 90 | 5 => 120 | 6 => 151
  | 7 => 181 | 8 => 212 | 9 => 243 | 10 => 273 | 11 => 304 | 12 => 334
  | _ => 0
  end.

Definition days_before_year (y : Z) : Z :=
  let y := y - 1 in y * 365 + y / 4 - y / 100 + y / 400.

Definition days_in_month (y m : Z) : Z :=
  if (m =? 2) && is_leap y then 29 else DAYS_IN_MONTH m.

Definition days_before_month (y m : Z) : Z :=
  DAYS_BEFORE_MONTH m + (if (m >? 2) && is_leap y then 1 else 0).

Definition ymd2ord (y m d : Z) : Z :=
  days_before_year y + days_before_month y m + d.

(** The check of the [date] constructor. *)
Definition check_date_fields (y m d : Z) : bool :=
  (1 <=? y) && (y <=? MAXYEAR) && (1 <=? m) && (m <=? 12)
  && (1 <=? d) && (d <=? days_in_month y m).

Definition valid (d : date) : Prop :=
  check_date_fields (year d) (month d) (day d) = true.

Definition DI400Y := 146097.
Definition DI100Y := 36524.
Definition DI4Y := 1461.

(** The end of [_ord2ymd]: month and day of the day [n] of a year, counted
    from 0, with the month estimated first and corrected if it is one too
    far. *)
Definition month_and_day (leapyear : bool) (n : Z) : Z * Z :=
  let m := Z.shiftr (n + 50) 5 in
  let preceding :=
    DAYS_BEFORE_MONTH m + (if (m >? 2) && leapyear then 1 else 0) in
  if preceding >? n then
    let m := m - 1 in
    let preceding :=
      preceding - (DAYS_IN_MONTH m + (if (m =? 2) && leapyear then 1 else 0)) in
    (m, n - preceding + 1)
  else (m, n - preceding + 1).

Definition ord2ymd (n : Z) : date :=
  let n := n - 1 in
  let n400 := n / DI400Y in let n := n mod DI400Y in
  let y := n400 * 400 + 1 in
  let n100 := n / DI100Y in let n := n mod DI100Y in
  let n4 := n / DI4Y in let n := n mod DI4Y in
  let n1 := n / 365 in let n := n mod 365 in
  let y := y + n100 * 100 + n4 * 4 + n1 in
  if (n1 =? 4) || (n100 =? 4) then mk (y - 1) 12 31
  else
    let leapyear := (n1 =? 3) && (negb (n4 =? 24) || (n100 =? 3)) in
    let (m, d) := month_and_day leapyear n in
    mk y m d.

Definition toordinal (d : date) : Z := ymd2ord (year d) (month d) (day d).

Definition fromordinal (n : Z) : date := ord2ymd n.

(** Dates compare as the triples (year, month, day). *)
Definition cmp (d1 d2 : date) : comparison :=
  match year d1 ?= year d2 with
  | Eq => match month d1 ?= month d2 with
          | Eq => day d1 ?= day d2
          | c => c
          end
  | c => c
  end.

(** [d1 < d2] and [d1 > d2] *)
Definition ltb (d1 d2 : date) : bool :=
  match cmp d1 d2 with Lt => true | _ => false end.

Definition gtb (d1 d2 : date) : bool :=
  match cmp d1 d2 with Gt => true | _ => false end.

(** [d + datetime.timedelta(days=n)] *)
Definition add_days (d : date) (n : Z) : result date :=
  let o := toordinal d + n in
  if (0 <? o) && (o <=? MAXORDINAL) then Ok (fromordinal o)
  else Raise OverflowError.
End Date.

(** ** [datetime.datetime.strptime(s, '%Y/%m/%d').date()]

    The format compiles to the regular expression
    [(\d\d\d\d)/(1[0-2]|0[1-9]|[1-9])/(3[0-1]|[1-2]\d|0[1-9]|[1-9]| [1-9])],
    matched at the start of the text; text left over after the match and a
    date that does not exist are a [ValueError].  A matcher returns its
    matches in the order in which the regular expression tries them. *)
Section Strptime.
Variable U : unicodedata.
Local Open Scope Z_scope.

Definition matcher := pystr -> list (Z * pystr).

Definition in_range (lo hi c : N) : bool := ((lo <=? c) && (c <=? hi))%N.

(** One character of the class [[lo-hi]], worth its digit. *)
Definition re_class (lo hi : N) : matcher := fun s =>
  match s with
  | c :: s' => if in_range lo hi c then [(Z.of_N (c - 48), s')] else []
  | [] => []
  end.

(** [\d] *)
Definition re_digit : matcher := fun s =>
  match s with
  | c :: s' => match digit_value U c with
               | Some d => [(Z.of_N d, s')]
               | None => []
               end
  | [] => []
  end.

(** A literal character, worth nothing. *)
Definition re_char (c : N) : matcher := fun s =>
  match s with
  | c' :: s' => if (c' =? c)%N then [(0, s')] else []
  | [] => []
  end.

(** Two digits in sequence, read in base ten. *)
Definition re_seq (a b : matcher) : matcher := fun s =>
  flat_map (fun '(x, s') => map (fun '(y, s'') => (10 * x + y, s'')) (b s'))
           (a s).

Definition re_alt (alts : list matcher) : matcher := fun s =>
  flat_map (fun a => a s) alts.

Definition re_Y : matcher :=
  re_seq (re_seq (re_seq re_digit re_digit) re_digit) re_digit.

Definition re_m : matcher :=
  re_alt [ re_seq (re_class 49 49) (re_class 48 50);
           re_seq (re_class 48 48) (re_class 49 57);
           re_class 49 57 ].

Definition re_d : matcher :=
  re_alt [ re_seq (re_class 51 51) (re_class 48 49);
           re_seq (re_class 49 50) re_digit;
           re_seq (re_class 48 48) (re_class 49 57);
           re_class 49 57;
           re_seq (re_char 32) (re_class 49 57) ].

(** The matches of the whole expression, each with the text left over. *)
Definition re_date (s : pystr) : list (Z * Z * Z * pystr) :=
  flat_map (fun '(y, s1) =>
  flat_map (fun '(_, s2) =>
  flat_map (fun '(m, s3) =>
  flat_map (fun '(_, s4) =>
  map (fun '(d, s5) => (y, m, d, s5)) (re_d s4))
    (re_char 47 s3)) (re_m s2)) (re_char 47 s1)) (re_Y s).

Definition strptime_date (v : value) : result Date.date :=
  match v with
  | VStr s =>
      match re_date s with
      | (y, m, d, []) :: _ =>
          if Date.check_date_fields y m d then Ok (Date.mk y m d)
          else Raise ValueError
      | _ => Raise ValueError
      end
  | _ => Raise TypeError
  end.
End Strptime.


(** ** The state of a run

    What the script prints on standard output is kept as the list of its
    [print] calls, each with the values its format string receives. *)
Inductive message :=
| NoDefault (name : value)
| InvalidDefault (name default : value)
| NoName (attr : record)
| NoDescription (name : value)
| NoOwner (name : value)
| NoExpiry (name : value)
| MonitoringShouldNeverExpire
| Expired (name expiry : value)
| ExpiresFarInFuture (name expiry : value)
| NoMoreThanTwoQuarters
| AnnotationTooLong
| WarningNoRollout (name : value).

Inductive file := ExperimentsH | ExperimentsCC | ExperimentsBzl.

(** The globals [error] and [experiment_annotation], standard output, and
    the three files the script writes: [None] until the file is opened,
    then the strings printed to it, each of which ends a line. *)
Record state := mkState {
  stdout : list message;
  error : bool;
  experiment_annotation : pystr;
  experiments_h : option (list pystr);
  experiments_cc : option (list pystr);
  experiments_bzl : option (list pystr)
}.

(** The state the script starts in.  [error] is bound at line 75 and
    [experiment_annotation] at line 78, after line 77 has added 180 days to
    the current date: in a run that line 77 ends with an exception the name
    is not bound yet, and the field says nothing of the script. *)
Definition initial_state : state :=
  mkState [] false (str "gRPC experiments:") None None None.

(** A statement of the script: it changes the state and either goes on
    with a value or raises. *)
Definition M (A : Type) := state -> state * result A.

Definition ret {A} (a : A) : M A := fun st => (st, Ok a).

Definition bind {A B} (m : M A) (k : A -> M B) : M B := fun st =>
  match m st with
  | (st', Ok a) => k a st'
  | (st', Raise e) => (st', Raise e)
  end.

Definition raise {A} (e : exn) : M A := fun st => (st, Raise e).

Definition lift {A} (r : result A) : M A := fun st => (st, r).

Declare Scope prog_scope.
Delimit Scope prog_scope with prog.
Notation "x <- m ;; k" := (bind m (fun x => k))
  (at level 61, m at next level, right associativity) : prog_scope.
Notation "m ;; k" := (bind m (fun _ => k))
  (at level 61, right associativity) : prog_scope.

Definition print (m : message) : M unit := fun st =>
  (mkState (stdout st ++ [m]) (error st) (experiment_annotation st)
           (experiments_h st) (experiments_cc st) (experiments_bzl st), Ok tt).

(** [error = True] *)
Definition set_error : M unit := fun st =>
  (mkState (stdout st) true (experiment_annotation st)
           (experiments_h st) (experiments_cc st) (experiments_bzl st), Ok tt).

Definition get_error : M bool := fun st => (st, Ok (error st)).

Definition get_annotation : M pystr := fun st =>
  (st, Ok (experiment_annotation st)).

Definition set_annotation (a : pystr) : M unit := fun st =>
  (mkState (stdout st) (error st) a
           (experiments_h st) (experiments_cc st) (experiments_bzl st), Ok tt).

Definition get_file (f : file) (st : state) : option (list pystr) :=
  match f with
  | ExperimentsH => experiments_h st
  | ExperimentsCC => experiments_cc st
  | ExperimentsBzl => experiments_bzl st
  end.

Definition set_file (f : file) (c : option (list pystr)) (st : state) : state :=
  match f with
  | ExperimentsH =>
      mkState (stdout st) (error st) (experiment_annotation st)
              c (experiments_cc st) (experiments_bzl st)
  | ExperimentsCC =>
      mkState (stdout st) (error st) (experiment_annotation st)
              (experiments_h st) c (experiments_bzl st)
  | ExperimentsBzl =>
      mkState (stdout st) (error st) (experiment_annotation st)
              (experiments_h st) (experiments_cc st) c
  end.

(** [open(path, 'w')]: the file is created, or emptied. *)
Definition open_w (f : file) : M unit := fun st =>
  (set_file f (Some []) st, Ok tt).

(** [print(s, file=f)] *)
Definition fprint (f : file) (s : pystr) : M unit := fun st =>
  (set_file f (Some (match get_file f st with
                     | Some c => c ++ [s]
                     | None => [s]
                     end)) st, Ok tt).

(** [for x in l: body] *)
Fixpoint for_each {A} (body : A -> M unit) (l : list A) : M unit :=
  match l with
  | [] => ret tt
  | x :: l' => bind (body x) (fun _ => for_each body l')
  end.

(** [for i, x in enumerate(l): body], counting from [i]. *)
Fixpoint for_enumerate {A} (body : Z -> A -> M unit) (i : Z) (l : list A)
  : M unit :=
  match l with
  | [] => ret tt
  | x :: l' => bind (body i x) (fun _ => for_enumerate body (i + 1) l')
  end.

(** [if c: body] *)
Definition when (c : bool) (body : M unit) : M unit :=
  if c then body else ret tt.

(** ** The tables of the script, source lines 47-73 *)

Definition DEFAULTS : dict pystr :=
  [ (VStr (str "broken"), str "false");
    (VBool false, str "false");
    (VBool true, str "true");
    (VStr (str "debug"), str "kDefaultForDebugOnly") ].

Definition nl : pystr := [10%N].

Definition FINAL_RETURN : dict pystr :=
  [ (VStr (str "broken"), str "return false;");
    (VBool false, str "return false;");
    (VBool true, str "return true;");
    (VStr (str "debug"),
      str "#ifdef NDEBUG" ++ nl ++ str "return false;" ++ nl ++ str "#else"
      ++ nl ++ str "return true;" ++ nl ++ str "#endif") ].

(** A format string with one [%s]: the text before it and the text after. *)
Definition format := (pystr * pystr)%type.

Definition format_apply (f : format) (s : pystr) : pystr :=
  fst f ++ s ++ snd f.

Definition FINAL_DEFINE : dict (option format) :=
  [ (VStr (str "broken"), None);
    (VBool false, None);
    (VBool true, Some (str "#define ", []));
    (VStr (str "debug"),
      Some (str "#ifndef NDEBUG" ++ nl ++ str "#define ", nl ++ str "#endif")) ].

Definition BZL_LIST_FOR_DEFAULTS : dict (option pystr) :=
  [ (VStr (str "broken"), None);
    (VBool false, Some (str "off"));
    (VBool true, Some (str "on"));
    (VStr (str "debug"), Some (str "dbg")) ].

Definition k_name := VStr (str "name").
Definition k_default := VStr (str "default").
Definition k_description := VStr (str "description").
Definition k_owner := VStr (str "owner").
Definition k_expiry := VStr (str "expiry").
Definition k_test_tags := VStr (str "test_tags").
Definition k_allow_in_fuzzing_config := VStr (str "allow_in_fuzzing_config").

(** ** Validation, source lines 75-128 *)
Section Validation.
Variable U : unicodedata.
Variable today : Date.date.
Variable check_dates : bool.
Local Open Scope prog_scope.

(** The body of the loop over the rollouts, lines 80-90.  Line 81 formats
    its message with [attr], which is bound by the later loop only: the
    name is not defined when the line runs. *)
Definition check_rollout (rollout_attr : record) : M unit :=
  has_name <- lift (dict_contains rollout_attr k_name) ;;
  if negb has_name then raise NameError
  else
    has_default <- lift (dict_contains rollout_attr k_default) ;;
    when (negb has_default)
      (name <- lift (dict_getitem rollout_attr k_name) ;;
       print (NoDefault name) ;;
       set_error) ;;
    default <- lift (dict_getitem rollout_attr k_default) ;;
    known <- lift (dict_contains DEFAULTS default) ;;
    when (negb known)
      (name <- lift (dict_getitem rollout_attr k_name) ;;
       print (InvalidDefault name default) ;;
       set_error).

(** [attr['name'] + ':0,'] *)
Definition annotation_entry (name : value) : result pystr :=
  match name with
  | VStr s => Ok (s ++ str ":0,")
  | _ => Raise TypeError
  end.

(** Lines 96-104: a field that must be there. *)
Definition require_field (attr : record) (k : value)
           (msg : value -> message) : M unit :=
  has <- lift (dict_contains attr k) ;;
  when (negb has)
    (name <- lift (dict_getitem attr k_name) ;;
     print (msg name) ;;
     set_error).

(** The body of the loop over the experiments, lines 92-121. *)
Definition check_attr (two_quarters_from_now : Date.date) (attr : record)
  : M unit :=
  has_name <- lift (dict_contains attr k_name) ;;
  if negb has_name then
    print (NoName attr) ;;
    set_error
  else
    require_field attr k_description NoDescription ;;
    require_field attr k_owner NoOwner ;;
    require_field attr k_expiry NoExpiry ;;
    name <- lift (dict_getitem attr k_name) ;;
    if py_eq name (VStr (str "monitoring_experiment")) then
      e <- lift (dict_getitem attr k_expiry) ;;
      when (negb (py_eq e (VStr (str "never-ever"))))
        (print MonitoringShouldNeverExpire ;;
         set_error)
    else
      e <- lift (dict_getitem attr k_expiry) ;;
      expiry <- lift (strptime_date U e) ;;
      when check_dates
        (when (Date.ltb expiry today)
           (print (Expired name e) ;;
            set_error) ;;
         when (Date.gtb expiry two_quarters_from_now)
           (print (ExpiresFarInFuture name e) ;;
            print NoMoreThanTwoQuarters ;;
            set_error) ;;
         annotation <- get_annotation ;;
         entry <- lift (annotation_entry name) ;;
         set_annotation (annotation ++ entry)).

(** Lines 76-128: both loops, the length check and the exit. *)
Definition validate (attrs rollouts : list record) : M unit :=
  two_quarters_from_now <- lift (Date.add_days today 180) ;;
  for_each check_rollout rollouts ;;
  for_each (check_attr two_quarters_from_now) attrs ;;
  annotation <- get_annotation ;;
  when (2000 <? length annotation)%nat
    (print AnnotationTooLong ;;
     set_error) ;;
  err <- get_error ;;
  when err (raise (SystemExit 1)).
End Validation.

(** ** Rendering, source lines 131-350 *)

(** [chr(z)] *)
Definition chr (z : Z) : result N :=
  if ((z <? - 2 ^ 31) || (2 ^ 31 - 1 <? z))%Z then Raise OverflowError
  else if ((z <? 0) || (1114111 <? z))%Z then Raise ValueError
  else Ok (Z.to_N z).

(** [ord(c)] for an object that is not an [int]. *)
Definition ord (c : value) : result N :=
  match c with
  | VStr [x] => Ok x
  | _ => Raise TypeError
  end.

(** Lines 137-140: one character of the literal. *)
Definition c_str_char (c : N) : pystr :=
  if negb ((32 <=? c) && (c <? 127))%N || (c =? 92)%N || (c =? 34)%N
  then 92%N :: format_03o c
  else [c].

(** The loop of [c_str], lines 135-140, over what iterating [s] yields. *)
Fixpoint c_str_loop (items : list value) (res : pystr) : result pystr :=
  match items with
  | [] => Ok res
  | c :: items' =>
      (code <- match as_int c with
               | Some z => chr z
               | None => ord c
               end ;;
       c_str_loop items' (res ++ c_str_char code))%result
  end.

(** [c_str(s)], lines 131-141, with the default encoding ['ascii']: a
    [str] is encoded first, which fails on a character above 127, and the
    bytes are the integers the loop sees. *)
Definition c_str (s : value) : result pystr :=
  (items <- match s with
            | VStr t =>
                if is_ascii t then Ok (map (fun b => VInt (Z.of_N b)) t)
                else Raise UnicodeEncodeError
            | VList l => Ok l
            | _ => Raise TypeError
            end ;;
   body <- c_str_loop items [] ;;
   Ok (dq ++ body ++ dq))%result.

(** The docstring [WTF], lines 185-216, split into lines. *)
Definition WTF_lines : list pystr :=
  [
    [];
    str "This file contains the autogenerated parts of the experiments API.";
    [];
    str "It generates two symbols for each experiment.";
    [];
    str "For the experiment named new_car_project, it generates:";
    [];
    str "- a function IsNewCarProjectEnabled() that returns true if the experiment";
    str "  should be enabled at runtime.";
    [];
    str "- a macro GRPC_EXPERIMENT_IS_INCLUDED_NEW_CAR_PROJECT that is defined if the";
    str "  experiment *could* be enabled at runtime.";
    [];
    str "The function is used to determine whether to run the experiment or";
    str "non-experiment code path.";
    [];
    str "If the experiment brings significant bloat, the macro can be used to avoid";
    str "including the experiment code path in the binary for binaries that are size";
    str "sensitive.";
    [];
    str "By default that includes our iOS and Android builds.";
    [];
    str "Finally, a small array is included that contains the metadata for each";
    str "experiment.";
    [];
    str "A macro, GRPC_EXPERIMENTS_ARE_FINAL, controls whether we fix experiment";
    str "configuration at build time (if it's defined) or allow it to be tuned at";
    str "runtime (if it's disabled).";
    [];
    str "If you are using the Bazel build system, that macro can be configured with";
    str "--define=grpc_experiments_are_final=true" ].

Definition generated_by : pystr :=
  str "Automatically generated by tools/codegen/core/gen_experiments.py".

Section Rendering.
Variable U : unicodedata.
(** The lines of the script's own file, as reading [sys.argv[0]] yields
    them. *)
Variable my_source : list pystr.
Variable attrs rollouts : list record.
Local Open Scope prog_scope.

(** [repr(v)] and ['%s' % v] *)
Fixpoint repr (v : value) : pystr :=
  match v with
  | VNone => str "None"
  | VBool true => str "True"
  | VBool false => str "False"
  | VInt z => format_d z
  | VStr s => uni_repr U s
  | VList l =>
      str "["
      ++ (fix join (l : list value) : pystr :=
            match l with
            | [] => []
            | [x] => repr x
            | x :: l' => repr x ++ str ", " ++ join l'
            end) l
      ++ str "]"
  end.

Definition format_s (v : value) : pystr :=
  match v with
  | VStr s => s
  | _ => repr v
  end.

(** [v.upper()] and [snake_to_pascal(v)]: only a [str] has the methods. *)
Definition py_upper (v : value) : result pystr :=
  match v with
  | VStr s => Ok (upper U s)
  | _ => Raise AttributeError
  end.

Definition py_snake_to_pascal (v : value) : result pystr :=
  match v with
  | VStr s => Ok (snake_to_pascal U s)
  | _ => Raise AttributeError
  end.

(** [put_banner], lines 149-156. *)
Definition put_banner (files : list file) (banner : list pystr)
           (prefix : pystr) : M unit :=
  for_each (fun f =>
    for_each (fun line =>
      match line with
      | [] => fprint f prefix
      | _ => fprint f (prefix ++ str " " ++ line)
      end) banner ;;
    fprint f []) files.

(** [line[0]] *)
Definition first_char (line : pystr) : result N :=
  match line with
  | c :: _ => Ok c
  | [] => Raise IndexError
  end.

(** The three loops of [put_copyright], lines 163-173, which share one
    iterator: skip up to the first line that is no comment, find the next
    comment line, and collect the comment lines that follow it. *)
Fixpoint skip_header (lines : list pystr) : result (list pystr) :=
  match lines with
  | [] => Ok []
  | line :: rest =>
      (c <- first_char line ;;
       if (c =? 35)%N then skip_header rest else Ok rest)%result
  end.

Fixpoint first_comment (lines : list pystr)
  : result (list pystr * list pystr) :=
  match lines with
  | [] => Ok ([], [])
  | line :: rest =>
      (c <- first_char line ;;
       if (c =? 35)%N then Ok ([line], rest) else first_comment rest)%result
  end.

Fixpoint comment_block (lines : list pystr) : result (list pystr) :=
  match lines with
  | [] => Ok []
  | line :: rest =>
      (c <- first_char line ;;
       if (c =? 35)%N then (b <- comment_block rest ;; Ok (line :: b))
       else Ok [])%result
  end.

(** [put_copyright], lines 159-174. *)
Definition put_copyright (f : file) (prefix : pystr) : M unit :=
  rest <- lift (skip_header my_source) ;;
  found <- lift (first_comment rest) ;;
  block <- lift (comment_block (snd found)) ;;
  put_banner [f]
    (map (fun line => rstrip U (skipn 2 line)) (fst found ++ block)) prefix.

(** The loop of [get_rollout_attr_for_experiment], lines 178-180. *)
Fixpoint find_rollout (rs : list record) (name : value)
  : result (option record) :=
  match rs with
  | [] => Ok None
  | rollout_attr :: rs' =>
      (n <- dict_getitem rollout_attr k_name ;;
       if py_eq n name then Ok (Some rollout_attr)
       else find_rollout rs' name)%result
  end.

(** [get_rollout_attr_for_experiment], lines 177-182. *)
Definition get_rollout_attr_for_experiment (name : value) : M record :=
  found <- lift (find_rollout rollouts name) ;;
  match found with
  | Some rollout_attr => ret rollout_attr
  | None =>
      print (WarningNoRollout name) ;;
      ret [(k_name, name); (k_default, VStr (str "false"))]
  end.

(** The body of the loop of the fixed mode, lines 238-246. *)
Definition render_final (attr : record) : M unit :=
  name <- lift (dict_getitem attr k_name) ;;
  rollout_attr <- get_rollout_attr_for_experiment name ;;
  default <- lift (dict_getitem rollout_attr k_default) ;;
  define_fmt <- lift (dict_getitem FINAL_DEFINE default) ;;
  match define_fmt with
  | Some fmt =>
      name <- lift (dict_getitem attr k_name) ;;
      up <- lift (py_upper name) ;;
      fprint ExperimentsH
        (format_apply fmt (str "GRPC_EXPERIMENT_IS_INCLUDED_" ++ up))
  | None => ret tt
  end ;;
  name <- lift (dict_getitem attr k_name) ;;
  pascal <- lift (py_snake_to_pascal name) ;;
  default <- lift (dict_getitem rollout_attr k_default) ;;
  final_return <- lift (dict_getitem FINAL_RETURN default) ;;
  fprint ExperimentsH (str "inline bool Is" ++ pascal ++ str "Enabled() { "
            ++ final_return ++ str " }").

(** The body of the loop of the tunable mode, lines 249-253. *)
Definition render_tunable (i : Z) (attr : record) : M unit :=
  name <- lift (dict_getitem attr k_name) ;;
  up <- lift (py_upper name) ;;
  fprint ExperimentsH (str "#define GRPC_EXPERIMENT_IS_INCLUDED_" ++ up) ;;
  name <- lift (dict_getitem attr k_name) ;;
  pascal <- lift (py_snake_to_pascal name) ;;
  fprint ExperimentsH (str "inline bool Is" ++ pascal
            ++ str "Enabled() { return IsExperimentEnabled("
            ++ format_d i ++ str "); }").

(** experiments.h, lines 218-263. *)
Definition render_h : M unit :=
  open_w ExperimentsH ;;
  put_copyright ExperimentsH (str "//") ;;
  put_banner [ExperimentsH] (generated_by :: WTF_lines) (str "//") ;;
  fprint ExperimentsH (str "#ifndef GRPC_SRC_CORE_LIB_EXPERIMENTS_EXPERIMENTS_H") ;;
  fprint ExperimentsH (str "#define GRPC_SRC_CORE_LIB_EXPERIMENTS_EXPERIMENTS_H") ;;
  fprint ExperimentsH [] ;;
  fprint ExperimentsH (str "#include <grpc/support/port_platform.h>") ;;
  fprint ExperimentsH [] ;;
  fprint ExperimentsH (str "#include <stddef.h>") ;;
  fprint ExperimentsH (str "#include " ++ dq ++ str "src/core/lib/experiments/config.h"
            ++ dq) ;;
  fprint ExperimentsH [] ;;
  fprint ExperimentsH (str "namespace grpc_core {") ;;
  fprint ExperimentsH [] ;;
  fprint ExperimentsH (str "#ifdef GRPC_EXPERIMENTS_ARE_FINAL") ;;
  for_each render_final attrs ;;
  fprint ExperimentsH (str "#else") ;;
  for_enumerate render_tunable 0 attrs ;;
  fprint ExperimentsH [] ;;
  fprint ExperimentsH (str "constexpr const size_t kNumExperiments = "
            ++ format_d (Z.of_nat (length attrs)) ++ str ";") ;;
  fprint ExperimentsH (str "extern const ExperimentMetadata g_experiment_metadata[kNumExperiments];") ;;
  fprint ExperimentsH [] ;;
  fprint ExperimentsH (str "#endif") ;;
  fprint ExperimentsH (str "}  // namespace grpc_core") ;;
  fprint ExperimentsH [] ;;
  fprint ExperimentsH (str "#endif  // GRPC_SRC_CORE_LIB_EXPERIMENTS_EXPERIMENTS_H").

(** The body of the loop of lines 278-284. *)
Definition render_description (attr : record) : M unit :=
  name <- lift (dict_getitem attr k_name) ;;
  description <- lift (dict_getitem attr k_description) ;;
  literal <- lift (c_str description) ;;
  fprint ExperimentsCC (str "const char* const description_" ++ format_s name
            ++ str " = " ++ literal ++ str ";") ;;
  name <- lift (dict_getitem attr k_name) ;;
  fprint ExperimentsCC (str "const char* const additional_constraints_" ++ format_s name
            ++ str " = " ++ dq ++ dq ++ str ";").

(** [have_defaults], lines 285-286, as the list the set is built from. *)
Fixpoint have_defaults (rs : list record) : result (list pystr) :=
  match rs with
  | [] => Ok []
  | rollout_attr :: rs' =>
      (default <- dict_getitem rollout_attr k_default ;;
       d <- dict_getitem DEFAULTS default ;;
       ds <- have_defaults rs' ;;
       Ok (d :: ds))%result
  end.

(** The body of the loop of lines 300-307. *)
Definition render_metadata (attr : record) : M unit :=
  name <- lift (dict_getitem attr k_name) ;;
  rollout_attr <- get_rollout_attr_for_experiment name ;;
  name <- lift (dict_getitem attr k_name) ;;
  literal <- lift (c_str name) ;;
  default <- lift (dict_getitem rollout_attr k_default) ;;
  d <- lift (dict_getitem DEFAULTS default) ;;
  let fuzzing :=
    match dict_find attr k_allow_in_fuzzing_config with
    | Some v => truthy v
    | None => true
    end in
  fprint ExperimentsCC (str "  {" ++ literal ++ str ", description_" ++ format_s name
            ++ str ", additional_constraints_" ++ format_s name ++ str ", "
            ++ d ++ str ", "
            ++ (if fuzzing then str "true" else str "false") ++ str "},").

(** experiments.cc, lines 265-311. *)
Definition render_cc : M unit :=
  open_w ExperimentsCC ;;
  put_copyright ExperimentsCC (str "//") ;;
  put_banner [ExperimentsCC] [generated_by] (str "//") ;;
  fprint ExperimentsCC (str "#include <grpc/support/port_platform.h>") ;;
  fprint ExperimentsCC (str "#include " ++ dq
            ++ str "src/core/lib/experiments/experiments.h" ++ dq) ;;
  fprint ExperimentsCC [] ;;
  fprint ExperimentsCC (str "#ifndef GRPC_EXPERIMENTS_ARE_FINAL") ;;
  fprint ExperimentsCC (str "namespace {") ;;
  for_each render_description attrs ;;
  defaults <- lift (have_defaults rollouts) ;;
  when (existsb (pystr_eqb (str "kDefaultForDebugOnly")) defaults)
    (fprint ExperimentsCC (str "#ifdef NDEBUG") ;;
     fprint ExperimentsCC (str "const bool kDefaultForDebugOnly = false;") ;;
     fprint ExperimentsCC (str "#else") ;;
     fprint ExperimentsCC (str "const bool kDefaultForDebugOnly = true;") ;;
     fprint ExperimentsCC (str "#endif")) ;;
  fprint ExperimentsCC (str "}") ;;
  fprint ExperimentsCC [] ;;
  fprint ExperimentsCC (str "namespace grpc_core {") ;;
  fprint ExperimentsCC [] ;;
  fprint ExperimentsCC (str "const ExperimentMetadata g_experiment_metadata[] = {") ;;
  for_each render_metadata attrs ;;
  fprint ExperimentsCC (str "};") ;;
  fprint ExperimentsCC [] ;;
  fprint ExperimentsCC (str "}  // namespace grpc_core") ;;
  fprint ExperimentsCC (str "#endif").

(** What [for tag in v] iterates over. *)
Definition iterate (v : value) : result (list value) :=
  match v with
  | VList l => Ok l
  | VStr s => Ok (map (fun c => VStr [c]) s)
  | _ => Raise TypeError
  end.

(** policy -> tag -> experiments, as lines 313-315 create it: one
    [defaultdict(list)] for each key of [BZL_LIST_FOR_DEFAULTS]. *)
Definition tag_map := dict (dict (list value)).

Definition bzl_initial : tag_map :=
  map (fun kv => (fst kv, [])) BZL_LIST_FOR_DEFAULTS.

(** Lines 320-321: the statement of the inner loop. *)
Definition add_tag (attr rollout_attr : record) (bzl : tag_map)
           (tag : value) : result tag_map :=
  (default <- dict_getitem rollout_attr k_default ;;
   tags_to_experiments <- dict_getitem bzl default ;;
   if hashable tag then
     let experiments :=
       match dict_find tags_to_experiments tag with
       | Some l => l
       | None => []
       end in
     name <- dict_getitem attr k_name ;;
     Ok (dict_set bzl default
           (dict_set tags_to_experiments tag (experiments ++ [name])))
   else Raise TypeError)%result.

Fixpoint add_tags (attr rollout_attr : record) (tags : list value)
         (bzl : tag_map) : result tag_map :=
  match tags with
  | [] => Ok bzl
  | tag :: tags' =>
      (bzl' <- add_tag attr rollout_attr bzl tag ;;
       add_tags attr rollout_attr tags' bzl')%result
  end.

(** Lines 317-321. *)
Fixpoint collect_tags (l : list record) (bzl : tag_map) : M tag_map :=
  match l with
  | [] => ret bzl
  | attr :: l' =>
      name <- lift (dict_getitem attr k_name) ;;
      rollout_attr <- get_rollout_attr_for_experiment name ;;
      test_tags <- lift (dict_getitem attr k_test_tags) ;;
      tags <- lift (iterate test_tags) ;;
      bzl' <- lift (add_tags attr rollout_attr tags bzl) ;;
      collect_tags l' bzl'
  end.

(** The generator of lines 336-338. *)
Fixpoint categories (bzl : tag_map)
  : result (list (pystr * dict (list value))) :=
  match bzl with
  | [] => Ok []
  | (default, tags_to_experiments) :: bzl' =>
      (category <- dict_getitem BZL_LIST_FOR_DEFAULTS default ;;
       rest <- categories bzl' ;;
       match category with
       | Some c => Ok ((c, tags_to_experiments) :: rest)
       | None => Ok rest
       end)%result
  end.

(** Lines 344-348.  The items of a dictionary differ in their keys, so
    the pairs are ordered by the tags. *)
Definition render_tag (item : value * list value) : M unit :=
  fprint ExperimentsBzl (str "        " ++ dq ++ format_s (fst item) ++ dq ++ str ": [") ;;
  experiments <- lift (sorted (fun x => x) (snd item)) ;;
  for_each (fun experiment =>
    fprint ExperimentsBzl (str "            " ++ dq ++ format_s experiment ++ dq
              ++ str ",")) experiments ;;
  fprint ExperimentsBzl (str "        ],").

(** Lines 342-349. *)
Definition render_category (entry : pystr * dict (list value)) : M unit :=
  fprint ExperimentsBzl (str "    " ++ dq ++ fst entry ++ dq ++ str ": {") ;;
  items <- lift (sorted (fun item : value * list value => fst item)
                        (snd entry)) ;;
  for_each render_tag items ;;
  fprint ExperimentsBzl (str "    },").

(** experiments.bzl, lines 323-350. *)
Definition render_bzl (bzl : tag_map) : M unit :=
  open_w ExperimentsBzl ;;
  put_copyright ExperimentsBzl (str "#") ;;
  put_banner [ExperimentsBzl] [generated_by] (str "#") ;;
  fprint ExperimentsBzl (dq ++ dq ++ dq
            ++ str "Dictionary of tags to experiments so we know when to test different experiments."
            ++ dq ++ dq ++ dq) ;;
  cats <- lift (categories bzl) ;;
  sorted_cats <- lift (sorted (fun c : pystr * dict (list value) =>
                                 VStr (fst c)) cats) ;;
  fprint ExperimentsBzl [] ;;
  fprint ExperimentsBzl (str "EXPERIMENTS = {") ;;
  for_each render_category sorted_cats ;;
  fprint ExperimentsBzl (str "}").

(** All that follows validation. *)
Definition render : M unit :=
  render_h ;;
  render_cc ;;
  bzl <- collect_tags attrs bzl_initial ;;
  render_bzl bzl.
End Rendering.

(** ** The script *)
Section Script.
Variable U : unicodedata.
Variable my_source : list pystr.
Local Open Scope prog_scope.

Definition main (today : Date.date) (check_dates : bool)
           (attrs rollouts : list record) : M unit :=
  validate U today check_dates attrs rollouts ;;
  render U my_source attrs rollouts.

Definition run (today : Date.date) (check_dates : bool)
           (attrs rollouts : list record) : state * result unit :=
  main today check_dates attrs rollouts initial_state.
End Script.

(** The exit status of the process: 0 at the end of the script, the code
    of [sys.exit], 1 after an exception nobody caught. *)
Definition exit_status (r : result unit) : Z :=
  match r with
  | Ok _ => 0
  | Raise (SystemExit c) => c
  | Raise _ => 1
  end.

(** The content of a written file: every [print] ends its line. *)
Definition file_content (lines : list pystr) : pystr :=
  concat (map (fun l => l ++ nl) lines).

(** ** The notions of the claims *)

(** The claim on [c_str]: a character outside the printable range 32-126, a
    backslash and a double quote become a backslash and three octal digits;
    the literal is the result between two double quotes. *)
Definition octal3 (c : N) : pystr :=
  [48 + c / 64; 48 + (c / 8) mod 8; 48 + c mod 8]%N.

Definition escaped (c : N) : bool :=
  ((c <? 32) || (126 <? c) || (c =? 92) || (c =? 34))%N.

Definition c_literal (s : pystr) : pystr :=
  dq ++ flat_map (fun c => if escaped c then 92%N :: octal3 c else [c]) s ++ dq.

Definition printable (c : N) : bool := ((32 <=? c) && (c <=? 126))%N.

(** [k in attr] for a key that is a string. *)
Definition has_field (attr : record) (k : value) : bool :=
  match dict_find attr k with
  | Some _ => true
  | None => false
  end.

(** The complaints about the fields a record named [name] lacks. *)
Definition missing_fields (attr : record) (name : value) : list message :=
  (if has_field attr k_description then [] else [NoDescription name])
  ++ (if has_field attr k_owner then [] else [NoOwner name])
  ++ (if has_field attr k_expiry then [] else [NoExpiry name]).

(** Standard output grows by [msgs], and [error] is set if [failed]. *)
Definition report (msgs : list message) (failed : bool) (st : state) : state :=
  mkState (stdout st ++ msgs) (error st || failed) (experiment_annotation st)
          (experiments_h st) (experiments_cc st) (experiments_bzl st).

(** The four policies of a rollout record, and the tag that stands for
    each: the strings [broken] and [debug], and the two truth values (which
    the numbers 0 and 1 equal). *)
Inductive policy := Broken | Disabled | Enabled | DebugOnly.

Definition policy_of (default : value) : option policy :=
  match default with
  | VStr s =>
      if pystr_eqb s (str "broken") then Some Broken
      else if pystr_eqb s (str "debug") then Some DebugOnly
      else None
  | VBool b => Some (if b then Enabled else Disabled)
  | VInt z =>
      if (z =? 0)%Z then Some Disabled
      else if (z =? 1)%Z then Some Enabled
      else None
  | _ => None
  end.

(** The claim on the fixed mode: the body of the accessor and the inclusion
    marker of each policy. *)
Definition accessor_body (p : policy) : pystr :=
  match p with
  | Broken | Disabled => str "return false;"
  | Enabled => str "return true;"
  | DebugOnly =>
      str "#ifdef NDEBUG" ++ nl ++ str "return false;" ++ nl ++ str "#else"
      ++ nl ++ str "return true;" ++ nl ++ str "#endif"
  end.

Definition inclusion_marker (p : policy) (marker : pystr) : list pystr :=
  match p with
  | Broken | Disabled => []
  | Enabled => [str "#define " ++ marker]
  | DebugOnly =>
      [str "#ifndef NDEBUG" ++ nl ++ str "#define " ++ marker ++ nl
       ++ str "#endif"]
  end.

Definition fixed_mode_output (p : policy) (accessor marker : pystr)
  : list pystr :=
  inclusion_marker p (str "GRPC_EXPERIMENT_IS_INCLUDED_" ++ marker)
  ++ [str "inline bool Is" ++ accessor ++ str "Enabled() { "
      ++ accessor_body p ++ str " }"].

(** A snake_case name: lower-case letters, digits and underscores. *)
Definition snake_char (c : N) : bool :=
  (((97 <=? c) && (c <=? 122)) || ((48 <=? c) && (c <=? 57)) || (c =? 95))%N.

Definition snake_case (s : pystr) : bool := forallb snake_char s.

(** PascalCase: the underscores go, and the character at the start and
    after each underscore is put in upper case. *)
Fixpoint pascal_from (start : bool) (s : pystr) : pystr :=
  match s with
  | [] => []
  | c :: s' =>
      if (c =? 95)%N then pascal_from true s'
      else (if start then ascii_upper c else c) :: pascal_from false s'
  end.

Definition pascal_case (s : pystr) : pystr := pascal_from true s.

(** UPPER_SNAKE_CASE: every letter in upper case, the rest as it is. *)
Definition upper_snake_case (s : pystr) : pystr := map ascii_upper s.

(** The strings [lines] are printed to the file [f]. *)
Definition emit (f : file) (lines : list pystr) (st : state) : state :=
  set_file f (Some (match get_file f st with
                    | Some c => c
                    | None => []
                    end ++ lines)) st.

(** The complaints of the date window, lines 112-120. *)
Definition date_complaints (today two_quarters_from_now expiry : Date.date)
           (name e : value) : list message :=
  (if Date.ltb expiry today then [Expired name e] else [])
  ++ (if Date.gtb expiry two_quarters_from_now
      then [ExpiresFarInFuture name e; NoMoreThanTwoQuarters] else []).

(** [experiment_annotation += entry] *)
Definition append_annotation (entry : pystr) (st : state) : state :=
  mkState (stdout st) (error st) (experiment_annotation st ++ entry)
          (experiments_h st) (experiments_cc st) (experiments_bzl st).

(** What a record adds to the annotation in strict mode: its name and
    [:0,], unless it has no name or is the monitoring experiment. *)
Definition annotation_of (attr : record) : pystr :=
  match dict_find attr k_name with
  | Some (VStr s) =>
      if pystr_eqb s (str "monitoring_experiment") then []
      else s ++ str ":0,"
  | _ => []
  end.

(** A rollout record that validation accepts: it has a name and a
    default that is a key of [DEFAULTS]. *)
Definition rollout_ok (r : record) : bool :=
  has_field r k_name
  && match dict_find r k_default with
     | Some d =>
         hashable d
         && match dict_find DEFAULTS d with Some _ => true | None => false end
     | None => false
     end.

(** The messages [msgs] were printed between [st] and [st'], none of them
    about the length of the annotation. *)
Definition printed (st st' : state) (msgs : list message) : Prop :=
  stdout st' = stdout st ++ msgs /\ ~ In AnnotationTooLong msgs.

(** The check of [month_and_day] on one day of the year. *)
Definition month_and_day_ok (leap : bool) (n : N) : bool :=
  (let (m, d) := Date.month_and_day leap (Z.of_N n) in
   (1 <=? m) && (m <=? 12) && (1 <=? d)
   && (d <=? Date.DAYS_IN_MONTH m + (if (m =? 2) && leap then 1 else 0))
   && (Date.DAYS_BEFORE_MONTH m + (if (m >? 2) && leap then 1 else 0) + d
       =? Z.of_N n + 1))%Z.

(** The test of line 287: whether [kDefaultForDebugOnly] is among the
    defaults of the rollout records. *)
Definition debug_only_used (rollouts : list record) : result bool :=
  rbind (have_defaults rollouts)
        (fun ds => Ok (existsb (pystr_eqb (str "kDefaultForDebugOnly")) ds)).

(** Some rollout record has the default [debug]. *)
Definition has_debug_default (rollouts : list record) : bool :=
  existsb (fun r => match dict_find r k_default with
                    | Some d => py_eq (VStr (str "debug")) d
                    | None => false
                    end) rollouts.

(** The rollout record [r] is named [name], as line 179 tests it. *)
Definition named (name : value) (r : record) : bool :=
  match dict_find r k_name with
  | Some n => py_eq n name
  | None => false
  end.

(** No experiment record has the name of the rollout record [r]. *)
Definition unmatched (attrs : list record) (r : record) : Prop :=
  forall attr name,
    In attr attrs -> dict_find attr k_name = Some name -> named name r = false.

(** Two documents that differ only by records that are [extra]: one
    becomes the other by leaving out and putting in such records. *)
Inductive differ_by (extra : record -> Prop)
  : list record -> list record -> Prop :=
| differ_nil : differ_by extra [] []
| differ_same (r : record) (l1 l2 : list record) :
    differ_by extra l1 l2 -> differ_by extra (r :: l1) (r :: l2)
| differ_left (r : record) (l1 l2 : list record) :
    extra r -> differ_by extra l1 l2 -> differ_by extra (r :: l1) l2
| differ_right (r : record) (l1 l2 : list record) :
    extra r -> differ_by extra l1 l2 -> differ_by extra l1 (r :: l2).

(** A statement keeps a property of the state, however it ends. *)
Definition preserves {A : Type} (P : state -> Prop) (m : M A) : Prop :=
  forall st st' r, m st = (st', r) -> P st -> P st'.

(** Nothing has been printed unless [error] is set. *)
Definition silent_unless_error (st : state) : Prop :=
  error st = false -> stdout st = [].

(** The annotation is [a], and no complaint about its length has been
    printed. *)
Definition annotation_is (a : pystr) (st : state) : Prop :=
  experiment_annotation st = a /\ ~ In AnnotationTooLong (stdout st).

(** A line of a banner as [put_banner] prints it: the prefix alone for an
    empty line, the prefix, a space and the line otherwise. *)
Definition banner_line (prefix line : pystr) : pystr :=
  match line with
  | [] => prefix
  | _ => prefix ++ str " " ++ line
  end.

(** The lines of the banner, and the empty line after them. *)
Definition banner_output (banner : list pystr) (prefix : pystr)
  : list pystr :=
  map (banner_line prefix) banner ++ [[]].

(** A line of the script that starts with [#], and one that starts with
    another character. *)
Definition is_comment (line : pystr) : bool :=
  match line with
  | c :: _ => (c =? 35)%N
  | [] => false
  end.

Definition is_code (line : pystr) : bool :=
  match line with
  | c :: _ => negb (c =? 35)%N
  | [] => false
  end.

(** The string does not end in white space. *)
Definition trimmed (U : unicodedata) (s : pystr) : bool :=
  match rev s with
  | c :: _ => negb (isspace U c)
  | [] => true
  end.

(** The two lines of an experiment in the tunable mode, lines 249-253. *)
Definition tunable_marker (U : unicodedata) (name : pystr) : pystr :=
  str "#define GRPC_EXPERIMENT_IS_INCLUDED_" ++ upper U name.

Definition tunable_accessor (U : unicodedata) (name : pystr) (i : Z) : pystr :=
  str "inline bool Is" ++ snake_to_pascal U name
  ++ str "Enabled() { return IsExperimentEnabled(" ++ format_d i ++ str "); }".

Fixpoint tunable_output (U : unicodedata) (i : Z) (names : list pystr)
  : list pystr :=
  match names with
  | [] => []
  | name :: names' =>
      tunable_marker U name :: tunable_accessor U name i
      :: tunable_output U (i + 1) names'
  end.

(** A string without its underscores. *)
Definition without_underscores (s : pystr) : pystr :=
  filter (fun c => negb (c =? 95)%N) s.

(** Reading a C string literal back: the value of an octal digit, the
    characters between the quotes with each escape of three octal digits
    undone, and the literal as a whole. *)
Definition octal_value (c : N) : option N :=
  if ((48 <=? c) && (c <=? 55))%N then Some (c - 48)%N else None.

Fixpoint c_unescape (s : pystr) : option pystr :=
  match s with
  | [] => Some []
  | c :: rest =>
      if (c =? 92)%N then
        match rest with
        | a :: b :: d :: rest' =>
            match octal_value a, octal_value b, octal_value d with
            | Some x, Some y, Some z =>
                option_map (cons (64 * x + 8 * y + z)%N) (c_unescape rest')
            | _, _, _ => None
            end
        | _ => None
        end
      else if (c =? 34)%N then None
      else option_map (cons c) (c_unescape rest)
  end.

Definition c_unquote (l : pystr) : option pystr :=
  match l with
  | q :: t =>
      match rev t with
      | q' :: body =>
          if ((q =? 34) && (q' =? 34))%N then c_unescape (rev body) else None
      | [] => None
      end
  | [] => None
  end.

(** The rows of experiments.cc: the constant that stands for a policy in
    the metadata table, the fuzzing flag of an experiment, which is set
    when the record does not say, the row of an experiment, and the two
    constants that precede the table. *)
Definition default_constant (p : policy) : pystr :=
  match p with
  | Broken | Disabled => str "false"
  | Enabled => str "true"
  | DebugOnly => str "kDefaultForDebugOnly"
  end.

Definition allowed_in_fuzzing (attr : record) : bool :=
  match dict_find attr k_allow_in_fuzzing_config with
  | Some v => truthy v
  | None => true
  end.

Definition metadata_row (name : pystr) (p : policy) (fuzzing : bool) : pystr :=
  str "  {" ++ c_literal name ++ str ", description_" ++ name
  ++ str ", additional_constraints_" ++ name ++ str ", "
  ++ default_constant p ++ str ", "
  ++ (if fuzzing then str "true" else str "false") ++ str "},".

Definition description_lines (name description : pystr) : list pystr :=
  [ str "const char* const description_" ++ name ++ str " = "
    ++ c_literal description ++ str ";";
    str "const char* const additional_constraints_" ++ name ++ str " = "
    ++ dq ++ dq ++ str ";" ].

(** The order of the lists of experiments.bzl: [s <= t] on strings, as
    [sorted] sees it, and the lines of a tag with its experiments. *)
Definition pystr_le (s t : pystr) : Prop := pystr_ltb t s = false.

Definition le_key {A : Type} (k : A -> pystr) (x y : A) : Prop :=
  pystr_le (k x) (k y).

Definition str_of (v : value) : pystr :=
  match v with
  | VStr s => s
  | _ => []
  end.

Definition tag_output (tag : pystr) (experiments : list pystr) : list pystr :=
  [str "        " ++ dq ++ tag ++ dq ++ str ": ["]
  ++ map (fun e => str "            " ++ dq ++ e ++ dq ++ str ",") experiments
  ++ [str "        ],"].

(** An experiment with a rollout record of one of the four policies, and
    a file that has been opened. *)
Definition resolved (rollouts : list record) (attr : record) : Prop :=
  exists (name : value) (rollout_attr : record) (default : value) (p : policy),
    dict_find attr k_name = Some name
    /\ find_rollout rollouts name = Ok (Some rollout_attr)
    /\ dict_find rollout_attr k_default = Some default
    /\ policy_of default = Some p.

Definition written (f : file) (st : state) : Prop := get_file f st <> None.

(** What experiments.bzl holds between the copyright notice and the
    first category, lines 326-341. *)
Definition bzl_head : list pystr :=
  banner_output [generated_by] (str "#")
  ++ [ dq ++ dq ++ dq
       ++ str "Dictionary of tags to experiments so we know when to test different experiments."
       ++ dq ++ dq ++ dq;
       [];
       str "EXPERIMENTS = {" ].

(** A written file as a C compiler reads it.  What one [print] writes
    may hold line breaks, so the lines of the file are the pieces of the
    strings printed.  A line is a preprocessing directive when its first
    character that is no blank is [#]; [directive kw] says that the name of
    the directive starts with [kw].  [nesting] follows the conditionals
    through the lines: a directive [#if...] opens one, [#endif] closes the
    one that is open, [#else] needs one that is open; it ends with the
    number of conditionals left open, and has no result when a directive
    closes or continues a conditional that was not opened. *)
Definition physical_lines (printed : list pystr) : list pystr :=
  concat (map (split_on 10) printed).

Fixpoint lstrip_blanks (s : pystr) : pystr :=
  match s with
  | c :: s' => if ((c =? 32) || (c =? 9))%N then lstrip_blanks s' else s
  | [] => []
  end.

Fixpoint starts_with (p s : pystr) : bool :=
  match p, s with
  | [], _ => true
  | c :: p', d :: s' => (c =? d)%N && starts_with p' s'
  | _ :: _, [] => false
  end.

Definition directive (kw line : pystr) : bool :=
  match lstrip_blanks line with
  | c :: rest => (c =? 35)%N && starts_with kw (lstrip_blanks rest)
  | [] => false
  end.

Fixpoint nesting (depth : nat) (lines : list pystr) : option nat :=
  match lines with
  | [] => Some depth
  | line :: rest =>
      if directive (str "if") line then nesting (S depth) rest
      else if directive (str "endif") line then
        match depth with
        | S d => nesting d rest
        | O => None
        end
      else if directive (str "else") line then
        match depth with
        | S _ => nesting depth rest
        | O => None
        end
      else nesting depth rest
  end.

(** The lines of experiments.h around the two loops: lines 226-236
    before the fixed mode, lines 254-263 after the tunable mode, with the
    number of experiments; the lines of the fixed mode for experiments
    given by name and policy; and that the rollout record found for a name
    has the policy [p]. *)
Definition h_head : list pystr :=
  [ str "#ifndef GRPC_SRC_CORE_LIB_EXPERIMENTS_EXPERIMENTS_H";
    str "#define GRPC_SRC_CORE_LIB_EXPERIMENTS_EXPERIMENTS_H";
    [];
    str "#include <grpc/support/port_platform.h>";
    [];
    str "#include <stddef.h>";
    str "#include " ++ dq ++ str "src/core/lib/experiments/config.h" ++ dq;
    [];
    str "namespace grpc_core {";
    [];
    str "#ifdef GRPC_EXPERIMENTS_ARE_FINAL" ].

Definition h_tail (n : Z) : list pystr :=
  [ [];
    str "constexpr const size_t kNumExperiments = " ++ format_d n ++ str ";";
    str "extern const ExperimentMetadata g_experiment_metadata[kNumExperiments];";
    [];
    str "#endif";
    str "}  // namespace grpc_core";
    [];
    str "#endif  // GRPC_SRC_CORE_LIB_EXPERIMENTS_EXPERIMENTS_H" ].

Definition fixed_section (U : unicodedata) (experiments : list (pystr * policy))
  : list pystr :=
  concat (map (fun np => fixed_mode_output (snd np)
                           (snake_to_pascal U (fst np)) (upper U (fst np)))
              experiments).

Definition has_policy (rollouts : list record) (name : pystr) (p : policy)
  : Prop :=
  exists (rollout_attr : record) (default : value),
    find_rollout rollouts (VStr name) = Ok (Some rollout_attr)
    /\ dict_find rollout_attr k_default = Some default
    /\ policy_of default = Some p.

(** The two complaints about the date of an experiment, and the test of
    lines 112 and 116 that asks for each; a record named [name], not the
    monitoring experiment, whose expiry [e] parses as the date [expiry];
    and a standard output without complaints about dates. *)
Definition date_message (far : bool) (name e : value) : message :=
  if far then ExpiresFarInFuture name e else Expired name e.

Definition outside (far : bool) (today two_quarters_from_now expiry : Date.date)
  : bool :=
  if far then Date.gtb expiry two_quarters_from_now
  else Date.ltb expiry today.

Definition dated (U : unicodedata) (attr : record) (name e : value)
           (expiry : Date.date) : Prop :=
  dict_find attr k_name = Some name
  /\ py_eq name (VStr (str "monitoring_experiment")) = false
  /\ dict_find attr k_expiry = Some e
  /\ strptime_date U e = Ok expiry.

Definition no_dates (st : state) : Prop :=
  forall far name e, ~ In (date_message far name e) (stdout st).

(** ** Sample inputs *)

(** Tables for runs on ASCII text, where no table is consulted. *)
Definition ascii_only : unicodedata :=
  {| uni_upper := fun s => s;
     uni_capitalize := fun s => s;
     uni_decimal := fun _ => None;
     uni_isspace := fun _ => false;
     uni_repr := fun s => s |}.

Definition text (s : string) : value := VStr (str s).
Arguments text s%_string.

Definition field (k : string) (v : value) : value * value := (text k, v).
Arguments field k%_string v.

(** The first lines of a script file: the interpreter line, an empty
    line, a comment block of two lines, and the start of the code. *)
Definition sample_source : list pystr :=
  [ str "#!/usr/bin/env python3" ++ nl;
    nl;
    str "# Copyright 2022 gRPC authors." ++ nl;
    str "#" ++ nl;
    str "import sys" ++ nl ].

Definition sample_today : Date.date := Date.mk 2023 1 1.

Definition experiment (name description owner expiry : string)
           (tags : list string) : record :=
  [ field "name" (text name); field "description" (text description);
    field "owner" (text owner); field "expiry" (text expiry);
    field "test_tags" (VList (map text tags)) ].

Definition rollout (name : string) (default : value) : record :=
  [ field "name" (text name); field "default" default ].

(** The experiment of the end-to-end example of the specification. *)
Definition foo_bar : record :=
  experiment "foo_bar" "d" "o" "2023/01/11" ["core"%string].

Definition monitoring : record :=
  [ field "name" (text "monitoring_experiment");
    field "description" (text "d"); field "owner" (text "o");
    field "expiry" (text "never-ever"); field "test_tags" (VList []) ].

(** Records that lack a field. *)
Definition no_expiry : record :=
  [ field "name" (text "foo"); field "description" (text "d");
    field "owner" (text "o"); field "test_tags" (VList []) ].

Definition no_owner : record :=
  [ field "name" (text "bar"); field "description" (text "d");
    field "expiry" (text "2023/01/11"); field "test_tags" (VList []) ].

Definition no_test_tags : record :=
  [ field "name" (text "foo"); field "description" (text "d");
    field "owner" (text "o"); field "expiry" (text "2023/01/11") ].

Definition long_name : pystr := repeat 97%N 2000.

Definition long_named : record :=
  [ field "name" (VStr long_name); field "description" (text "d");
    field "owner" (text "o"); field "expiry" (text "2023/01/11");
    field "test_tags" (VList []) ].

Definition expired : record :=
  experiment "old" "d" "o" "2022/12/31" [].

(** An experiment that expires 180 days after [sample_today]. *)
Definition at_the_limit : record :=
  experiment "edge" "d" "o" "2023/06/30" [].

(** Rollout documents for [foo_bar]: alone, with a record for an
    experiment that does not exist, and with two records of its name. *)
Definition foo_bar_on : list record := [rollout "foo_bar" (VBool true)].

Definition ghost_debug : list record :=
  [rollout "foo_bar" (VBool true); rollout "ghost" (text "debug")].

Definition ghost_bogus : list record :=
  [rollout "foo_bar" (VBool true); rollout "ghost" (text "bogus")].

Definition on_then_off : list record :=
  [rollout "foo_bar" (VBool true); rollout "foo_bar" (VBool false)].

Definition off_then_on : list record :=
  [rollout "foo_bar" (VBool false); rollout "foo_bar" (VBool true)].

(** An experiment with a description that is not ASCII: its last
    character is U+00E9. *)
Definition accented : record :=
  [ field "name" (text "cafe");
    field "description" (VStr (str "caf" ++ [233%N]));
    field "owner" (text "o"); field "expiry" (text "2023/01/11");
    field "test_tags" (VList []) ].

(** ** Facts on strings and numbers *)

Lemma below_forallb (P : N -> bool) (n : nat) :
  forallb P (map N.of_nat (seq 0 n)) = true ->
  forall c, (c < N.of_nat n)%N -> P c = true.
Proof.
  intros H c Hc.
  rewrite forallb_forall in H. apply H.
  rewrite <- (N2Nat.id c). apply in_map. apply in_seq. lia.
Qed.

Lemma format_03o_ascii (c : N) :
  (c < 128)%N -> format_03o c = octal3 c.
Proof.
  intros Hc.
  pose (P := fun c => pystr_eqb (format_03o c) (octal3 c)).
  assert (HP : P c = true).
  { apply (below_forallb P 128); [vm_compute; reflexivity | exact Hc]. }
  unfold P, pystr_eqb in HP.
  destruct (list_eq_dec N.eq_dec (format_03o c) (octal3 c)); congruence.
Qed.

Lemma c_str_char_ascii (c : N) :
  (c < 128)%N ->
  c_str_char c = (if escaped c then 92%N :: octal3 c else [c]).
Proof.
  intros Hc. unfold c_str_char, escaped.
  rewrite (format_03o_ascii c Hc).
  destruct (N.ltb_spec c 32), (N.ltb_spec 126 c), (N.leb_spec 32 c),
    (N.ltb_spec c 127); try lia; simpl; reflexivity.
Qed.

Lemma chr_of_N (c : N) : (c < 128)%N -> chr (Z.of_N c) = Ok c.
Proof.
  intros Hc. unfold chr.
  destruct (Z.ltb_spec (Z.of_N c) (- 2 ^ 31)); [lia|].
  destruct (Z.ltb_spec (2 ^ 31 - 1) (Z.of_N c)); [lia|].
  destruct (Z.ltb_spec (Z.of_N c) 0); [lia|].
  destruct (Z.ltb_spec 1114111 (Z.of_N c)); [lia|].
  simpl. now rewrite N2Z.id.
Qed.

Lemma c_str_loop_ascii (s : pystr) : forall res,
  is_ascii s = true ->
  c_str_loop (map (fun b => VInt (Z.of_N b)) s) res
  = Ok (res ++ flat_map (fun c => if escaped c then 92%N :: octal3 c else [c]) s).
Proof.
  induction s as [|c s IH]; intros res Hs; simpl.
  - now rewrite app_nil_r.
  - simpl in Hs. apply andb_prop in Hs. destruct Hs as [Hc Hs].
    apply N.ltb_lt in Hc.
    rewrite (chr_of_N c Hc). simpl.
    rewrite (IH _ Hs), (c_str_char_ascii c Hc), <- app_assoc. reflexivity.
Qed.

Lemma escape_printable (c : N) :
  (c < 128)%N ->
  forallb printable (if escaped c then 92%N :: octal3 c else [c]) = true.
Proof.
  apply (below_forallb
           (fun c => forallb printable
                       (if escaped c then 92%N :: octal3 c else [c])) 128).
  vm_compute. reflexivity.
Qed.

(** ** The literal of a string *)

(** C10, as amended.  For a string of ASCII characters [c_str] returns the
    literal the claim describes: between two double quotes, each character
    outside 32-126, each backslash and each double quote as a backslash and
    three octal digits, every other character as it is; all characters of
    the literal are printable ASCII, so it has no line break. *)
Theorem c_str_ascii (s : pystr) (Hs : is_ascii s = true) :
  c_str (VStr s) = Ok (c_literal s)
  /\ forallb printable (c_literal s) = true.
Proof.
  split.
  - unfold c_str, c_literal. rewrite Hs. simpl.
    rewrite (c_str_loop_ascii s [] Hs). reflexivity.
  - unfold c_literal. rewrite !forallb_app. simpl.
    rewrite andb_true_r.
    induction s as [|c s IH]; simpl; [reflexivity|].
    simpl in Hs. apply andb_prop in Hs. destruct Hs as [Hc Hs].
    apply N.ltb_lt in Hc.
    rewrite forallb_app, (escape_printable c Hc). simpl. now apply IH.
Qed.

Lemma c_str_ascii_witness :
  is_ascii (str "a\b") = true
  /\ c_str (text "a\b") = Ok (c_literal (str "a\b"))
  /\ forallb printable (c_literal (str "a\b")) = true.
Proof.
  split; [reflexivity | apply (c_str_ascii (str "a\b")); reflexivity].
Defined.

(** C10 fails as stated: the string of the one character U+00E9 has no
    literal, since encoding it to ASCII raises. *)
Lemma c_str_non_ascii_raises :
  c_str (VStr [233%N]) = Raise UnicodeEncodeError
  /\ c_str (VStr [233%N]) <> Ok (c_literal [233%N]).
Proof.
  split; [reflexivity | discriminate].
Qed.

(** ** The statements of the script *)

Lemma py_eq_str (v : value) (s : pystr) :
  py_eq v (VStr s) = true <-> v = VStr s.
Proof.
  destruct v; simpl; split; try discriminate; intros H.
  - unfold pystr_eqb in H.
    destruct (list_eq_dec N.eq_dec s0 s); congruence.
  - injection H as ->. unfold pystr_eqb.
    destruct (list_eq_dec N.eq_dec s s); congruence.
Qed.

Lemma getitem_found (V : Type) (d : dict V) (k : value) (v : V) :
  hashable k = true -> dict_find d k = Some v -> dict_getitem d k = Ok v.
Proof. intros Hk Hf. unfold dict_getitem. now rewrite Hk, Hf. Qed.

Lemma getitem_missing (V : Type) (d : dict V) (k : value) :
  hashable k = true -> dict_find d k = None -> dict_getitem d k = Raise KeyError.
Proof. intros Hk Hf. unfold dict_getitem. now rewrite Hk, Hf. Qed.

Lemma contains_field (attr : record) (k : value) :
  hashable k = true -> dict_contains attr k = Ok (has_field attr k).
Proof. intros Hk. unfold dict_contains, has_field. now rewrite Hk. Qed.

Lemma report_nil (st : state) : report [] false st = st.
Proof.
  destruct st. unfold report. simpl.
  now rewrite app_nil_r, orb_false_r.
Qed.

Lemma report_report (a b : list message) (x y : bool) (st : state) :
  report b y (report a x st) = report (a ++ b) (x || y) st.
Proof.
  unfold report. simpl. now rewrite app_assoc, orb_assoc.
Qed.

Lemma print_set_error (m : message) (st : state) :
  bind (print m) (fun _ => set_error) st = (report [m] true st, Ok tt).
Proof.
  unfold bind, print, set_error, report. simpl.
  now rewrite orb_true_r.
Qed.

(** Lines 96-104 complain and go on. *)
Lemma require_field_runs (attr : record) (k : pystr) (msg : value -> message)
      (name : value) (st : state) :
  dict_find attr k_name = Some name ->
  require_field attr (VStr k) msg st
  = (report (if has_field attr (VStr k) then [] else [msg name])
            (negb (has_field attr (VStr k))) st, Ok tt).
Proof.
  intros Hn. unfold require_field, has_field, bind, lift, when.
  unfold dict_contains, dict_getitem. simpl hashable. cbv iota.
  destruct (dict_find attr (VStr k)); simpl.
  - now rewrite report_nil.
  - fold k_name. rewrite Hn.
    change (bind (print (msg name)) (fun _ => set_error) st
            = (report [msg name] true st, Ok tt)).
    apply print_set_error.
Qed.

(** The three checks of lines 96-104 together. *)
Lemma require_fields_run (attr : record) (name : value) (st : state) (A : Type)
      (k : M A) :
  dict_find attr k_name = Some name ->
  bind (require_field attr k_description NoDescription) (fun _ =>
  bind (require_field attr k_owner NoOwner) (fun _ =>
  bind (require_field attr k_expiry NoExpiry) (fun _ => k))) st
  = k (report (missing_fields attr name)
              (negb (has_field attr k_description)
               || negb (has_field attr k_owner)
               || negb (has_field attr k_expiry)) st).
Proof.
  intros Hn. unfold bind at 1.
  unfold k_description at 1. rewrite (require_field_runs _ _ _ name) by exact Hn.
  unfold bind at 1.
  unfold k_owner at 1. rewrite (require_field_runs _ _ _ name) by exact Hn.
  unfold bind at 1.
  unfold k_expiry at 1. rewrite (require_field_runs _ _ _ name) by exact Hn.
  rewrite !report_report. unfold missing_fields.
  fold k_description k_owner k_expiry.
  now rewrite orb_assoc.
Qed.

(** *** Names *)

Lemma snake_char_ascii (c : N) : snake_char c = true -> (c <? 128)%N = true.
Proof.
  unfold snake_char. intros H. apply N.ltb_lt.
  repeat (apply orb_prop in H; destruct H as [H|H]);
    try (apply andb_prop in H; destruct H as [H1 H2];
         apply N.leb_le in H1; apply N.leb_le in H2; lia).
  apply N.eqb_eq in H. lia.
Qed.

Lemma snake_case_ascii (s : pystr) : snake_case s = true -> is_ascii s = true.
Proof.
  unfold snake_case, is_ascii. rewrite !forallb_forall.
  intros H c Hc. apply snake_char_ascii. now apply H.
Qed.

Lemma snake_char_lower (c : N) : snake_char c = true -> ascii_lower c = c.
Proof.
  unfold snake_char, ascii_lower.
  destruct (N.leb_spec 65 c), (N.leb_spec c 90), (N.leb_spec 97 c),
    (N.leb_spec c 122), (N.leb_spec 48 c), (N.leb_spec c 57),
    (N.eqb_spec c 95); simpl; intros Hsnake; try discriminate;
    try reflexivity; lia.
Qed.

Lemma snake_case_lower (s : pystr) :
  snake_case s = true -> map ascii_lower s = s.
Proof.
  induction s as [|c s IH]; simpl; [reflexivity|].
  intros H. apply andb_prop in H. destruct H as [Hc Hs].
  now rewrite (snake_char_lower c Hc), (IH Hs).
Qed.

(** The first word of a snake_case string and the words after it. *)
Lemma split_on_snake (U : unicodedata) (s : pystr) :
  snake_case s = true ->
  exists w ws,
    split_on 95 s = w :: ws
    /\ snake_case w = true
    /\ pascal_from false s = w ++ concat (map (capitalize U) ws)
    /\ pascal_from true s = capitalize U w ++ concat (map (capitalize U) ws).
Proof.
  induction s as [|c s IH]; intros Hs.
  - exists [], []. repeat split.
  - simpl in Hs. apply andb_prop in Hs. destruct Hs as [Hc Hs].
    destruct (IH Hs) as (w & ws & Hsplit & Hw & Hfalse & Htrue).
    simpl. rewrite Hsplit.
    destruct (N.eqb_spec c 95) as [->|Hne].
    + exists [], (w :: ws).
      repeat split; try (change (capitalize U []) with (@nil N)); simpl;
        exact Htrue.
    + exists (c :: w), ws.
      assert (Hcw : snake_case (c :: w) = true)
        by (simpl; now rewrite Hc, Hw).
      repeat split.
      * exact Hcw.
      * simpl. now rewrite Hfalse.
      * unfold capitalize. rewrite (snake_case_ascii _ Hcw).
        rewrite (snake_case_lower w Hw). simpl. now rewrite Hfalse.
Qed.

Lemma snake_to_pascal_snake (U : unicodedata) (s : pystr) :
  snake_case s = true -> snake_to_pascal U s = pascal_case s.
Proof.
  intros Hs. destruct (split_on_snake U s Hs) as (w & ws & Hsplit & _ & _ & H).
  unfold snake_to_pascal, pascal_case. rewrite Hsplit, H. reflexivity.
Qed.

Lemma upper_snake (U : unicodedata) (s : pystr) :
  snake_case s = true -> upper U s = upper_snake_case s.
Proof.
  intros Hs. unfold upper. now rewrite (snake_case_ascii s Hs).
Qed.

(** *** The tables *)

Lemma pystr_eqb_eq (s t : pystr) : pystr_eqb s t = true <-> s = t.
Proof.
  unfold pystr_eqb. destruct (list_eq_dec N.eq_dec s t); split; congruence.
Qed.

Lemma policy_of_cases (d : value) (p : policy) :
  policy_of d = Some p ->
  (d = text "broken" /\ p = Broken) \/ (d = text "debug" /\ p = DebugOnly)
  \/ (d = VBool false /\ p = Disabled) \/ (d = VBool true /\ p = Enabled)
  \/ (d = VInt 0 /\ p = Disabled) \/ (d = VInt 1 /\ p = Enabled).
Proof.
  destruct d as [ |b|z|s|l]; simpl; try discriminate.
  - destruct b; intros [= <-]; auto 10.
  - destruct (Z.eqb_spec z 0) as [->|]; [intros [= <-]; auto 10|].
    destruct (Z.eqb_spec z 1) as [->|]; [intros [= <-]; auto 10|discriminate].
  - destruct (pystr_eqb s (str "broken")) eqn:E1.
    { apply pystr_eqb_eq in E1. subst s. intros [= <-]. auto. }
    destruct (pystr_eqb s (str "debug")) eqn:E2; [|discriminate].
    apply pystr_eqb_eq in E2. subst s. intros [= <-]. auto.
Qed.

Lemma FINAL_RETURN_policy (d : value) (p : policy) :
  policy_of d = Some p -> dict_getitem FINAL_RETURN d = Ok (accessor_body p).
Proof.
  intros H. apply policy_of_cases in H.
  repeat destruct H as [H|H]; destruct H as [-> ->]; reflexivity.
Qed.

Lemma FINAL_DEFINE_policy (d : value) (p : policy) :
  policy_of d = Some p ->
  exists fmt,
    dict_getitem FINAL_DEFINE d = Ok fmt
    /\ forall marker,
         match fmt with
         | Some f => [format_apply f marker]
         | None => []
         end = inclusion_marker p marker.
Proof.
  intros H. apply policy_of_cases in H.
  repeat destruct H as [H|H]; destruct H as [-> ->];
    eexists; (split; [reflexivity|]); intros marker; try reflexivity;
    unfold format_apply, inclusion_marker; simpl fst; simpl snd;
    rewrite <- ?app_assoc, ?app_nil_r; reflexivity.
Qed.

Lemma fprint_emit (f : file) (s : pystr) (st : state) :
  fprint f s st = (emit f [s] st, Ok tt).
Proof.
  unfold fprint, emit. destruct (get_file f st); reflexivity.
Qed.

Lemma get_set_file (f : file) (c : option (list pystr)) (st : state) :
  get_file f (set_file f c st) = c.
Proof. destruct f; reflexivity. Qed.

Lemma set_set_file (f : file) (c c' : option (list pystr)) (st : state) :
  set_file f c (set_file f c' st) = set_file f c st.
Proof. destruct f; reflexivity. Qed.

Lemma emit_emit (f : file) (a b : list pystr) (st : state) :
  emit f b (emit f a st) = emit f (a ++ b) st.
Proof.
  unfold emit. rewrite get_set_file, set_set_file. now rewrite app_assoc.
Qed.

(** In the fixed mode, an experiment named [name] whose rollout record
    has one of the four policy tags gets the lines that [FINAL_DEFINE] and
    [FINAL_RETURN] hold for the tag: the marker, if there is one, and the
    accessor. *)
Lemma render_final_lines (U : unicodedata) (rollouts : list record)
      (attr rollout_attr : record) (name : pystr) (default : value)
      (p : policy) (st : state) :
  dict_find attr k_name = Some (VStr name) ->
  find_rollout rollouts (VStr name) = Ok (Some rollout_attr) ->
  dict_find rollout_attr k_default = Some default ->
  policy_of default = Some p ->
  render_final U rollouts attr st
  = (emit ExperimentsH
          (fixed_mode_output p (snake_to_pascal U name) (upper U name)) st,
     Ok tt).
Proof.
  intros Hname Hrollout Hdefault Hpolicy.
  destruct (FINAL_DEFINE_policy default p Hpolicy) as (fmt & Hfmt & Hmarker).
  unfold render_final, get_rollout_attr_for_experiment.
  unfold bind, lift, ret.
  unfold dict_getitem at 1. simpl hashable. cbv iota.
  fold k_name. rewrite Hname. cbv beta iota.
  rewrite Hrollout. cbv beta iota.
  unfold dict_getitem at 1. simpl hashable. cbv iota.
  fold k_default. rewrite Hdefault. cbv beta iota.
  rewrite Hfmt. cbv beta iota.
  rewrite (getitem_found _ attr k_name _ eq_refl Hname).
  rewrite (getitem_found _ rollout_attr k_default _ eq_refl Hdefault).
  rewrite (FINAL_RETURN_policy default p Hpolicy).
  unfold fixed_mode_output.
  rewrite <- (Hmarker (str "GRPC_EXPERIMENT_IS_INCLUDED_" ++ upper U name)).
  destruct fmt as [f|]; cbv beta iota; simpl py_upper; cbv beta iota;
    simpl py_snake_to_pascal; cbv beta iota.
  - rewrite !fprint_emit. cbv beta iota.
    rewrite emit_emit. reflexivity.
  - rewrite !fprint_emit. reflexivity.
Qed.

(** ** The accessor of a debug-only experiment *)

(** C8: the code at an experiment whose rollout has the policy [debug].
    The marker of [FINAL_DEFINE] is printed on lines of its own.  The text
    of [FINAL_RETURN] is put after the brace of the accessor, so the
    [#ifdef NDEBUG] that is to open the conditional is no directive: it is
    not at the start of its line.  The [#else] and [#endif] that follow
    are directives, and continue and close the conditional
    [GRPC_EXPERIMENTS_ARE_FINAL] around them; the last [#endif] of the file
    closes a conditional that is not open.  The file holds no accessor that
    returns true in debug builds only; for an enabled experiment the
    conditionals of the file are closed as they were opened.  An experiment
    without rollout record gets no accessor at all: the fixed mode raises
    KeyError there. *)
Theorem debug_accessor_malformed :
  let r := run ascii_only sample_source sample_today true [at_the_limit]
               [rollout "edge" (text "debug")] in
  snd r = Ok tt
  /\ option_map (fun l => firstn 9 (skipn 47 (physical_lines l)))
                (experiments_h (fst r))
     = Some [ str "#ifndef NDEBUG";
              str "#define GRPC_EXPERIMENT_IS_INCLUDED_EDGE";
              str "#endif";
              str "inline bool IsEdgeEnabled() { #ifdef NDEBUG";
              str "return false;";
              str "#else";
              str "return true;";
              str "#endif }";
              str "#else" ]
  /\ directive (str "if") (str "inline bool IsEdgeEnabled() { #ifdef NDEBUG")
     = false
  /\ option_map (fun l => nesting 0 (physical_lines l))
                (experiments_h (fst r))
     = Some None
  /\ option_map (fun l => nesting 0 (physical_lines l))
                (experiments_h
                   (fst (run ascii_only sample_source sample_today true
                             [at_the_limit] [rollout "edge" (VBool true)])))
     = Some (Some 0%nat)
  /\ snd (run ascii_only sample_source sample_today true [at_the_limit] [])
     = Raise KeyError.
Proof.
  vm_compute. repeat split.
Qed.

(** ** Runs that end in an exception *)

(** C1: the code at an experiment that no rollout record names.  The
    warning is printed and the record [{'name': name, 'default': 'false'}]
    stands in, but its default is the string ['false'], which is no key of
    [FINAL_DEFINE]: the fixed mode raises KeyError at the experiment,
    experiments.h stops there, the two other files are not written, and the
    process ends with status 1. *)
Theorem unmatched_experiment_raises :
  let r := run ascii_only sample_source sample_today true [foo_bar] [] in
  validate ascii_only sample_today true [foo_bar] [] initial_state
  = (fst (set_annotation (str "gRPC experiments:foo_bar:0,") initial_state),
     Ok tt)
  /\ snd r = Raise KeyError
  /\ exit_status (snd r) = 1%Z
  /\ stdout (fst r) = [WarningNoRollout (text "foo_bar")]
  /\ option_map (fun l => last l []) (experiments_h (fst r))
     = Some (str "#ifdef GRPC_EXPERIMENTS_ARE_FINAL")
  /\ experiments_cc (fst r) = None
  /\ experiments_bzl (fst r) = None.
Proof.
  vm_compute. repeat split.
Qed.

(** C2: the code at records that lack a field.  An experiment without
    [expiry] is reported, and line 106 or 110 then reads the field: KeyError
    ends the run there, and the record after it, which has no owner, is
    never checked.  A rollout record without [default] is reported and then
    read by line 87; one without [name] stops at line 81, whose message
    uses the unbound name [attr]; an expiry that is no date makes
    [strptime] raise.  In no case the end of validation is reached. *)
Theorem validation_raises_partway :
  validate ascii_only sample_today true [no_expiry; no_owner] [] initial_state
  = (report [NoExpiry (text "foo")] true initial_state, Raise KeyError)
  /\ validate ascii_only sample_today true [] [[field "name" (text "foo")]]
              initial_state
     = (report [NoDefault (text "foo")] true initial_state, Raise KeyError)
  /\ validate ascii_only sample_today true [] [[field "default" (VBool true)]]
              initial_state
     = (initial_state, Raise NameError)
  /\ validate ascii_only sample_today true
              [experiment "foo" "d" "o" "soon" []; no_owner] [] initial_state
     = (initial_state, Raise ValueError).
Proof.
  vm_compute. repeat split.
Qed.

(** C3: the code at a record that passes validation and has no
    [test_tags].  Validation finds nothing, experiments.h and
    experiments.cc are written, and line 319 reads the field: KeyError,
    and experiments.bzl is not written. *)
Theorem missing_test_tags_raises :
  let rollouts := [rollout "foo" (VBool true)] in
  let r := run ascii_only sample_source sample_today true [no_test_tags]
               rollouts in
  validate ascii_only sample_today true [no_test_tags] rollouts initial_state
  = (fst (set_annotation (str "gRPC experiments:foo:0,") initial_state), Ok tt)
  /\ snd r = Raise KeyError
  /\ stdout (fst r) = []
  /\ option_map (fun l => last l []) (experiments_h (fst r))
     = Some (str "#endif  // GRPC_SRC_CORE_LIB_EXPERIMENTS_EXPERIMENTS_H")
  /\ option_map (fun l => last l []) (experiments_cc (fst r))
     = Some (str "#endif")
  /\ experiments_bzl (fst r) = None.
Proof.
  vm_compute. repeat split.
Qed.

(** *** The loop over the experiments *)

Lemma bind_lift_ok (A B : Type) (r : result A) (a : A) (k : A -> M B)
      (st : state) :
  r = Ok a -> bind (lift r) k st = k a st.
Proof. intros ->. reflexivity. Qed.

Lemma bind_lift_raise (A B : Type) (r : result A) (e : exn) (k : A -> M B)
      (st : state) :
  r = Raise e -> bind (lift r) k st = (st, Raise e).
Proof. intros ->. reflexivity. Qed.

Lemma bind_ok (A B : Type) (m : M A) (k : A -> M B) (st st' : state) (a : A) :
  m st = (st', Ok a) -> bind m k st = k a st'.
Proof. intros E. unfold bind. now rewrite E. Qed.

Lemma bind_raise (A B : Type) (m : M A) (k : A -> M B) (st st' : state)
      (e : exn) :
  m st = (st', Raise e) -> bind m k st = (st', Raise e).
Proof. intros E. unfold bind. now rewrite E. Qed.

Lemma when_print_set_error (b : bool) (m : message) (st : state) :
  when b (bind (print m) (fun _ => set_error)) st
  = (report (if b then [m] else []) b st, Ok tt).
Proof.
  destruct b; simpl when.
  - apply print_set_error.
  - unfold ret. now rewrite report_nil.
Qed.

Lemma when_print2_set_error (b : bool) (m1 m2 : message) (st : state) :
  when b (bind (print m1) (fun _ => bind (print m2) (fun _ => set_error))) st
  = (report (if b then [m1; m2] else []) b st, Ok tt).
Proof.
  destruct b; simpl when.
  - unfold bind, print, set_error, report. simpl.
    now rewrite <- app_assoc, orb_true_r.
  - unfold ret. now rewrite report_nil.
Qed.

(** A record without a name is reported and skipped. *)
Lemma check_attr_unnamed (U : unicodedata) (today tq : Date.date)
      (check_dates : bool) (attr : record) (st : state) :
  dict_find attr k_name = None ->
  check_attr U today check_dates tq attr st
  = (report [NoName attr] true st, Ok tt).
Proof.
  intros Hn. unfold check_attr.
  rewrite (bind_lift_ok _ _ _ false) by
    (rewrite contains_field by reflexivity; unfold has_field; now rewrite Hn).
  apply print_set_error.
Qed.

(** A record with a name: the complaints about missing fields, then the
    checks of the expiry. *)
Ltac enter_check_attr Hname :=
  unfold check_attr;
  rewrite (bind_lift_ok _ _ _ true) by
    (rewrite contains_field by reflexivity; unfold has_field;
     now rewrite Hname);
  change (negb true) with false; cbv iota;
  rewrite (require_fields_run _ _ _ _ _ Hname);
  rewrite (bind_lift_ok _ _ _ _ _ _ (getitem_found _ _ k_name _ eq_refl Hname)).

Lemma check_attr_no_expiry (U : unicodedata) (today tq : Date.date)
      (check_dates : bool) (attr : record) (name : value) (st : state) :
  dict_find attr k_name = Some name ->
  dict_find attr k_expiry = None ->
  check_attr U today check_dates tq attr st
  = (report (missing_fields attr name) true st, Raise KeyError).
Proof.
  intros Hname Hexp. enter_check_attr Hname.
  assert (Hf : has_field attr k_expiry = false)
    by (unfold has_field; now rewrite Hexp).
  rewrite Hf. simpl negb. rewrite orb_true_r.
  destruct (py_eq name (VStr (str "monitoring_experiment")));
    now rewrite (bind_lift_raise _ _ _ _ _ _
                   (getitem_missing _ _ k_expiry eq_refl Hexp)).
Qed.

Lemma check_attr_unparsed (U : unicodedata) (today tq : Date.date)
      (check_dates : bool) (attr : record) (name e : value) (x : exn)
      (st : state) :
  dict_find attr k_name = Some name ->
  py_eq name (text "monitoring_experiment") = false ->
  dict_find attr k_expiry = Some e ->
  strptime_date U e = Raise x ->
  check_attr U today check_dates tq attr st
  = (report (missing_fields attr name)
            (negb (has_field attr k_description)
             || negb (has_field attr k_owner)) st, Raise x).
Proof.
  intros Hname Hmon Hexp Hparse. enter_check_attr Hname.
  assert (Hf : has_field attr k_expiry = true)
    by (unfold has_field; now rewrite Hexp).
  rewrite Hf. simpl negb. rewrite orb_false_r.
  unfold text in Hmon. rewrite Hmon.
  rewrite (bind_lift_ok _ _ _ _ _ _ (getitem_found _ _ k_expiry _ eq_refl Hexp)).
  now rewrite (bind_lift_raise _ _ _ _ _ _ Hparse).
Qed.

(** The record named [monitoring_experiment]: only the sentinel is looked
    at. *)
Lemma check_attr_monitoring (U : unicodedata) (today tq : Date.date)
      (check_dates : bool) (attr : record) (name e : value) (st : state) :
  dict_find attr k_name = Some name ->
  py_eq name (text "monitoring_experiment") = true ->
  dict_find attr k_expiry = Some e ->
  check_attr U today check_dates tq attr st
  = (report (missing_fields attr name
             ++ (if py_eq e (text "never-ever") then []
                 else [MonitoringShouldNeverExpire]))
            (negb (has_field attr k_description)
             || negb (has_field attr k_owner)
             || negb (py_eq e (text "never-ever"))) st, Ok tt).
Proof.
  intros Hname Hmon Hexp. enter_check_attr Hname.
  assert (Hf : has_field attr k_expiry = true)
    by (unfold has_field; now rewrite Hexp).
  rewrite Hf. simpl negb. rewrite orb_false_r.
  unfold text in Hmon. rewrite Hmon.
  rewrite (bind_lift_ok _ _ _ _ _ _ (getitem_found _ _ k_expiry _ eq_refl Hexp)).
  unfold text. destruct (py_eq e (VStr (str "never-ever"))); simpl when.
  - unfold ret. now rewrite app_nil_r, orb_false_r.
  - rewrite print_set_error, report_report. now rewrite !orb_true_r.
Qed.

(** C9.  A record named [monitoring_experiment] that has an [expiry] passes
    the expiry check exactly when the expiry is the literal [never-ever]:
    otherwise the complaint is printed and [error] is set.  Whatever the
    expiry is, the check returns, and its outcome depends neither on the
    current date, the date window or the mode nor on how dates are read:
    no date is parsed or compared. *)
Theorem monitoring_expiry (U : unicodedata) (today tq : Date.date)
        (check_dates : bool) (attr : record) (name e : value) (st : state)
        (Hname : dict_find attr k_name = Some name)
        (Hmon : py_eq name (text "monitoring_experiment") = true)
        (Hexp : dict_find attr k_expiry = Some e) :
  (e = text "never-ever" ->
   check_attr U today check_dates tq attr st
   = (report (missing_fields attr name)
             (negb (has_field attr k_description)
              || negb (has_field attr k_owner)) st, Ok tt))
  /\ (e <> text "never-ever" ->
      check_attr U today check_dates tq attr st
      = (report (missing_fields attr name ++ [MonitoringShouldNeverExpire])
                true st, Ok tt)).
Proof.
  pose proof (check_attr_monitoring U today tq check_dates attr name e st
                Hname Hmon Hexp) as Hrun.
  split; intros He; rewrite Hrun; unfold text in *.
  - apply py_eq_str in He. rewrite He. simpl negb.
    now rewrite app_nil_r, orb_false_r.
  - destruct (py_eq e (VStr (str "never-ever"))) eqn:E.
    + apply py_eq_str in E. contradiction.
    + simpl negb. now rewrite orb_true_r.
Qed.

Lemma monitoring_expiry_witness :
  dict_find monitoring k_name = Some (text "monitoring_experiment")
  /\ py_eq (text "monitoring_experiment") (text "monitoring_experiment") = true
  /\ dict_find monitoring k_expiry = Some (text "never-ever")
  /\ check_attr ascii_only sample_today true sample_today monitoring
                initial_state
     = (initial_state, Ok tt).
Proof.
  repeat (split; [reflexivity|]).
  exact (proj1 (monitoring_expiry ascii_only sample_today sample_today true
                  monitoring (text "monitoring_experiment")
                  (text "never-ever") initial_state eq_refl eq_refl eq_refl)
               eq_refl).
Defined.

(** In relaxed mode a date that parses ends the checks. *)
Lemma check_attr_relaxed (U : unicodedata) (today tq : Date.date)
      (attr : record) (name e : value) (expiry : Date.date) (st : state) :
  dict_find attr k_name = Some name ->
  py_eq name (text "monitoring_experiment") = false ->
  dict_find attr k_expiry = Some e ->
  strptime_date U e = Ok expiry ->
  check_attr U today false tq attr st
  = (report (missing_fields attr name)
            (negb (has_field attr k_description)
             || negb (has_field attr k_owner)) st, Ok tt).
Proof.
  intros Hname Hmon Hexp Hparse. enter_check_attr Hname.
  assert (Hf : has_field attr k_expiry = true)
    by (unfold has_field; now rewrite Hexp).
  rewrite Hf. simpl negb. rewrite orb_false_r.
  unfold text in Hmon. rewrite Hmon.
  rewrite (bind_lift_ok _ _ _ _ _ _ (getitem_found _ _ k_expiry _ eq_refl Hexp)).
  now rewrite (bind_lift_ok _ _ _ _ _ _ Hparse).
Qed.

(** In strict mode the date is held against the window, and the name goes
    to the annotation, whatever the checks have found. *)
Lemma check_attr_strict (U : unicodedata) (today tq : Date.date)
      (attr : record) (name e : value) (expiry : Date.date) (st : state) :
  dict_find attr k_name = Some name ->
  py_eq name (text "monitoring_experiment") = false ->
  dict_find attr k_expiry = Some e ->
  strptime_date U e = Ok expiry ->
  check_attr U today true tq attr st
  = let st' :=
      report (missing_fields attr name ++ date_complaints today tq expiry name e)
             (negb (has_field attr k_description)
              || negb (has_field attr k_owner)
              || Date.ltb expiry today || Date.gtb expiry tq) st in
    match annotation_entry name with
    | Ok entry => (append_annotation entry st', Ok tt)
    | Raise x => (st', Raise x)
    end.
Proof.
  intros Hname Hmon Hexp Hparse. enter_check_attr Hname.
  assert (Hf : has_field attr k_expiry = true)
    by (unfold has_field; now rewrite Hexp).
  rewrite Hf. simpl negb. rewrite orb_false_r.
  unfold text in Hmon. rewrite Hmon.
  rewrite (bind_lift_ok _ _ _ _ _ _ (getitem_found _ _ k_expiry _ eq_refl Hexp)).
  rewrite (bind_lift_ok _ _ _ _ _ _ Hparse).
  simpl when.
  rewrite (bind_ok _ _ _ _ _ _ _ (when_print_set_error _ _ _)).
  rewrite (bind_ok _ _ _ _ _ _ _ (when_print2_set_error _ _ _ _)).
  rewrite !report_report.
  unfold bind at 1, get_annotation at 1.
  unfold date_complaints. rewrite <- ?app_assoc, ?orb_assoc.
  destruct (annotation_entry name) as [entry|x]; reflexivity.
Qed.

Lemma strptime_date_raises (U : unicodedata) (e : value) (x : exn) :
  strptime_date U e = Raise x -> x = ValueError \/ x = TypeError.
Proof.
  unfold strptime_date. destruct e; try (intros [= <-]; now right).
  destruct (re_date U s) as [|[[[y m] d] rest] l]; [intros [= <-]; now left|].
  destruct rest; [|intros [= <-]; now left].
  destruct (Date.check_date_fields y m d); [discriminate|].
  intros [= <-]. now left.
Qed.

Lemma missing_fields_quiet (attr : record) (name : value) :
  ~ In AnnotationTooLong (missing_fields attr name).
Proof.
  unfold missing_fields.
  destruct (has_field attr k_description), (has_field attr k_owner),
    (has_field attr k_expiry); simpl; intuition discriminate.
Qed.

Lemma date_complaints_quiet (today tq expiry : Date.date) (name e : value) :
  ~ In AnnotationTooLong (date_complaints today tq expiry name e).
Proof.
  unfold date_complaints.
  destruct (Date.ltb expiry today), (Date.gtb expiry tq); simpl;
    intuition discriminate.
Qed.

Lemma printed_report (msgs : list message) (failed : bool) (st : state) :
  ~ In AnnotationTooLong msgs -> printed st (report msgs failed st) msgs.
Proof. intros Hq. split; [reflexivity | exact Hq]. Qed.

Lemma printed_trans (a b c : state) (m1 m2 : list message) :
  printed a b m1 -> printed b c m2 -> printed a c (m1 ++ m2).
Proof.
  intros [E1 Q1] [E2 Q2]. split.
  - now rewrite E2, E1, app_assoc.
  - rewrite in_app_iff. tauto.
Qed.

(** One round of the loop over the experiments in strict mode: either it
    ends and the annotation has grown by the entry of the record, or it
    raises, and not by [sys.exit]. *)
Lemma check_attr_step (U : unicodedata) (today tq : Date.date)
      (attr : record) (st st' : state) (r : result unit) :
  check_attr U today true tq attr st = (st', r) ->
  (exists msgs, printed st st' msgs)
  /\ match r with
     | Ok _ =>
         experiment_annotation st'
         = experiment_annotation st ++ annotation_of attr
     | Raise x => forall c, x <> SystemExit c
     end.
Proof.
  unfold annotation_of.
  destruct (dict_find attr k_name) as [name|] eqn:Hname.
  2:{ rewrite check_attr_unnamed by exact Hname. intros [= <- <-]. split.
      - eexists. apply printed_report. simpl. intuition discriminate.
      - simpl. now rewrite app_nil_r. }
  destruct (dict_find attr k_expiry) as [e|] eqn:Hexp.
  2:{ rewrite (check_attr_no_expiry _ _ _ _ _ name) by assumption.
      intros [= <- <-]. split.
      - eexists. apply printed_report, missing_fields_quiet.
      - discriminate. }
  destruct (py_eq name (text "monitoring_experiment")) eqn:Hmon.
  - rewrite (check_attr_monitoring U today tq true attr name e st
               Hname Hmon Hexp).
    apply py_eq_str in Hmon. subst name.
    assert (Hself : pystr_eqb (str "monitoring_experiment")
                              (str "monitoring_experiment") = true)
      by reflexivity.
    rewrite Hself. intros [= <- <-]. split.
    + eexists. apply printed_report. rewrite in_app_iff.
      intros [Hin|Hin]; [now apply missing_fields_quiet in Hin|].
      destruct (py_eq e (text "never-ever")); simpl in Hin;
        intuition discriminate.
    + simpl. now rewrite app_nil_r.
  - destruct (strptime_date U e) as [expiry|x] eqn:Hparse.
    2:{ rewrite (check_attr_unparsed _ _ _ _ _ name e x) by assumption.
        intros [= <- <-]. split.
        - eexists. apply printed_report, missing_fields_quiet.
        - destruct (strptime_date_raises _ _ _ Hparse) as [-> | ->];
            discriminate. }
    rewrite (check_attr_strict _ _ _ _ name e expiry) by assumption.
    cbv zeta.
    assert (Hq : ~ In AnnotationTooLong
                   (missing_fields attr name
                    ++ date_complaints today tq expiry name e)).
    { rewrite in_app_iff. intros [Hin|Hin].
      - now apply missing_fields_quiet in Hin.
      - now apply date_complaints_quiet in Hin. }
    destruct name as [ |b|z|s|l]; simpl annotation_entry;
      intros [= <- <-]; (split; [eexists; split; [reflexivity|exact Hq]|]);
      try discriminate.
    simpl in Hmon. unfold text in Hmon. simpl in Hmon. rewrite Hmon.
    reflexivity.
Qed.

(** *** The loop over the rollouts *)

Lemma check_rollout_ok (r : record) (st : state) :
  rollout_ok r = true -> check_rollout r st = (st, Ok tt).
Proof.
  unfold rollout_ok, has_field. intros Hok.
  apply andb_prop in Hok. destruct Hok as [Hn Hd].
  destruct (dict_find r k_name) as [name|] eqn:Hname; [|discriminate].
  destruct (dict_find r k_default) as [d|] eqn:Hdef; [|discriminate].
  apply andb_prop in Hd. destruct Hd as [Hh Hk].
  destruct (dict_find DEFAULTS d) as [v|] eqn:Hv; [|discriminate].
  unfold check_rollout, bind, lift, when, ret, dict_contains, dict_getitem.
  change (hashable k_name) with true. change (hashable k_default) with true.
  cbv beta iota. rewrite Hname. cbv beta iota.
  rewrite Hdef. cbv beta iota. change (negb true) with false. cbv beta iota.
  rewrite Hh, Hv. reflexivity.
Qed.

(** One round of the loop over the rollouts: it prints and sets [error]
    and does nothing else to the state; it raises by nothing like
    [sys.exit]; and it ends without a complaint for an acceptable record
    only. *)
Lemma check_rollout_step (r : record) (st st' : state) (res : result unit) :
  check_rollout r st = (st', res) ->
  (exists msgs failed,
      st' = report msgs failed st /\ ~ In AnnotationTooLong msgs)
  /\ match res with
     | Ok _ => rollout_ok r = true \/ error st' = true
     | Raise x => forall c, x <> SystemExit c
     end.
Proof.
  destruct (rollout_ok r) eqn:Hok.
  { rewrite check_rollout_ok by exact Hok. intros [= <- <-].
    split; [|now left].
    exists [], false. split; [now rewrite report_nil | intros []]. }
  unfold rollout_ok, has_field in Hok.
  unfold check_rollout, bind, lift, when, ret, raise, dict_contains,
    dict_getitem.
  change (hashable k_name) with true. change (hashable k_default) with true.
  cbv beta iota.
  destruct (dict_find r k_name) as [name|] eqn:Hname.
  2:{ cbn [negb]. intros [= <- <-]. split; [|discriminate].
      exists [], false. split; [now rewrite report_nil | intros []]. }
  cbn [negb]. cbv beta iota.
  destruct (dict_find r k_default) as [d|] eqn:Hdef.
  2:{ cbn [negb]. unfold print, set_error. cbv beta iota.
      intros [= <- <-]. split; [|discriminate].
      exists [NoDefault name], true. split.
      - unfold report. simpl. now rewrite orb_true_r.
      - simpl. intuition discriminate. }
  cbn [negb]. cbv beta iota.
  destruct (hashable d) eqn:Hh.
  2:{ intros [= <- <-]. split; [|discriminate].
      exists [], false. split; [now rewrite report_nil | intros []]. }
  cbn [andb] in Hok.
  destruct (dict_find DEFAULTS d) as [v|] eqn:Hv; [discriminate|].
  cbn [negb]. unfold print, set_error. cbv beta iota.
  intros [= <- <-]. split; [|now right].
  exists [InvalidDefault name d], true. split.
  - unfold report. simpl. now rewrite orb_true_r.
  - simpl. intuition discriminate.
Qed.

(** *** Loops *)

Lemma for_each_cons (A : Type) (body : A -> M unit) (x : A) (l : list A)
      (st : state) :
  for_each body (x :: l) st = bind (body x) (fun _ => for_each body l) st.
Proof. reflexivity. Qed.

(** A loop whose rounds keep an invariant [I] of the state and raise only
    exceptions in [E] keeps [I] when it ends and raises only within [E]. *)
Lemma for_each_invariant (A : Type) (body : A -> M unit)
      (I : list A -> state -> Prop) (E : exn -> Prop) (l : list A) :
  (forall done x st st' r,
      I done st -> body x st = (st', r) ->
      match r with
      | Ok _ => I (done ++ [x]) st'
      | Raise e => E e
      end) ->
  forall done st st' r,
    I done st -> for_each body l st = (st', r) ->
    match r with
    | Ok _ => I (done ++ l) st'
    | Raise e => E e
    end.
Proof.
  intros Hbody. induction l as [|x l IH]; intros done st st' r HI Hrun.
  - simpl in Hrun. unfold ret in Hrun. injection Hrun as <- <-.
    now rewrite app_nil_r.
  - rewrite for_each_cons in Hrun. unfold bind in Hrun.
    destruct (body x st) as [st1 [[]|e]] eqn:Hx.
    + pose proof (Hbody done x st st1 (Ok tt) HI Hx) as H1. simpl in H1.
      specialize (IH (done ++ [x]) st1 st' r H1 Hrun).
      now rewrite <- app_assoc in IH.
    + injection Hrun as <- <-.
      exact (Hbody done x st st1 (Raise e) HI Hx).
Qed.

Lemma rollouts_loop (rollouts : list record) (st st' : state)
      (r : result unit) :
  for_each check_rollout rollouts st = (st', r) ->
  match r with
  | Ok _ =>
      (exists msgs, printed st st' msgs)
      /\ experiment_annotation st' = experiment_annotation st
  | Raise e => forall c, e <> SystemExit c
  end.
Proof.
  intros Hrun.
  apply (for_each_invariant _ check_rollout
           (fun _ s => (exists msgs, printed st s msgs)
                       /\ experiment_annotation s = experiment_annotation st)
           (fun e => forall c, e <> SystemExit c) rollouts) with (done := [])
    in Hrun.
  - exact Hrun.
  - intros done x s s' res [[m1 P1] A1] Hx.
    destruct (check_rollout_step x s s' res Hx)
      as ((m2 & failed & -> & Q2) & Hres).
    destruct res; [|exact Hres].
    split; [|exact A1].
    exists (m1 ++ m2). eapply printed_trans; [eassumption|].
    now apply printed_report.
  - split; [|reflexivity].
    exists []. split; [now rewrite app_nil_r | intros []].
Qed.

Lemma attrs_loop (U : unicodedata) (today tq : Date.date)
      (attrs : list record) (st st' : state) (r : result unit) :
  for_each (check_attr U today true tq) attrs st = (st', r) ->
  match r with
  | Ok _ =>
      (exists msgs, printed st st' msgs)
      /\ experiment_annotation st'
         = experiment_annotation st ++ concat (map annotation_of attrs)
  | Raise e => forall c, e <> SystemExit c
  end.
Proof.
  intros Hrun.
  apply (for_each_invariant _ (check_attr U today true tq)
           (fun done s =>
              (exists msgs, printed st s msgs)
              /\ experiment_annotation s
                 = experiment_annotation st ++ concat (map annotation_of done))
           (fun e => forall c, e <> SystemExit c) attrs) with (done := [])
    in Hrun.
  - exact Hrun.
  - intros done x s s' res [[m1 P1] A1] Hx.
    destruct (check_attr_step U today tq x s s' res Hx) as ([m2 P2] & Hres).
    destruct res; [|exact Hres].
    split.
    + exists (m1 ++ m2). eapply printed_trans; eassumption.
    + rewrite Hres, A1, map_app, concat_app. simpl.
      now rewrite app_nil_r, app_assoc.
  - split; [|simpl; now rewrite app_nil_r].
    exists []. split; [now rewrite app_nil_r | intros []].
Qed.

(** The end of validation, lines 123-128. *)
Lemma validate_end (st : state) :
  let too_long := (2000 <? length (experiment_annotation st))%nat in
  let st' := report (if too_long then [AnnotationTooLong] else []) too_long st in
  bind get_annotation (fun annotation =>
    bind (when (2000 <? length annotation)%nat
            (bind (print AnnotationTooLong) (fun _ => set_error)))
         (fun _ => bind get_error
                     (fun err => when err (raise (SystemExit 1))))) st
  = (st', if error st' then Raise (SystemExit 1) else Ok tt).
Proof.
  cbv zeta. unfold bind at 1, get_annotation at 1.
  rewrite (bind_ok _ _ _ _ _ _ _ (when_print_set_error _ _ _)).
  unfold bind, get_error, when, raise, ret.
  destruct (error (report _ _ st)); reflexivity.
Qed.

(** C7, as amended.  In strict mode, when validation reaches its end, the
    annotation is the prefix followed by [name:0,] for each experiment
    record, in the order of the document, that has a name other than
    [monitoring_experiment], whether its other checks passed or not; the
    length complaint is printed exactly when the annotation is longer than
    2000 characters, and the run then exits with status 1. *)
Theorem annotation_strict (U : unicodedata) (today : Date.date)
        (attrs rollouts : list record) (st : state) (r : result unit)
        (Hrun : validate U today true attrs rollouts initial_state = (st, r))
        (Hend : r = Ok tt \/ r = Raise (SystemExit 1)) :
  experiment_annotation st
  = str "gRPC experiments:" ++ concat (map annotation_of attrs)
  /\ (In AnnotationTooLong (stdout st)
      <-> (2000 < length (experiment_annotation st))%nat)
  /\ ((2000 < length (experiment_annotation st))%nat ->
      r = Raise (SystemExit 1)).
Proof.
  assert (Hexit : forall e, (forall c, e <> SystemExit c) -> r = Raise e -> False).
  { intros e He ->. destruct Hend as [Hend|Hend]; [discriminate|].
    injection Hend as ->. now apply (He 1%Z). }
  unfold validate in Hrun. unfold bind at 1, lift at 1 in Hrun.
  destruct (Date.add_days today 180) as [tq|e] eqn:Htq.
  2:{ injection Hrun as <- <-. exfalso.
      unfold Date.add_days in Htq.
      destruct (_ && _) in Htq; [discriminate|].
      injection Htq as <-. destruct Hend; discriminate. }
  unfold bind at 1 in Hrun.
  destruct (for_each check_rollout rollouts initial_state) as [st1 r1] eqn:H1.
  apply rollouts_loop in H1.
  destruct r1 as [[]|e]; [|injection Hrun as <- <-; exfalso; eauto].
  destruct H1 as [[m1 [P1 Q1]] A1].
  unfold bind at 1 in Hrun.
  destruct (for_each (check_attr U today true tq) attrs st1) as [st2 r2] eqn:H2.
  apply attrs_loop in H2.
  destruct r2 as [[]|e]; [|injection Hrun as <- <-; exfalso; eauto].
  destruct H2 as [[m2 [P2 Q2]] A2].
  rewrite validate_end in Hrun. injection Hrun as <- <-.
  assert (Hann : experiment_annotation
                   (report (if (2000 <? length (experiment_annotation st2))%nat
                            then [AnnotationTooLong] else [])
                           (2000 <? length (experiment_annotation st2))%nat st2)
                 = experiment_annotation st2) by reflexivity.
  rewrite Hann. split; [|split].
  - rewrite A2, A1. reflexivity.
  - unfold report. simpl stdout. rewrite P2, P1. simpl.
    rewrite !in_app_iff.
    destruct (Nat.ltb_spec 2000 (length (experiment_annotation st2))).
    + simpl. tauto.
    + simpl. split; [|lia]. intros [[Hin|Hin]|[]]; tauto.
  - intros Hlong. apply Nat.ltb_lt in Hlong. rewrite Hlong.
    unfold report. simpl error. now rewrite orb_true_r.
Qed.

Lemma annotation_strict_witness :
  let st := fst (set_annotation (str "gRPC experiments:foo_bar:0,")
                                initial_state) in
  validate ascii_only sample_today true [foo_bar] [] initial_state
  = (st, Ok tt)
  /\ (Ok tt = Ok tt \/ Ok tt = Raise (SystemExit 1))
  /\ experiment_annotation st
     = str "gRPC experiments:" ++ concat (map annotation_of [foo_bar])
  /\ (In AnnotationTooLong (stdout st)
      <-> (2000 < length (experiment_annotation st))%nat)
  /\ ((2000 < length (experiment_annotation st))%nat ->
      Ok tt = Raise (SystemExit 1)).
Proof.
  cbv zeta. split; [reflexivity|]. split; [now left|].
  exact (annotation_strict ascii_only sample_today [foo_bar] [] _ (Ok tt)
           eq_refl (or_introl eq_refl)).
Defined.

(** C7 fails as stated.  In relaxed mode nothing is added to the
    annotation: an experiment whose entry alone has more than 2000
    characters passes validation.  In strict mode an experiment that has
    expired, which does not pass, is in the annotation all the same. *)
Lemma annotation_counterexample :
  (validate ascii_only sample_today false [long_named] [] initial_state
   = (initial_state, Ok tt)
   /\ (2000 < length (str "gRPC experiments:" ++ long_name ++ str ":0,"))%nat)
  /\ (let st := fst (validate ascii_only sample_today true [expired] []
                              initial_state) in
      stdout st = [Expired (text "old") (text "2022/12/31")]
      /\ experiment_annotation st = str "gRPC experiments:old:0,").
Proof.
  split; split.
  - vm_compute. reflexivity.
  - vm_compute. apply Nat.leb_le. vm_compute. reflexivity.
  - vm_compute. reflexivity.
  - vm_compute. reflexivity.
Qed.

(** *** Dates and their ordinals *)

Section DateFacts.
Local Open Scope Z_scope.

Lemma days_before_year_succ (y : Z) :
  Date.days_before_year (y + 1)
  = Date.days_before_year y + 365 + (if Date.is_leap y then 1 else 0).
Proof.
  unfold Date.days_before_year, Date.is_leap.
  destruct (Z.eqb_spec (y mod 4) 0), (Z.eqb_spec (y mod 100) 0),
    (Z.eqb_spec (y mod 400) 0); simpl;
    Z.div_mod_to_equations; lia.
Qed.

Lemma days_before_year_mono (y1 y2 : Z) :
  y1 <= y2 -> Date.days_before_year y1 <= Date.days_before_year y2.
Proof.
  unfold Date.days_before_year. intros H.
  Z.div_mod_to_equations. lia.
Qed.

Lemma month_cases (m : Z) :
  1 <= m <= 12 ->
  m = 1 \/ m = 2 \/ m = 3 \/ m = 4 \/ m = 5 \/ m = 6 \/ m = 7 \/ m = 8
  \/ m = 9 \/ m = 10 \/ m = 11 \/ m = 12.
Proof. lia. Qed.

(** The days before a month and the days of the month are the days before
    the next month; the year has 365 days, or 366. *)
Lemma days_before_month_next (y m : Z) :
  1 <= m <= 12 ->
  Date.days_before_month y m + Date.days_in_month y m
  = if m =? 12 then 365 + (if Date.is_leap y then 1 else 0)
    else Date.days_before_month y (m + 1).
Proof.
  intros Hm. unfold Date.days_before_month, Date.days_in_month.
  destruct (Date.is_leap y);
    destruct (month_cases m Hm) as [H|[H|[H|[H|[H|[H|[H|[H|[H|[H|[H|H]]]]]]]]]]];
    subst m; reflexivity.
Qed.

Lemma days_before_month_mono (y m1 m2 : Z) :
  1 <= m1 -> m1 < m2 -> m2 <= 12 ->
  Date.days_before_month y m1 + Date.days_in_month y m1
  <= Date.days_before_month y m2.
Proof.
  intros H1 H12 H2. unfold Date.days_before_month, Date.days_in_month.
  assert (Hm1 : 1 <= m1 <= 12) by lia.
  assert (Hm2 : 1 <= m2 <= 12) by lia.
  destruct (Date.is_leap y);
    destruct (month_cases m1 Hm1) as [H|[H|[H|[H|[H|[H|[H|[H|[H|[H|[H|H]]]]]]]]]]];
    subst m1;
    destruct (month_cases m2 Hm2) as [H|[H|[H|[H|[H|[H|[H|[H|[H|[H|[H|H]]]]]]]]]]];
    subst m2; try lia; simpl; lia.
Qed.

Lemma valid_fields (d : Date.date) :
  Date.valid d ->
  1 <= Date.year d <= 9999 /\ 1 <= Date.month d <= 12
  /\ 1 <= Date.day d <= Date.days_in_month (Date.year d) (Date.month d).
Proof.
  unfold Date.valid, Date.check_date_fields, Date.MAXYEAR. intros H.
  repeat (apply andb_prop in H; destruct H as [H ?]).
  repeat match goal with
         | E : (_ <=? _) = true |- _ => apply Z.leb_le in E
         end.
  lia.
Qed.

(** The ordinals of the dates of a year lie after the days before the
    year and within the year. *)
Lemma toordinal_in_year (d : Date.date) :
  Date.valid d ->
  Date.days_before_year (Date.year d) < Date.toordinal d
  /\ Date.toordinal d <= Date.days_before_year (Date.year d + 1).
Proof.
  intros Hv. destruct (valid_fields d Hv) as (Hy & Hm & Hd).
  unfold Date.toordinal, Date.ymd2ord.
  rewrite days_before_year_succ.
  pose proof (days_before_month_next (Date.year d) (Date.month d) Hm) as Hn.
  assert (0 <= Date.days_before_month (Date.year d) (Date.month d)).
  { unfold Date.days_before_month.
    destruct (Date.is_leap (Date.year d));
      destruct (month_cases _ Hm) as [H|[H|[H|[H|[H|[H|[H|[H|[H|[H|[H|H]]]]]]]]]]];
      rewrite H; simpl; lia. }
  destruct (Z.eqb_spec (Date.month d) 12) as [E|E].
  - lia.
  - pose proof (days_before_month_next (Date.year d) 12 ltac:(lia)) as H12.
    simpl (12 =? 12) in H12. cbv iota in H12.
    assert (Date.month d < 12) by lia.
    pose proof (days_before_month_mono (Date.year d) (Date.month d) 12
                  ltac:(lia) ltac:(lia) ltac:(lia)).
    assert (0 < Date.days_in_month (Date.year d) 12).
    { unfold Date.days_in_month. simpl. lia. }
    lia.
Qed.

(** Dates compare as their ordinals do. *)
Lemma cmp_toordinal (d1 d2 : Date.date) :
  Date.valid d1 -> Date.valid d2 ->
  Date.cmp d1 d2 = (Date.toordinal d1 ?= Date.toordinal d2).
Proof.
  intros V1 V2.
  destruct (valid_fields d1 V1) as (Hy1 & Hm1 & Hd1).
  destruct (valid_fields d2 V2) as (Hy2 & Hm2 & Hd2).
  pose proof (toordinal_in_year d1 V1) as [L1 R1].
  pose proof (toordinal_in_year d2 V2) as [L2 R2].
  unfold Date.cmp.
  destruct (Z.compare_spec (Date.year d1) (Date.year d2)) as [Ey|Ly|Gy].
  - unfold Date.toordinal, Date.ymd2ord. rewrite Ey.
    destruct (Z.compare_spec (Date.month d1) (Date.month d2)) as [Em|Lm|Gm].
    + rewrite Em.
      destruct (Z.compare_spec (Date.day d1) (Date.day d2));
        symmetry; [apply Z.compare_eq_iff | apply Z.compare_lt_iff
                   | apply Z.compare_gt_iff]; lia.
    + symmetry. apply Z.compare_lt_iff.
      pose proof (days_before_month_mono (Date.year d2) (Date.month d1)
                    (Date.month d2) ltac:(lia) Lm ltac:(lia)).
      rewrite Ey in Hd1. lia.
    + symmetry. apply Z.compare_gt_iff.
      pose proof (days_before_month_mono (Date.year d2) (Date.month d2)
                    (Date.month d1) ltac:(lia) Gm ltac:(lia)).
      lia.
  - symmetry. apply Z.compare_lt_iff.
    pose proof (days_before_year_mono (Date.year d1 + 1) (Date.year d2)
                  ltac:(lia)). lia.
  - symmetry. apply Z.compare_gt_iff.
    pose proof (days_before_year_mono (Date.year d2 + 1) (Date.year d1)
                  ltac:(lia)). lia.
Qed.

Lemma valid_intro (y m d : Z) :
  1 <= y <= 9999 -> 1 <= m <= 12 -> 1 <= d <= Date.days_in_month y m ->
  Date.valid (Date.mk y m d).
Proof.
  intros Hy Hm Hd. unfold Date.valid, Date.check_date_fields, Date.MAXYEAR.
  simpl.
  repeat (apply andb_true_intro; split); apply Z.leb_le; lia.
Qed.

(** A year written by its number of 400-year, 100-year and 4-year cycles
    and of single years. *)
Lemma year_of_cycles (a b c d : Z) :
  0 <= a -> 0 <= b <= 3 -> 0 <= c <= 24 -> 0 <= d <= 3 ->
  Date.days_before_year (400 * a + 100 * b + 4 * c + d + 1)
  = 146097 * a + 36524 * b + 1461 * c + 365 * d
  /\ Date.is_leap (400 * a + 100 * b + 4 * c + d + 1)
     = (d =? 3) && (negb (c =? 24) || (b =? 3)).
Proof.
  intros Ha Hb Hc Hd. split.
  - unfold Date.days_before_year. Z.div_mod_to_equations. lia.
  - unfold Date.is_leap.
    destruct (Z.eqb_spec d 3), (Z.eqb_spec c 24), (Z.eqb_spec b 3),
      (Z.eqb_spec ((400 * a + 100 * b + 4 * c + d + 1) mod 4) 0),
      (Z.eqb_spec ((400 * a + 100 * b + 4 * c + d + 1) mod 100) 0),
      (Z.eqb_spec ((400 * a + 100 * b + 4 * c + d + 1) mod 400) 0);
      simpl; try reflexivity; exfalso; Z.div_mod_to_equations; lia.
Qed.

Lemma month_and_day_spec (leap : bool) (n : Z) :
  0 <= n < 365 + (if leap then 1 else 0) ->
  let (m, d) := Date.month_and_day leap n in
  1 <= m <= 12
  /\ 1 <= d <= Date.DAYS_IN_MONTH m + (if (m =? 2) && leap then 1 else 0)
  /\ Date.DAYS_BEFORE_MONTH m + (if (m >? 2) && leap then 1 else 0) + d
     = n + 1.
Proof.
  intros Hn.
  assert (Hok : month_and_day_ok leap (Z.to_N n) = true).
  { destruct leap.
    - apply (below_forallb (month_and_day_ok true) 366);
        [vm_compute; reflexivity | lia].
    - apply (below_forallb (month_and_day_ok false) 365);
        [vm_compute; reflexivity | lia]. }
  unfold month_and_day_ok in Hok. rewrite Z2N.id in Hok by lia.
  destruct (Date.month_and_day leap n) as [m d].
  repeat (apply andb_prop in Hok; destruct Hok as [Hok ?]).
  repeat match goal with
         | E : (_ <=? _) = true |- _ => apply Z.leb_le in E
         | E : (_ =? _) = true |- _ => apply Z.eqb_eq in E
         end.
  lia.
Qed.

(** [fromordinal] is a date, and the date of the ordinal. *)
Lemma fromordinal_toordinal (o : Z) :
  1 <= o <= Date.MAXORDINAL ->
  Date.valid (Date.fromordinal o) /\ Date.toordinal (Date.fromordinal o) = o.
Proof.
  unfold Date.MAXORDINAL. intros Ho.
  unfold Date.fromordinal, Date.ord2ymd. cbv zeta.
  unfold Date.DI400Y, Date.DI100Y, Date.DI4Y.
  set (n0 := o - 1).
  set (a := n0 / 146097). set (r1 := n0 mod 146097).
  set (b := r1 / 36524). set (r2 := r1 mod 36524).
  set (c := r2 / 1461). set (r3 := r2 mod 1461).
  set (d := r3 / 365). set (r := r3 mod 365).
  assert (H0 : n0 = o - 1) by reflexivity.
  assert (H1 : n0 = 146097 * a + r1 /\ 0 <= r1 < 146097)
    by (subst a r1; Z.div_mod_to_equations; lia).
  assert (H2 : r1 = 36524 * b + r2 /\ 0 <= r2 < 36524)
    by (subst b r2; Z.div_mod_to_equations; lia).
  assert (H3 : r2 = 1461 * c + r3 /\ 0 <= r3 < 1461)
    by (subst c r3; Z.div_mod_to_equations; lia).
  assert (H4 : r3 = 365 * d + r /\ 0 <= r < 365)
    by (subst d r; Z.div_mod_to_equations; lia).
  clearbody n0 a r1 b r2 c r3 d r.
  assert (Ha : 0 <= a) by lia.
  assert (Hb : 0 <= b <= 4) by lia.
  assert (Hc : 0 <= c <= 24) by lia.
  assert (Hd : 0 <= d <= 4) by lia.
  destruct (Z.eqb_spec d 4) as [Ed|Nd]; simpl orb.
  - (* the last day of a leap year that ends a 4-year cycle *)
    assert (Hb3 : 0 <= b <= 3) by lia.
    assert (Hc23 : 0 <= c <= 23) by lia.
    destruct (year_of_cycles a b c 3 Ha Hb3 ltac:(lia) ltac:(lia))
      as [Hdby Hleap].
    replace (a * 400 + 1 + b * 100 + c * 4 + d - 1)
      with (400 * a + 100 * b + 4 * c + 3 + 1) by lia.
    assert (Hl : Date.is_leap (400 * a + 100 * b + 4 * c + 3 + 1) = true).
    { rewrite Hleap. destruct (Z.eqb_spec c 24); [lia|reflexivity]. }
    split.
    + apply valid_intro; [lia | lia |].
      unfold Date.days_in_month. change (12 =? 2) with false.
      cbn [andb]. cbv iota. change (Date.DAYS_IN_MONTH 12) with 31. lia.
    + unfold Date.toordinal, Date.ymd2ord, Date.days_before_month.
      cbn [Date.year Date.month Date.day].
      rewrite Hdby, Hl. change (Date.DAYS_BEFORE_MONTH 12) with 334.
      change ((12 >? 2) && true) with true. cbv iota. lia.
  - destruct (Z.eqb_spec b 4) as [Eb|Nb].
    + (* the last day of a 400-year cycle *)
      destruct (year_of_cycles a 3 24 3 Ha ltac:(lia) ltac:(lia) ltac:(lia))
        as [Hdby Hleap].
      replace (a * 400 + 1 + b * 100 + c * 4 + d - 1)
        with (400 * a + 100 * 3 + 4 * 24 + 3 + 1) by lia.
      split.
      * apply valid_intro; [lia | lia |].
        unfold Date.days_in_month. change (12 =? 2) with false.
        cbn [andb]. cbv iota. change (Date.DAYS_IN_MONTH 12) with 31. lia.
      * unfold Date.toordinal, Date.ymd2ord, Date.days_before_month.
        cbn [Date.year Date.month Date.day].
        rewrite Hdby, Hleap. change (Date.DAYS_BEFORE_MONTH 12) with 334.
        change ((12 >? 2) && ((3 =? 3) && (negb (24 =? 24) || (3 =? 3))))
          with true.
        cbv iota. lia.
    + assert (Hb3 : 0 <= b <= 3) by lia.
      assert (Hd3 : 0 <= d <= 3) by lia.
      destruct (year_of_cycles a b c d Ha Hb3 Hc Hd3) as [Hdby Hleap].
      replace (a * 400 + 1 + b * 100 + c * 4 + d)
        with (400 * a + 100 * b + 4 * c + d + 1) by lia.
      set (leap := (d =? 3) && (negb (c =? 24) || (b =? 3))) in *.
      pose proof (month_and_day_spec leap r) as Hmd.
      destruct (Date.month_and_day leap r) as [m dd].
      destruct Hmd as (Hm & Hdd & Hsum); [destruct leap; lia|].
      split.
      * apply valid_intro; [lia | lia |].
        unfold Date.days_in_month. rewrite Hleap.
        destruct (Z.eqb_spec m 2) as [->|Hm2]; cbn [andb] in *.
        -- change (Date.DAYS_IN_MONTH 2) with 28 in *. destruct leap; lia.
        -- lia.
      * unfold Date.toordinal, Date.ymd2ord, Date.days_before_month.
        cbn [Date.year Date.month Date.day].
        rewrite Hdby, Hleap. lia.
Qed.

(** Adding days to a date adds them to its ordinal. *)
Lemma add_days_toordinal (d d' : Date.date) (n : Z) :
  Date.add_days d n = Ok d' ->
  Date.valid d' /\ Date.toordinal d' = Date.toordinal d + n.
Proof.
  unfold Date.add_days.
  destruct (Z.ltb_spec 0 (Date.toordinal d + n)); [|discriminate].
  destruct (Z.leb_spec (Date.toordinal d + n) Date.MAXORDINAL);
    [|discriminate].
  simpl. intros [= <-]. apply fromordinal_toordinal. lia.
Qed.

Lemma strptime_date_valid (U : unicodedata) (e : value) (d : Date.date) :
  strptime_date U e = Ok d -> Date.valid d.
Proof.
  unfold strptime_date. destruct e; try discriminate.
  destruct (re_date U s) as [|[[[y m] dd] rest] l]; [discriminate|].
  destruct rest; [|discriminate].
  destruct (Date.check_date_fields y m dd) eqn:E; [|discriminate].
  intros [= <-]. exact E.
Qed.

Lemma ltb_toordinal (d1 d2 : Date.date) :
  Date.valid d1 -> Date.valid d2 ->
  Date.ltb d1 d2 = (Date.toordinal d1 <? Date.toordinal d2).
Proof.
  intros V1 V2. unfold Date.ltb, Z.ltb. now rewrite cmp_toordinal.
Qed.

Lemma gtb_toordinal (d1 d2 : Date.date) :
  Date.valid d1 -> Date.valid d2 ->
  Date.gtb d1 d2 = (Date.toordinal d2 <? Date.toordinal d1).
Proof.
  intros V1 V2. unfold Date.gtb, Z.ltb. rewrite cmp_toordinal by assumption.
  rewrite (Z.compare_antisym (Date.toordinal d1) (Date.toordinal d2)).
  destruct (Date.toordinal d1 ?= Date.toordinal d2); reflexivity.
Qed.

End DateFacts.

(** *** Validation that passes *)

Lemma report_error (msgs : list message) (failed : bool) (st : state) :
  error st = true -> error (report msgs failed st) = true.
Proof. intros H. unfold report. simpl. now rewrite H. Qed.

(** No round of the loop over the experiments clears [error]. *)
Lemma check_attr_error (U : unicodedata) (today tq : Date.date)
      (check_dates : bool) (attr : record) (st st' : state)
      (r : result unit) :
  check_attr U today check_dates tq attr st = (st', r) ->
  error st = true -> error st' = true.
Proof.
  intros Hrun Herr.
  destruct (dict_find attr k_name) as [name|] eqn:Hname.
  2:{ rewrite check_attr_unnamed in Hrun by exact Hname.
      injection Hrun as <- <-. now apply report_error. }
  destruct (dict_find attr k_expiry) as [e|] eqn:Hexp.
  2:{ rewrite (check_attr_no_expiry _ _ _ _ _ name) in Hrun by assumption.
      injection Hrun as <- <-. now apply report_error. }
  destruct (py_eq name (text "monitoring_experiment")) eqn:Hmon.
  - rewrite (check_attr_monitoring U today tq check_dates attr name e st
               Hname Hmon Hexp) in Hrun.
    injection Hrun as <- <-. now apply report_error.
  - destruct (strptime_date U e) as [expiry|x] eqn:Hparse.
    2:{ rewrite (check_attr_unparsed _ _ _ _ _ name e x) in Hrun
          by assumption.
        injection Hrun as <- <-. now apply report_error. }
    destruct check_dates.
    + rewrite (check_attr_strict _ _ _ _ name e expiry) in Hrun by assumption.
      cbv zeta in Hrun.
      destruct (annotation_entry name); injection Hrun as <- <-;
        [unfold append_annotation; cbn [error]|]; now apply report_error.
    + rewrite (check_attr_relaxed _ _ _ _ name e expiry) in Hrun
        by assumption.
      injection Hrun as <- <-. now apply report_error.
Qed.

Lemma attrs_loop_error (U : unicodedata) (today tq : Date.date)
      (check_dates : bool) (attrs : list record) (st st' : state) :
  for_each (check_attr U today check_dates tq) attrs st = (st', Ok tt) ->
  error st = true -> error st' = true.
Proof.
  intros Hrun Herr.
  apply (for_each_invariant _ (check_attr U today check_dates tq)
           (fun _ s => error s = true) (fun _ => True) attrs)
    with (done := []) in Hrun; [exact Hrun | | exact Herr].
  intros done x s s' res Hs Hx. destruct res; [|exact I].
  exact (check_attr_error _ _ _ _ _ _ _ _ Hx Hs).
Qed.

(** The loop over the rollouts ends with [error] unset on acceptable
    records only, and then it has changed nothing. *)
Lemma rollouts_loop_ok (rollouts : list record) : forall st st',
  for_each check_rollout rollouts st = (st', Ok tt) ->
  error st' = false ->
  forallb rollout_ok rollouts = true /\ st' = st.
Proof.
  induction rollouts as [|x l IH]; intros st st' Hrun Herr.
  - injection Hrun as <-. split; reflexivity.
  - rewrite for_each_cons in Hrun. unfold bind in Hrun.
    destruct (check_rollout x st) as [s [[]|e]] eqn:Hx; [|discriminate].
    destruct (check_rollout_step x st s (Ok tt) Hx) as (_ & [Hok|Hbad]).
    + rewrite (check_rollout_ok x st Hok) in Hx. injection Hx as <-.
      destruct (IH st st' Hrun Herr) as [Hall ->].
      split; [|reflexivity]. simpl. now rewrite Hok, Hall.
    + exfalso.
      assert (Hmono : error st' = true).
      { apply (for_each_invariant _ check_rollout
                 (fun _ s => error s = true) (fun _ => True) l)
          with (done := []) in Hrun; [exact Hrun | | exact Hbad].
        intros done y a b res Ha Hy. destruct res as [[]|]; [|exact I].
        destruct (check_rollout_step y a b (Ok tt) Hy)
          as ((m & f & -> & _) & _).
        now apply report_error. }
      congruence.
Qed.

Lemma rollouts_loop_all_ok (rollouts : list record) (st : state) :
  forallb rollout_ok rollouts = true ->
  for_each check_rollout rollouts st = (st, Ok tt).
Proof.
  induction rollouts as [|x l IH]; intros Hall; [reflexivity|].
  simpl in Hall. apply andb_prop in Hall. destruct Hall as [Hx Hl].
  rewrite for_each_cons. unfold bind. rewrite (check_rollout_ok x st Hx).
  now apply IH.
Qed.

(** When validation passes, every rollout record is acceptable. *)
Lemma validated_rollouts_ok (U : unicodedata) (today : Date.date)
      (check_dates : bool) (attrs rollouts : list record) (st : state) :
  validate U today check_dates attrs rollouts initial_state = (st, Ok tt) ->
  forallb rollout_ok rollouts = true.
Proof.
  intros Hrun. unfold validate in Hrun.
  unfold bind at 1, lift at 1 in Hrun.
  destruct (Date.add_days today 180) as [tq|e]; [|discriminate].
  unfold bind at 1 in Hrun.
  destruct (for_each check_rollout rollouts initial_state)
    as [st1 [[]|e]] eqn:H1; [|discriminate].
  unfold bind at 1 in Hrun.
  destruct (for_each (check_attr U today check_dates tq) attrs st1)
    as [st2 [[]|e]] eqn:H2; [|discriminate].
  rewrite validate_end in Hrun.
  destruct (error (report _ _ st2)) eqn:Herr; [discriminate|].
  unfold report in Herr. simpl in Herr.
  apply orb_false_elim in Herr. destruct Herr as [Herr2 _].
  destruct (error st1) eqn:Herr1.
  - pose proof (attrs_loop_error _ _ _ _ _ _ _ H2 Herr1). congruence.
  - exact (proj1 (rollouts_loop_ok rollouts _ _ H1 Herr1)).
Qed.

(** *** Runs on two rollout documents *)

Lemma bind_ext (A B : Type) (m1 m2 : M A) (k1 k2 : A -> M B) (st : state) :
  m1 st = m2 st ->
  (forall a st', k1 a st' = k2 a st') ->
  bind m1 k1 st = bind m2 k2 st.
Proof.
  intros Hm Hk. unfold bind. rewrite Hm.
  destruct (m2 st) as [st' [a|e]]; [apply Hk | reflexivity].
Qed.

Lemma for_each_ext (A : Type) (f g : A -> M unit) (l : list A) :
  (forall x, In x l -> forall st, f x st = g x st) ->
  forall st, for_each f l st = for_each g l st.
Proof.
  induction l as [|x l IH]; intros H st; [reflexivity|].
  rewrite !for_each_cons. apply bind_ext.
  - apply H. now left.
  - intros _ st'. apply IH. intros y Hy. apply H. now right.
Qed.

Lemma getitem_ok (V : Type) (d : dict V) (k : value) (v : V) :
  dict_getitem d k = Ok v -> dict_find d k = Some v.
Proof.
  unfold dict_getitem. destruct (hashable k); [|discriminate].
  destruct (dict_find d k); [|discriminate]. now intros [= ->].
Qed.

Section TwoRollouts.
Variable U : unicodedata.
Variable my_source : list pystr.
Variables attrs r1 r2 : list record.

(** Every experiment resolves to the same rollout record in both. *)
Hypothesis Hfind :
  forall attr name,
    In attr attrs -> dict_find attr k_name = Some name ->
    find_rollout r1 name = find_rollout r2 name.

Hypothesis Hdebug : debug_only_used r1 = debug_only_used r2.

Lemma resolve_ext (attr : record) (B : Type) (k1 k2 : record -> M B)
      (st : state) :
  In attr attrs ->
  (forall rollout_attr st', k1 rollout_attr st' = k2 rollout_attr st') ->
  bind (lift (dict_getitem attr k_name))
       (fun name => bind (get_rollout_attr_for_experiment r1 name) k1) st
  = bind (lift (dict_getitem attr k_name))
         (fun name => bind (get_rollout_attr_for_experiment r2 name) k2) st.
Proof.
  intros Hin Hk. unfold bind at 1 3, lift.
  destruct (dict_getitem attr k_name) as [name|e] eqn:Hname; [|reflexivity].
  apply getitem_ok in Hname.
  apply bind_ext; [|exact Hk].
  unfold get_rollout_attr_for_experiment.
  now rewrite (Hfind attr name Hin Hname).
Qed.

Lemma render_final_ext (attr : record) (st : state) :
  In attr attrs -> render_final U r1 attr st = render_final U r2 attr st.
Proof.
  intros Hin. unfold render_final. apply resolve_ext; [exact Hin|].
  reflexivity.
Qed.

Lemma render_metadata_ext (attr : record) (st : state) :
  In attr attrs -> render_metadata U r1 attr st = render_metadata U r2 attr st.
Proof.
  intros Hin. unfold render_metadata. apply resolve_ext; [exact Hin|].
  reflexivity.
Qed.

Lemma collect_tags_ext (l : list record) :
  incl l attrs ->
  forall bzl st, collect_tags r1 l bzl st = collect_tags r2 l bzl st.
Proof.
  induction l as [|attr l IH]; intros Hincl bzl st; [reflexivity|].
  simpl. apply resolve_ext; [apply Hincl; now left|].
  intros rollout_attr st'.
  apply bind_ext; [reflexivity|]. intros test_tags st1.
  apply bind_ext; [reflexivity|]. intros tags st2.
  apply bind_ext; [reflexivity|]. intros bzl' st3.
  apply IH. intros x Hx. apply Hincl. now right.
Qed.

Lemma render_h_ext (st : state) :
  render_h U my_source attrs r1 st = render_h U my_source attrs r2 st.
Proof.
  unfold render_h.
  repeat (apply bind_ext; [reflexivity | intros ? ?]).
  apply bind_ext; [|reflexivity].
  apply for_each_ext. intros x Hx s. now apply render_final_ext.
Qed.

Lemma debug_block_ext (X rest1 rest2 : M unit) (st : state) :
  (forall s, rest1 s = rest2 s) ->
  bind (lift (have_defaults r1))
       (fun defaults =>
          bind (when (existsb (pystr_eqb (str "kDefaultForDebugOnly"))
                              defaults) X)
               (fun _ => rest1)) st
  = bind (lift (have_defaults r2))
         (fun defaults =>
            bind (when (existsb (pystr_eqb (str "kDefaultForDebugOnly"))
                                defaults) X)
                 (fun _ => rest2)) st.
Proof.
  intros Hrest. pose proof Hdebug as Hd. unfold debug_only_used in Hd.
  unfold bind at 1 3, lift.
  destruct (have_defaults r1) as [d1|e1], (have_defaults r2) as [d2|e2];
    simpl in Hd; try discriminate.
  - injection Hd as ->. apply bind_ext; [reflexivity|]. intros _ s. apply Hrest.
  - now injection Hd as ->.
Qed.

Lemma render_cc_ext (st : state) :
  render_cc U my_source attrs r1 st = render_cc U my_source attrs r2 st.
Proof.
  unfold render_cc.
  repeat (apply bind_ext; [reflexivity | intros ? ?]).
  apply debug_block_ext. intros s.
  repeat (apply bind_ext; [reflexivity | intros ? ?]).
  apply bind_ext; [|reflexivity].
  apply for_each_ext. intros x Hx s'. now apply render_metadata_ext.
Qed.

Lemma render_ext (st : state) :
  render U my_source attrs r1 st = render U my_source attrs r2 st.
Proof.
  unfold render.
  apply bind_ext; [apply render_h_ext|]. intros _ s1.
  apply bind_ext; [apply render_cc_ext|]. intros _ s2.
  apply bind_ext; [|reflexivity].
  apply collect_tags_ext. apply incl_refl.
Qed.

End TwoRollouts.

(** The two loops over the rollouts agree: so does validation. *)
Lemma validate_ext (U : unicodedata) (today : Date.date) (check_dates : bool)
      (attrs r1 r2 : list record) :
  for_each check_rollout r1 initial_state
  = for_each check_rollout r2 initial_state ->
  validate U today check_dates attrs r1 initial_state
  = validate U today check_dates attrs r2 initial_state.
Proof.
  intros H. unfold validate.
  destruct (Date.add_days today 180) as [tq|e]; [|reflexivity].
  rewrite 2!(bind_lift_ok _ _ (Ok tq) tq _ _ eq_refl).
  apply bind_ext; [exact H | reflexivity].
Qed.

(** On acceptable records the test of line 287 succeeds, and says whether
    a record has the default [debug]. *)
Lemma debug_only_used_ok (rollouts : list record) :
  forallb rollout_ok rollouts = true ->
  debug_only_used rollouts = Ok (has_debug_default rollouts).
Proof.
  unfold debug_only_used.
  induction rollouts as [|r l IH]; intros Hall; [reflexivity|].
  simpl in Hall. apply andb_prop in Hall. destruct Hall as [Hr Hl].
  specialize (IH Hl).
  unfold rollout_ok in Hr. apply andb_prop in Hr. destruct Hr as [_ Hd].
  change (has_debug_default (r :: l))
    with (match dict_find r k_default with
          | Some d => py_eq (VStr (str "debug")) d
          | None => false
          end || has_debug_default l).
  cbn [have_defaults].
  destruct (dict_find r k_default) as [d|] eqn:Hdef; [|discriminate].
  apply andb_prop in Hd. destruct Hd as [Hh Hk].
  rewrite (getitem_found _ r k_default d eq_refl Hdef). cbn [rbind].
  destruct (have_defaults l) as [ds|e]; [|discriminate].
  cbn [rbind] in IH. injection IH as IH.
  rewrite <- IH.
  unfold dict_getitem. rewrite Hh.
  destruct d as [ |b|z|s|v]; try discriminate.
  - destruct b; reflexivity.
  - destruct z as [|[q|q|]|q]; try discriminate; reflexivity.
  - simpl in Hk |- *.
    destruct (pystr_eqb (str "broken") s) eqn:E1.
    { apply pystr_eqb_eq in E1. subst s. reflexivity. }
    destruct (pystr_eqb (str "debug") s) eqn:E2; [reflexivity|discriminate].
Qed.

Lemma rollout_ok_named (r : record) :
  rollout_ok r = true -> exists n, dict_find r k_name = Some n.
Proof.
  unfold rollout_ok, has_field. intros H. apply andb_prop in H.
  destruct H as [H _]. destruct (dict_find r k_name) as [n|]; [|discriminate].
  now exists n.
Qed.

(** The loop of [get_rollout_attr_for_experiment] steps over a record of
    another name. *)
Lemma find_rollout_skip (r : record) (l : list record) (name : value) :
  rollout_ok r = true -> named name r = false ->
  find_rollout (r :: l) name = find_rollout l name.
Proof.
  intros Hok Hn. destruct (rollout_ok_named r Hok) as [n Hname].
  unfold named in Hn. rewrite Hname in Hn.
  cbn [find_rollout]. rewrite (getitem_found _ r k_name n eq_refl Hname).
  cbn [rbind]. now rewrite Hn.
Qed.

Lemma run_ext (U : unicodedata) (my_source : list pystr) (today : Date.date)
      (check_dates : bool) (attrs r1 r2 : list record) :
  for_each check_rollout r1 initial_state
  = for_each check_rollout r2 initial_state ->
  (forall attr name,
      In attr attrs -> dict_find attr k_name = Some name ->
      find_rollout r1 name = find_rollout r2 name) ->
  (forallb rollout_ok r1 = true -> forallb rollout_ok r2 = true ->
   has_debug_default r1 = has_debug_default r2) ->
  run U my_source today check_dates attrs r1
  = run U my_source today check_dates attrs r2.
Proof.
  intros Hloop Hfind Hdebug.
  pose proof (validate_ext U today check_dates attrs r1 r2 Hloop) as Hval.
  unfold run, main, bind. rewrite <- Hval.
  destruct (validate U today check_dates attrs r1 initial_state)
    as [st [[]|e]] eqn:H1; [|reflexivity].
  pose proof (validated_rollouts_ok _ _ _ _ _ _ H1) as Hok1.
  symmetry in Hval.
  pose proof (validated_rollouts_ok _ _ _ _ _ _ Hval) as Hok2.
  apply render_ext; [exact Hfind|].
  rewrite (debug_only_used_ok r1 Hok1), (debug_only_used_ok r2 Hok2).
  f_equal. now apply Hdebug.
Qed.

(** C5, as amended.  Two rollout documents that differ only by records
    which validation accepts and whose name no experiment record has, and
    which agree on whether some record has the default [debug], give the
    same run on the same experiment document: the same messages, the same
    outcome and the same three files. *)
Theorem unmatched_rollouts_ignored (U : unicodedata) (my_source : list pystr)
        (today : Date.date) (check_dates : bool)
        (attrs r1 r2 : list record)
        (Hdiff : differ_by (fun r => rollout_ok r = true /\ unmatched attrs r)
                           r1 r2)
        (Hdebug : has_debug_default r1 = has_debug_default r2) :
  run U my_source today check_dates attrs r1
  = run U my_source today check_dates attrs r2.
Proof.
  apply run_ext; [| |intros _ _; exact Hdebug].
  - clear Hdebug. generalize initial_state.
    induction Hdiff as [|r l1 l2 _ IH|r l1 l2 [Hok _] _ IH|r l1 l2 [Hok _] _ IH];
      intros st.
    + reflexivity.
    + rewrite !for_each_cons. apply bind_ext; [reflexivity|].
      intros _ st'. apply IH.
    + rewrite for_each_cons. unfold bind.
      rewrite (check_rollout_ok r st Hok). apply IH.
    + rewrite for_each_cons. unfold bind.
      rewrite (check_rollout_ok r st Hok). apply IH.
  - clear Hdebug. intros attr name Hin Hname.
    induction Hdiff as [|r l1 l2 _ IH|r l1 l2 [Hok Hun] _ IH
                        |r l1 l2 [Hok Hun] _ IH].
    + reflexivity.
    + cbn [find_rollout]. now rewrite IH.
    + rewrite (find_rollout_skip r l1 name Hok (Hun attr name Hin Hname)).
      exact IH.
    + rewrite (find_rollout_skip r l2 name Hok (Hun attr name Hin Hname)).
      exact IH.
Qed.

Lemma unmatched_rollouts_ignored_witness :
  differ_by (fun r => rollout_ok r = true /\ unmatched [foo_bar] r)
            foo_bar_on
            [rollout "foo_bar" (VBool true); rollout "ghost" (VBool false)]
  /\ has_debug_default foo_bar_on
     = has_debug_default
         [rollout "foo_bar" (VBool true); rollout "ghost" (VBool false)]
  /\ run ascii_only sample_source sample_today true [foo_bar] foo_bar_on
     = run ascii_only sample_source sample_today true [foo_bar]
           [rollout "foo_bar" (VBool true); rollout "ghost" (VBool false)].
Proof.
  assert (Hdiff : differ_by
                    (fun r => rollout_ok r = true /\ unmatched [foo_bar] r)
                    foo_bar_on
                    [rollout "foo_bar" (VBool true);
                     rollout "ghost" (VBool false)]).
  { apply differ_same. apply differ_right; [|apply differ_nil].
    split; [reflexivity|].
    intros attr name [<-|[]] [= <-]. reflexivity. }
  split; [exact Hdiff|]. split; [reflexivity|].
  exact (unmatched_rollouts_ignored ascii_only sample_source sample_today true
           [foo_bar] foo_bar_on _ Hdiff eq_refl).
Defined.

(** C5 fails as stated.  A rollout record for an experiment that does not
    exist is validated like any other, and its default counts for the
    constant [kDefaultForDebugOnly]: with the default [debug] it changes
    experiments.cc, and with a default that is not recognised it makes
    validation fail. *)
Lemma unmatched_rollouts_counterexample :
  let run_with := run ascii_only sample_source sample_today true [foo_bar] in
  differ_by (unmatched [foo_bar]) foo_bar_on ghost_debug
  /\ differ_by (unmatched [foo_bar]) foo_bar_on ghost_bogus
  /\ snd (run_with foo_bar_on) = Ok tt
  /\ snd (run_with ghost_debug) = Ok tt
  /\ experiments_cc (fst (run_with foo_bar_on))
     <> experiments_cc (fst (run_with ghost_debug))
  /\ snd (run_with ghost_bogus) = Raise (SystemExit 1).
Proof.
  cbv zeta.
  assert (Hun : forall d, unmatched [foo_bar] (rollout "ghost" d)).
  { intros d attr name [<-|[]] [= <-]. reflexivity. }
  split; [apply differ_same, differ_right; [apply Hun | apply differ_nil]|].
  split; [apply differ_same, differ_right; [apply Hun | apply differ_nil]|].
  split; [vm_compute; reflexivity|].
  split; [vm_compute; reflexivity|].
  split; [|vm_compute; reflexivity].
  intros H. apply (f_equal (option_map (@length pystr))) in H.
  vm_compute in H. discriminate H.
Qed.

(** *** The order of the rollouts *)

(** On acceptable records the loop of [get_rollout_attr_for_experiment]
    finds the first record of the name. *)
Lemma find_rollout_find (rollouts : list record) (name : value) :
  forallb rollout_ok rollouts = true ->
  find_rollout rollouts name = Ok (find (named name) rollouts).
Proof.
  induction rollouts as [|r l IH]; intros Hall; [reflexivity|].
  simpl in Hall. apply andb_prop in Hall. destruct Hall as [Hr Hl].
  destruct (rollout_ok_named r Hr) as [n Hname].
  cbn [find_rollout find]. unfold named at 1. rewrite Hname.
  rewrite (getitem_found _ r k_name n eq_refl Hname). cbn [rbind].
  destruct (py_eq n name); [reflexivity | now apply IH].
Qed.

(** Where at most one element passes a test, the first that passes is the
    same in every order. *)
Lemma find_unique_perm (A : Type) (p : A -> bool) (l1 l2 : list A) :
  Permutation l1 l2 ->
  (forall a b, In a l1 -> In b l1 -> p a = true -> p b = true -> a = b) ->
  find p l1 = find p l2.
Proof.
  intros Hperm Huniq.
  destruct (find p l1) as [x|] eqn:H1, (find p l2) as [y|] eqn:H2.
  - apply find_some in H1, H2. destruct H1 as [Hx Px], H2 as [Hy Py].
    f_equal. apply Huniq; try assumption.
    apply (Permutation_in _ (Permutation_sym Hperm)). exact Hy.
  - apply find_some in H1. destruct H1 as [Hx Px].
    pose proof (find_none _ _ H2 x (Permutation_in _ Hperm Hx)). congruence.
  - apply find_some in H2. destruct H2 as [Hy Py].
    pose proof (find_none _ _ H1 y
                  (Permutation_in _ (Permutation_sym Hperm) Hy)).
    congruence.
  - reflexivity.
Qed.

Lemma existsb_perm (A : Type) (f : A -> bool) (l1 l2 : list A) :
  Permutation l1 l2 -> existsb f l1 = existsb f l2.
Proof.
  induction 1 as [|x l l' _ IH|x y l|l l' l'' _ IH1 _ IH2]; simpl.
  - reflexivity.
  - now rewrite IH.
  - destruct (f x), (f y); reflexivity.
  - congruence.
Qed.

Lemma forallb_perm (A : Type) (f : A -> bool) (l1 l2 : list A) :
  Permutation l1 l2 -> forallb f l1 = forallb f l2.
Proof.
  induction 1 as [|x l l' _ IH|x y l|l l' l'' _ IH1 _ IH2]; simpl.
  - reflexivity.
  - now rewrite IH.
  - destruct (f x), (f y); reflexivity.
  - congruence.
Qed.

(** C6, as amended.  The run is a function of the documents, so two runs
    on the same documents give the same files.  When validation passes,
    and no experiment has its name on two different rollout records, the
    run on the rollout records in another order is the same run: the same
    messages, the same outcome and the same three files. *)
Theorem rollout_order_irrelevant (U : unicodedata) (my_source : list pystr)
        (today : Date.date) (check_dates : bool)
        (attrs r1 r2 : list record) (st : state)
        (Hvalid : validate U today check_dates attrs r1 initial_state
                  = (st, Ok tt))
        (Hperm : Permutation r1 r2)
        (Hunique : forall attr name a b,
            In attr attrs -> dict_find attr k_name = Some name ->
            In a r1 -> In b r1 ->
            named name a = true -> named name b = true -> a = b) :
  run U my_source today check_dates attrs r1
  = run U my_source today check_dates attrs r2.
Proof.
  pose proof (validated_rollouts_ok _ _ _ _ _ _ Hvalid) as Hok1.
  assert (Hok2 : forallb rollout_ok r2 = true)
    by (now rewrite <- (forallb_perm _ rollout_ok r1 r2 Hperm)).
  apply run_ext.
  - now rewrite !rollouts_loop_all_ok.
  - intros attr name Hin Hname.
    rewrite !find_rollout_find by assumption. f_equal.
    apply find_unique_perm; [exact Hperm|].
    intros a b. apply (Hunique attr name); assumption.
  - intros _ _. now apply existsb_perm.
Qed.

Lemma rollout_order_irrelevant_witness :
  let attrs := [foo_bar; at_the_limit] in
  let r1 := [rollout "foo_bar" (VBool true); rollout "edge" (text "debug")] in
  let r2 := [rollout "edge" (text "debug"); rollout "foo_bar" (VBool true)] in
  validate ascii_only sample_today true attrs r1 initial_state
  = (fst (set_annotation (str "gRPC experiments:foo_bar:0,edge:0,")
                         initial_state), Ok tt)
  /\ Permutation r1 r2
  /\ (forall attr name a b,
         In attr attrs -> dict_find attr k_name = Some name ->
         In a r1 -> In b r1 ->
         named name a = true -> named name b = true -> a = b)
  /\ run ascii_only sample_source sample_today true attrs r1
     = run ascii_only sample_source sample_today true attrs r2.
Proof.
  cbv zeta.
  assert (Hunique : forall attr name a b,
             In attr [foo_bar; at_the_limit] ->
             dict_find attr k_name = Some name ->
             In a [rollout "foo_bar" (VBool true);
                   rollout "edge" (text "debug")] ->
             In b [rollout "foo_bar" (VBool true);
                   rollout "edge" (text "debug")] ->
             named name a = true -> named name b = true -> a = b).
  { intros attr name a b [<-|[<-|[]]] [= <-] [<-|[<-|[]]] [<-|[<-|[]]] Ha Hb;
      first [reflexivity | discriminate Ha | discriminate Hb]. }
  split; [reflexivity|]. split; [apply perm_swap|]. split; [exact Hunique|].
  exact (rollout_order_irrelevant ascii_only sample_source sample_today true
           [foo_bar; at_the_limit]
           [rollout "foo_bar" (VBool true); rollout "edge" (text "debug")]
           [rollout "edge" (text "debug"); rollout "foo_bar" (VBool true)]
           (fst (set_annotation (str "gRPC experiments:foo_bar:0,edge:0,")
                                initial_state))
           eq_refl (perm_swap _ _ []) Hunique).
Defined.

(** C6 fails as stated.  Of two rollout records with the name of an
    experiment the first one counts: in the other order experiments.h is
    another file, though validation passes on both. *)
Lemma rollout_order_counterexample :
  let run_with := run ascii_only sample_source sample_today true [foo_bar] in
  Permutation on_then_off off_then_on
  /\ snd (run_with on_then_off) = Ok tt
  /\ snd (run_with off_then_on) = Ok tt
  /\ experiments_h (fst (run_with on_then_off))
     <> experiments_h (fst (run_with off_then_on)).
Proof.
  cbv zeta.
  split; [apply perm_swap|].
  split; [vm_compute; reflexivity|].
  split; [vm_compute; reflexivity|].
  intros H. apply (f_equal (option_map (@length pystr))) in H.
  vm_compute in H. discriminate H.
Qed.

(** ** Further properties of the script *)

(** *** What statements keep *)

Lemma preserves_ret (A : Type) (P : state -> Prop) (a : A) :
  preserves P (ret a).
Proof. intros st st' r [= <- <-] HP. exact HP. Qed.

Lemma preserves_lift (A : Type) (P : state -> Prop) (x : result A) :
  preserves P (lift x).
Proof. intros st st' r [= <- <-] HP. exact HP. Qed.

Lemma preserves_raise (A : Type) (P : state -> Prop) (e : exn) :
  preserves P (@raise A e).
Proof. intros st st' r [= <- <-] HP. exact HP. Qed.

Lemma preserves_bind (A B : Type) (P : state -> Prop) (m : M A)
      (k : A -> M B) :
  preserves P m -> (forall a, preserves P (k a)) -> preserves P (bind m k).
Proof.
  intros Hm Hk st st' r Hrun HP. unfold bind in Hrun.
  destruct (m st) as [s1 [a|e]] eqn:E.
  - exact (Hk a s1 st' r Hrun (Hm st s1 (Ok a) E HP)).
  - injection Hrun as <- <-. exact (Hm st s1 (Raise e) E HP).
Qed.

Lemma preserves_for_each (A : Type) (P : state -> Prop) (body : A -> M unit)
      (l : list A) :
  (forall x, preserves P (body x)) -> preserves P (for_each body l).
Proof.
  intros Hbody. induction l as [|x l IH]; simpl.
  - apply preserves_ret.
  - apply preserves_bind; [apply Hbody | intros _; exact IH].
Qed.

Lemma preserves_for_enumerate (A : Type) (P : state -> Prop)
      (body : Z -> A -> M unit) (l : list A) :
  (forall i x, preserves P (body i x)) ->
  forall i, preserves P (for_enumerate body i l).
Proof.
  intros Hbody. induction l as [|x l IH]; intros i; simpl.
  - apply preserves_ret.
  - apply preserves_bind; [apply Hbody | intros _; apply IH].
Qed.

(** Through the structure of a statement, down to its primitives, which
    [prim] must settle. *)
Ltac preserve prim :=
  repeat first
    [ prim
    | apply preserves_ret
    | apply preserves_lift
    | apply preserves_raise
    | apply preserves_for_each; intros ?
    | apply preserves_for_enumerate; intros ? ?
    | apply preserves_bind; [|intros ?]
    | match goal with
      | |- preserves _ (if ?b then _ else _) => destruct b
      | |- preserves _ (match ?x with _ => _ end) => destruct x
      end ].

(** *** Validation prints, sets [error], and nothing else *)

Lemma print_error_silent (m : message) :
  preserves silent_unless_error (bind (print m) (fun _ => set_error)).
Proof.
  intros st st' r E _. rewrite print_set_error in E. injection E as <- <-.
  intros H. unfold report in H. simpl in H.
  rewrite orb_true_r in H. discriminate.
Qed.

Lemma print2_error_silent (m1 m2 : message) :
  preserves silent_unless_error
            (bind (print m1) (fun _ => bind (print m2) (fun _ => set_error))).
Proof.
  intros st st' r E _.
  pose proof (when_print2_set_error true m1 m2 st) as H2. simpl when in H2.
  rewrite H2 in E. injection E as <- <-.
  intros H. unfold report in H. simpl in H.
  rewrite orb_true_r in H. discriminate.
Qed.

Lemma set_annotation_silent (a : pystr) :
  preserves silent_unless_error (set_annotation a).
Proof. intros st st' r [= <- <-] HP. exact HP. Qed.

Lemma get_annotation_keeps (P : state -> Prop) : preserves P get_annotation.
Proof. intros st st' r [= <- <-] HP. exact HP. Qed.

Lemma get_error_keeps (P : state -> Prop) : preserves P get_error.
Proof. intros st st' r [= <- <-] HP. exact HP. Qed.

Ltac silent_prim :=
  first [ apply print_error_silent
        | apply print2_error_silent
        | apply set_annotation_silent
        | apply get_annotation_keeps
        | apply get_error_keeps ].

Lemma validate_silent (U : unicodedata) (today : Date.date)
      (check_dates : bool) (attrs rollouts : list record) :
  preserves silent_unless_error (validate U today check_dates attrs rollouts).
Proof.
  unfold validate, check_attr, check_rollout, require_field, when.
  preserve silent_prim.
Qed.

(** When validation passes, [error] is not set. *)
Lemma validate_ok_error (U : unicodedata) (today : Date.date)
      (check_dates : bool) (attrs rollouts : list record) (st0 st : state) :
  validate U today check_dates attrs rollouts st0 = (st, Ok tt) ->
  error st = false.
Proof.
  intros Hrun. unfold validate in Hrun.
  unfold bind at 1, lift at 1 in Hrun.
  destruct (Date.add_days today 180) as [tq|e]; [|discriminate].
  unfold bind at 1 in Hrun.
  destruct (for_each check_rollout rollouts st0)
    as [st1 [[]|e]]; [|discriminate].
  unfold bind at 1 in Hrun.
  destruct (for_each (check_attr U today check_dates tq) attrs st1)
    as [st2 [[]|e]]; [|discriminate].
  rewrite validate_end in Hrun.
  destruct (error (report _ _ st2)) eqn:Herr; [discriminate|].
  injection Hrun as <-. exact Herr.
Qed.

(** X1.  Validation that passes has printed nothing: every message of
    the two loops and of the length check sets [error], and the run goes past
    line 128 with [error] unset only. *)
Theorem validation_passes_silently (U : unicodedata) (today : Date.date)
        (check_dates : bool) (attrs rollouts : list record) (st : state)
        (Hpass : validate U today check_dates attrs rollouts initial_state
                 = (st, Ok tt)) :
  stdout st = [] /\ error st = false.
Proof.
  pose proof (validate_ok_error _ _ _ _ _ _ _ Hpass) as Herr.
  split; [|exact Herr].
  apply (validate_silent U today check_dates attrs rollouts
           initial_state st (Ok tt) Hpass); [|exact Herr].
  intros _. reflexivity.
Qed.

Lemma validation_passes_silently_witness :
  validate ascii_only sample_today true [foo_bar] foo_bar_on initial_state
  = (fst (set_annotation (str "gRPC experiments:foo_bar:0,") initial_state),
     Ok tt)
  /\ stdout (fst (set_annotation (str "gRPC experiments:foo_bar:0,")
                                 initial_state)) = []
  /\ error (fst (set_annotation (str "gRPC experiments:foo_bar:0,")
                                initial_state)) = false.
Proof.
  split; [reflexivity|].
  exact (validation_passes_silently ascii_only sample_today true [foo_bar]
           foo_bar_on _ eq_refl).
Defined.

(** *** Validation writes no file *)

Lemma print_keeps_file (f : file) (c : option (list pystr)) (m : message) :
  preserves (fun st => get_file f st = c) (print m).
Proof. intros st st' r [= <- <-] HP. destruct f; exact HP. Qed.

Lemma set_error_keeps_file (f : file) (c : option (list pystr)) :
  preserves (fun st => get_file f st = c) set_error.
Proof. intros st st' r [= <- <-] HP. destruct f; exact HP. Qed.

Lemma set_annotation_keeps_file (f : file) (c : option (list pystr))
      (a : pystr) :
  preserves (fun st => get_file f st = c) (set_annotation a).
Proof. intros st st' r [= <- <-] HP. destruct f; exact HP. Qed.

Ltac file_prim :=
  first [ apply print_keeps_file
        | apply set_error_keeps_file
        | apply set_annotation_keeps_file
        | apply get_annotation_keeps
        | apply get_error_keeps ].

Lemma validate_keeps_file (U : unicodedata) (today : Date.date)
      (check_dates : bool) (attrs rollouts : list record) (f : file)
      (c : option (list pystr)) :
  preserves (fun st => get_file f st = c)
            (validate U today check_dates attrs rollouts).
Proof.
  unfold validate, check_attr, check_rollout, require_field, when.
  preserve file_prim.
Qed.

(** X2.  When validation does not pass, by [sys.exit] or by an
    exception, the run ends there with what validation has printed, and
    none of the three files has been opened: the files are written after
    line 128 only. *)
Theorem failed_validation_writes_nothing (U : unicodedata)
        (my_source : list pystr) (today : Date.date) (check_dates : bool)
        (attrs rollouts : list record) (st : state) (e : exn)
        (Hfail : validate U today check_dates attrs rollouts initial_state
                 = (st, Raise e)) :
  run U my_source today check_dates attrs rollouts = (st, Raise e)
  /\ experiments_h st = None
  /\ experiments_cc st = None
  /\ experiments_bzl st = None.
Proof.
  split.
  - unfold run, main, bind. now rewrite Hfail.
  - repeat split.
    + exact (validate_keeps_file U today check_dates attrs rollouts
               ExperimentsH None _ _ _ Hfail eq_refl).
    + exact (validate_keeps_file U today check_dates attrs rollouts
               ExperimentsCC None _ _ _ Hfail eq_refl).
    + exact (validate_keeps_file U today check_dates attrs rollouts
               ExperimentsBzl None _ _ _ Hfail eq_refl).
Qed.

Lemma failed_validation_writes_nothing_witness :
  let st := report [Expired (text "old") (text "2022/12/31")] true
                   (fst (set_annotation (str "gRPC experiments:old:0,")
                                        initial_state)) in
  validate ascii_only sample_today true [expired] [] initial_state
  = (st, Raise (SystemExit 1))
  /\ run ascii_only sample_source sample_today true [expired] []
     = (st, Raise (SystemExit 1))
  /\ experiments_h st = None
  /\ experiments_cc st = None
  /\ experiments_bzl st = None.
Proof.
  cbv zeta. split; [reflexivity|].
  exact (failed_validation_writes_nothing ascii_only sample_source
           sample_today true [expired] [] _ (SystemExit 1) eq_refl).
Defined.

(** *** The relaxed mode *)

(** X3.  With [--check] the current date does not matter: on two days
    from which 180 days can be counted, the run prints the same messages,
    ends the same way and writes the same files. *)
Theorem relaxed_mode_ignores_today (U : unicodedata) (my_source : list pystr)
        (today today' tq tq' : Date.date) (attrs rollouts : list record)
        (Htq : Date.add_days today 180 = Ok tq)
        (Htq' : Date.add_days today' 180 = Ok tq') :
  run U my_source today false attrs rollouts
  = run U my_source today' false attrs rollouts.
Proof.
  unfold run, main. apply bind_ext; [|reflexivity].
  unfold validate. rewrite Htq, Htq'.
  rewrite !(bind_lift_ok _ _ (Ok _) _ _ _ eq_refl).
  apply bind_ext; [reflexivity|]. intros _ st.
  apply bind_ext; [|reflexivity].
  apply for_each_ext. intros attr _ s. reflexivity.
Qed.

Lemma relaxed_mode_ignores_today_witness :
  Date.add_days sample_today 180 = Ok (Date.mk 2023 6 30)
  /\ Date.add_days (Date.mk 2030 12 24) 180 = Ok (Date.mk 2031 6 22)
  /\ run ascii_only sample_source sample_today false [expired] []
     = run ascii_only sample_source (Date.mk 2030 12 24) false [expired] [].
Proof.
  split; [reflexivity|]. split; [reflexivity|].
  exact (relaxed_mode_ignores_today ascii_only sample_source sample_today
           (Date.mk 2030 12 24) _ _ [expired] [] eq_refl eq_refl).
Defined.

Lemma print_keeps_annotation (a : pystr) (m : message) :
  m <> AnnotationTooLong -> preserves (annotation_is a) (print m).
Proof.
  intros Hm st st' r [= <- <-] [Ha Hq]. split; [exact Ha|].
  simpl. rewrite in_app_iff. intros [Hin|[Hin|[]]]; [tauto|congruence].
Qed.

Lemma set_error_keeps_annotation (a : pystr) :
  preserves (annotation_is a) set_error.
Proof. intros st st' r [= <- <-] HP. exact HP. Qed.

Ltac annotation_prim :=
  first [ apply print_keeps_annotation; discriminate
        | apply set_error_keeps_annotation
        | apply get_annotation_keeps
        | apply get_error_keeps ].

Lemma check_rollout_keeps_annotation (a : pystr) (r : record) :
  preserves (annotation_is a) (check_rollout r).
Proof.
  unfold check_rollout, when. preserve annotation_prim.
Qed.

Lemma check_attr_relaxed_keeps_annotation (U : unicodedata)
      (today tq : Date.date) (a : pystr) (attr : record) :
  preserves (annotation_is a) (check_attr U today false tq attr).
Proof.
  unfold check_attr, require_field, when. cbv beta iota.
  preserve annotation_prim.
Qed.

(** X4.  With [--check] no name goes to the annotation: from a date
    to which line 77 can add 180 days, so that line 78 binds the annotation,
    however validation ends then, the annotation is the prefix of line 78
    and the complaint about its length has not been printed. *)
Theorem relaxed_mode_keeps_annotation (U : unicodedata)
        (today tq : Date.date) (attrs rollouts : list record)
        (Htq : Date.add_days today 180 = Ok tq) :
  let st := fst (validate U today false attrs rollouts initial_state) in
  experiment_annotation st = str "gRPC experiments:"
  /\ ~ In AnnotationTooLong (stdout st).
Proof.
  cbv zeta.
  assert (H0 : annotation_is (str "gRPC experiments:") initial_state)
    by (split; [reflexivity | intros []]).
  change (annotation_is (str "gRPC experiments:")
            (fst (validate U today false attrs rollouts initial_state))).
  unfold validate. unfold bind at 1, lift at 1.
  rewrite Htq.
  unfold bind at 1.
  destruct (for_each check_rollout rollouts initial_state)
    as [st1 r1] eqn:E1.
  assert (H1 : annotation_is (str "gRPC experiments:") st1).
  { apply (preserves_for_each _ _ check_rollout rollouts
             (check_rollout_keeps_annotation _) _ _ _ E1 H0). }
  destruct r1 as [[]|e]; [|exact H1].
  unfold bind at 1.
  destruct (for_each (check_attr U today false tq) attrs st1)
    as [st2 r2] eqn:E2.
  assert (H2 : annotation_is (str "gRPC experiments:") st2).
  { apply (preserves_for_each _ _ (check_attr U today false tq) attrs
             (check_attr_relaxed_keeps_annotation U today tq _) _ _ _ E2 H1). }
  destruct r2 as [[]|e]; [|exact H2].
  rewrite validate_end. cbn [fst].
  destruct H2 as [Ha Hq]. rewrite Ha.
  change (2000 <? length (str "gRPC experiments:"))%nat with false.
  rewrite report_nil. split; assumption.
Qed.

Lemma relaxed_mode_keeps_annotation_witness :
  Date.add_days sample_today 180 = Ok (Date.mk 2023 6 30)
  /\ experiment_annotation
       (fst (validate ascii_only sample_today false [long_named; expired] []
                      initial_state))
     = str "gRPC experiments:"
  /\ ~ In AnnotationTooLong
         (stdout (fst (validate ascii_only sample_today false
                                [long_named; expired] [] initial_state))).
Proof.
  split; [reflexivity|].
  exact (relaxed_mode_keeps_annotation ascii_only sample_today
           (Date.mk 2023 6 30) [long_named; expired] [] eq_refl).
Defined.

(** *** The loop over the rollouts *)

(** X5.  The loop over the rollout records ends with [error] unset
    exactly when [error] was unset before and every record has a name and
    a default that is a key of [DEFAULTS]; it has then changed nothing and
    printed nothing. *)
Theorem rollouts_accepted (rollouts : list record) (st st' : state) :
  (for_each check_rollout rollouts st = (st', Ok tt) /\ error st' = false)
  <-> (forallb rollout_ok rollouts = true /\ st' = st /\ error st = false).
Proof.
  split.
  - intros [Hrun Herr].
    destruct (rollouts_loop_ok rollouts st st' Hrun Herr) as [Hall ->].
    repeat split; assumption.
  - intros (Hall & -> & Herr).
    split; [now apply rollouts_loop_all_ok | exact Herr].
Qed.

(** *** The four tables *)

(** X6.  A default that the loop over the rollouts accepts (line 87)
    is one of the four policy tags, and it is a key of each of the tables
    [DEFAULTS], [FINAL_RETURN], [FINAL_DEFINE] and [BZL_LIST_FOR_DEFAULTS]
    and of the dictionary of lines 313-315: no lookup of such a default
    raises. *)
Theorem accepted_default_in_every_table (d : value)
        (Hd : dict_contains DEFAULTS d = Ok true) :
  (exists p, policy_of d = Some p)
  /\ (exists x, dict_getitem DEFAULTS d = Ok x)
  /\ (exists x, dict_getitem FINAL_RETURN d = Ok x)
  /\ (exists x, dict_getitem FINAL_DEFINE d = Ok x)
  /\ (exists x, dict_getitem BZL_LIST_FOR_DEFAULTS d = Ok x)
  /\ (exists x, dict_getitem bzl_initial d = Ok x).
Proof.
  unfold dict_contains in Hd.
  destruct d as [ |b|z|s|l]; try discriminate.
  - destruct b; repeat split; eexists; reflexivity.
  - destruct z as [|[q|q|]|q]; try discriminate;
      repeat split; eexists; reflexivity.
  - simpl in Hd.
    destruct (pystr_eqb (str "broken") s) eqn:E1.
    { apply pystr_eqb_eq in E1. subst s. repeat split; eexists; reflexivity. }
    destruct (pystr_eqb (str "debug") s) eqn:E2; [|discriminate].
    apply pystr_eqb_eq in E2. subst s. repeat split; eexists; reflexivity.
Qed.

Lemma accepted_default_in_every_table_witness :
  dict_contains DEFAULTS (VInt 1) = Ok true
  /\ (exists p, policy_of (VInt 1) = Some p)
  /\ (exists x, dict_getitem DEFAULTS (VInt 1) = Ok x)
  /\ (exists x, dict_getitem FINAL_RETURN (VInt 1) = Ok x)
  /\ (exists x, dict_getitem FINAL_DEFINE (VInt 1) = Ok x)
  /\ (exists x, dict_getitem BZL_LIST_FOR_DEFAULTS (VInt 1) = Ok x)
  /\ (exists x, dict_getitem bzl_initial (VInt 1) = Ok x).
Proof.
  split; [reflexivity|].
  exact (accepted_default_in_every_table (VInt 1) eq_refl).
Defined.

(** *** Banners *)

Lemma banner_loop (f : file) (prefix : pystr) (banner : list pystr) :
  forall (done : list pystr) (st : state),
    bind (for_each (fun line =>
                      match line with
                      | [] => fprint f prefix
                      | _ => fprint f (prefix ++ str " " ++ line)
                      end) banner)
         (fun _ => fprint f []) (emit f done st)
    = (emit f (done ++ banner_output banner prefix) st, Ok tt).
Proof.
  induction banner as [|line banner IH]; intros done st.
  - simpl. unfold bind, ret. rewrite fprint_emit, emit_emit. reflexivity.
  - cbn [for_each]. unfold bind at 1. unfold bind at 1.
    assert (Hline : match line with
                    | [] => fprint f prefix
                    | _ => fprint f (prefix ++ str " " ++ line)
                    end (emit f done st)
                    = (emit f (done ++ [banner_line prefix line]) st, Ok tt)).
    { destruct line; rewrite fprint_emit, emit_emit; reflexivity. }
    rewrite Hline.
    specialize (IH (done ++ [banner_line prefix line]) st).
    unfold bind at 1 in IH. rewrite IH.
    unfold banner_output. simpl. now rewrite <- !app_assoc.
Qed.

Lemma put_banner_one (f : file) (banner : list pystr) (prefix : pystr)
      (st : state) :
  bind (for_each (fun line =>
                    match line with
                    | [] => fprint f prefix
                    | _ => fprint f (prefix ++ str " " ++ line)
                    end) banner)
       (fun _ => fprint f []) st
  = (emit f (banner_output banner prefix) st, Ok tt).
Proof.
  destruct banner as [|line banner].
  - simpl. unfold bind, ret. now rewrite fprint_emit.
  - cbn [for_each]. unfold bind at 1. unfold bind at 1.
    assert (Hline : match line with
                    | [] => fprint f prefix
                    | _ => fprint f (prefix ++ str " " ++ line)
                    end st
                    = (emit f [banner_line prefix line] st, Ok tt)).
    { destruct line; rewrite fprint_emit; reflexivity. }
    rewrite Hline.
    pose proof (banner_loop f prefix banner [banner_line prefix line] st)
      as IH.
    unfold bind at 1 in IH. rewrite IH. reflexivity.
Qed.

(** X7.  [put_banner] never raises: each of the files gets the lines
    of the banner, an empty line as the prefix alone and any other line
    after the prefix and a space, and then one empty line. *)
Theorem put_banner_output (files : list file) (banner : list pystr)
        (prefix : pystr) (st : state) :
  put_banner files banner prefix st
  = (fold_left (fun s f => emit f (banner_output banner prefix) s) files st,
     Ok tt).
Proof.
  unfold put_banner. revert st.
  induction files as [|f files IH]; intros st; [reflexivity|].
  rewrite for_each_cons. unfold bind at 1.
  rewrite put_banner_one. simpl fold_left. apply IH.
Qed.

(** *** The copyright notice *)

Lemma put_banner_single (f : file) (banner : list pystr) (prefix : pystr)
      (st : state) :
  put_banner [f] banner prefix st
  = (emit f (banner_output banner prefix) st, Ok tt).
Proof.
  unfold put_banner. rewrite for_each_cons. unfold bind at 1.
  rewrite put_banner_one. reflexivity.
Qed.

Lemma is_comment_first (line : pystr) :
  is_comment line = true -> first_char line = Ok 35%N.
Proof.
  destruct line as [|c l]; [discriminate|]. simpl.
  intros H. apply N.eqb_eq in H. now subst.
Qed.

Lemma is_code_first (line : pystr) :
  is_code line = true ->
  exists c, first_char line = Ok c /\ (c =? 35)%N = false.
Proof.
  destruct line as [|c l]; [discriminate|]. simpl.
  intros H. exists c. split; [reflexivity|].
  now destruct (c =? 35)%N.
Qed.

Lemma skip_header_spec (header : list pystr) (first : pystr)
      (tail : list pystr) :
  forallb is_comment header = true -> is_code first = true ->
  skip_header (header ++ first :: tail) = Ok tail.
Proof.
  intros Hh Hf. induction header as [|h header IH]; simpl.
  - destruct (is_code_first first Hf) as (c & -> & Hc). simpl.
    now rewrite Hc.
  - simpl in Hh. apply andb_prop in Hh. destruct Hh as [Hc Hh].
    rewrite (is_comment_first h Hc). simpl. now apply IH.
Qed.

Lemma first_comment_spec (gap : list pystr) (b : pystr) (tail : list pystr) :
  forallb is_code gap = true -> is_comment b = true ->
  first_comment (gap ++ b :: tail) = Ok ([b], tail).
Proof.
  intros Hg Hb. induction gap as [|g gap IH]; simpl.
  - now rewrite (is_comment_first b Hb).
  - simpl in Hg. apply andb_prop in Hg. destruct Hg as [Hc Hg].
    destruct (is_code_first g Hc) as (c & -> & Hne). simpl.
    rewrite Hne. now apply IH.
Qed.

Lemma comment_block_spec (block rest : list pystr) :
  forallb is_comment block = true ->
  match rest with
  | [] => true
  | stop :: _ => is_code stop
  end = true ->
  comment_block (block ++ rest) = Ok block.
Proof.
  intros Hb Hr. induction block as [|b block IH]; simpl.
  - destruct rest as [|stop rest]; [reflexivity|].
    simpl. destruct (is_code_first stop Hr) as (c & -> & Hne). simpl.
    now rewrite Hne.
  - simpl in Hb. apply andb_prop in Hb. destruct Hb as [Hc Hb].
    rewrite (is_comment_first b Hc). simpl. now rewrite (IH Hb).
Qed.

(** X8.  [put_copyright] copies one block of the script: it skips the
    comment lines at the start and the line after them, looks for the next
    line that starts with [#], and takes that line and the comment lines
    after it; each goes to the file as a banner line, without its first two
    characters and the white space at its end.  What comes after the block
    in the script is not read. *)
Theorem put_copyright_block (U : unicodedata) (f : file) (prefix : pystr)
        (header gap block rest : list pystr) (first b : pystr) (st : state)
        (Hheader : forallb is_comment header = true)
        (Hfirst : is_code first = true)
        (Hgap : forallb is_code gap = true)
        (Hb : is_comment b = true)
        (Hblock : forallb is_comment block = true)
        (Hrest : match rest with
                 | [] => true
                 | stop :: _ => is_code stop
                 end = true) :
  put_copyright U (header ++ first :: gap ++ b :: block ++ rest) f prefix st
  = (emit f (banner_output
               (map (fun line => rstrip U (skipn 2 line)) (b :: block))
               prefix) st, Ok tt).
Proof.
  unfold put_copyright.
  rewrite (bind_lift_ok _ _ _ _ _ _
             (skip_header_spec header first _ Hheader Hfirst)).
  rewrite (bind_lift_ok _ _ _ _ _ _
             (first_comment_spec gap b _ Hgap Hb)).
  cbn [fst snd].
  rewrite (bind_lift_ok _ _ _ _ _ _
             (comment_block_spec block rest Hblock Hrest)).
  rewrite put_banner_single. reflexivity.
Qed.

Lemma put_copyright_block_witness :
  forallb is_comment [str "#!/usr/bin/env python3" ++ nl] = true
  /\ is_code nl = true
  /\ forallb is_code [] = true
  /\ is_comment (str "# Copyright 2022 gRPC authors." ++ nl) = true
  /\ forallb is_comment [str "#" ++ nl] = true
  /\ is_code (str "import sys" ++ nl) = true
  /\ put_copyright ascii_only sample_source ExperimentsH (str "//")
                   initial_state
     = (emit ExperimentsH
             [str "// Copyright 2022 gRPC authors."; str "//"; []]
             initial_state, Ok tt).
Proof.
  repeat (split; [reflexivity|]).
  exact (put_copyright_block ascii_only ExperimentsH (str "//")
           [str "#!/usr/bin/env python3" ++ nl] [] [str "#" ++ nl]
           [str "import sys" ++ nl] nl
           (str "# Copyright 2022 gRPC authors." ++ nl) initial_state
           eq_refl eq_refl eq_refl eq_refl eq_refl eq_refl).
Defined.

Lemma rstrip_cons (U : unicodedata) (c : N) (s : pystr) :
  rstrip U (c :: s)
  = match rstrip U s with
    | [] => if isspace U c then [] else [c]
    | t => c :: t
    end.
Proof.
  unfold rstrip. simpl. destruct (fold_right _ [] s); reflexivity.
Qed.

Lemma trimmed_cons (U : unicodedata) (c d : N) (s : pystr) :
  trimmed U (c :: d :: s) = trimmed U (d :: s).
Proof.
  unfold trimmed. simpl. rewrite <- app_assoc.
  destruct (rev s) as [|x t]; reflexivity.
Qed.

Lemma rstrip_trimmed (U : unicodedata) (s : pystr) :
  trimmed U (rstrip U s) = true.
Proof.
  induction s as [|c s IH]; [reflexivity|].
  rewrite rstrip_cons. destruct (rstrip U s) as [|d t] eqn:E.
  - destruct (isspace U c) eqn:Hc; [reflexivity|].
    unfold trimmed. simpl. now rewrite Hc.
  - now rewrite trimmed_cons.
Qed.

Lemma trimmed_app (U : unicodedata) (a b : pystr) :
  b <> [] -> trimmed U (a ++ b) = trimmed U b.
Proof.
  intros Hb. unfold trimmed. rewrite rev_app_distr.
  destruct (rev b) as [|x t] eqn:E; [|reflexivity].
  apply (f_equal (@rev N)) in E. rewrite rev_involutive in E.
  contradiction.
Qed.

(** The lines of a banner whose lines were stripped carry no white space
    at their end, with a prefix that ends in none. *)
Lemma banner_output_trimmed (U : unicodedata) (prefix : pystr)
      (lines : list pystr) :
  trimmed U prefix = true ->
  forallb (trimmed U)
          (banner_output (map (fun line => rstrip U (skipn 2 line)) lines)
                         prefix) = true.
Proof.
  intros Hprefix.
  unfold banner_output. rewrite forallb_app.
  apply andb_true_intro. split; [|reflexivity].
  induction lines as [|line lines IH]; [reflexivity|].
  cbn [map forallb]. rewrite IH, andb_true_r.
  unfold banner_line.
  pose proof (rstrip_trimmed U (skipn 2 line)) as Ht.
  destruct (rstrip U (skipn 2 line)) as [|c t]; [exact Hprefix|].
  rewrite app_assoc. rewrite trimmed_app by discriminate. exact Ht.
Qed.

(** X9.  Whatever the script's source is, [put_copyright] with a prefix
    that does not end in white space either raises and prints nothing, or
    adds lines to the file none of which ends in white space: the lines of
    the notice are stripped at their end, and an empty line is the prefix
    alone, without the space that separates prefix and text. *)
Theorem put_copyright_trimmed (U : unicodedata) (my_source : list pystr)
        (f : file) (prefix : pystr) (st st' : state) (r : result unit)
        (Hprefix : trimmed U prefix = true)
        (Hrun : put_copyright U my_source f prefix st = (st', r)) :
  match r with
  | Ok _ =>
      exists lines,
        st' = emit f lines st /\ forallb (trimmed U) lines = true
  | Raise _ => st' = st
  end.
Proof.
  unfold put_copyright in Hrun.
  unfold bind at 1, lift at 1 in Hrun.
  destruct (skip_header my_source) as [rest|e];
    [|now injection Hrun as <- <-].
  unfold bind at 1, lift at 1 in Hrun.
  destruct (first_comment rest) as [found|e];
    [|now injection Hrun as <- <-].
  unfold bind at 1, lift at 1 in Hrun.
  destruct (comment_block (snd found)) as [block|e];
    [|now injection Hrun as <- <-].
  rewrite put_banner_single in Hrun. injection Hrun as <- <-.
  eexists. split; [reflexivity|].
  now apply banner_output_trimmed.
Qed.

Lemma put_copyright_trimmed_witness :
  trimmed ascii_only (str "//") = true
  /\ put_copyright ascii_only
       [str "#!/usr/bin/env python3" ++ nl; nl;
        str "# Copyright 2022 gRPC authors.  " ++ nl; str "#  " ++ nl;
        str "import sys" ++ nl]
       ExperimentsH (str "//") initial_state
     = (emit ExperimentsH
             [str "// Copyright 2022 gRPC authors."; str "//"; []]
             initial_state, Ok tt)
  /\ exists lines,
       emit ExperimentsH
            [str "// Copyright 2022 gRPC authors."; str "//"; []]
            initial_state
       = emit ExperimentsH lines initial_state
       /\ forallb (trimmed ascii_only) lines = true.
Proof.
  split; [reflexivity|]. split; [reflexivity|].
  exact (put_copyright_trimmed ascii_only
           [str "#!/usr/bin/env python3" ++ nl; nl;
            str "# Copyright 2022 gRPC authors.  " ++ nl; str "#  " ++ nl;
            str "import sys" ++ nl]
           ExperimentsH (str "//") initial_state _ (Ok tt) eq_refl eq_refl).
Defined.

(** *** The tunable mode *)

Lemma tunable_loop (U : unicodedata) (attrs : list record) :
  forall (names done : list pystr) (i : Z) (st : state),
    map (fun attr => dict_find attr k_name) attrs
    = map (fun n => Some (VStr n)) names ->
    for_enumerate (render_tunable U) i attrs (emit ExperimentsH done st)
    = (emit ExperimentsH (done ++ tunable_output U i names) st, Ok tt).
Proof.
  induction attrs as [|attr attrs IH]; intros names done i st Hnames.
  - destruct names; [|discriminate]. simpl. unfold ret.
    now rewrite app_nil_r.
  - destruct names as [|name names]; [discriminate|].
    simpl in Hnames. injection Hnames as Hname Hnames.
    cbn [for_enumerate]. unfold bind at 1.
    assert (Hone : render_tunable U i attr (emit ExperimentsH done st)
                   = (emit ExperimentsH
                           (done ++ [tunable_marker U name;
                                     tunable_accessor U name i]) st, Ok tt)).
    { unfold render_tunable.
      rewrite (bind_lift_ok _ _ _ _ _ _
                 (getitem_found _ attr k_name _ eq_refl Hname)).
      rewrite (bind_lift_ok _ _ (py_upper U (VStr name)) _ _ _ eq_refl).
      unfold bind at 1. rewrite fprint_emit, emit_emit.
      rewrite (bind_lift_ok _ _ _ _ _ _
                 (getitem_found _ attr k_name _ eq_refl Hname)).
      rewrite (bind_lift_ok _ _ (py_snake_to_pascal U (VStr name)) _ _ _
                 eq_refl).
      rewrite fprint_emit, emit_emit, <- app_assoc. reflexivity. }
    rewrite Hone. rewrite (IH names _ (i + 1)%Z st Hnames).
    now rewrite <- app_assoc.
Qed.

Lemma tunable_output_nth (U : unicodedata) (names : list pystr) :
  forall (k : nat) (i : Z) (name : pystr),
    nth_error names k = Some name ->
    nth_error (tunable_output U i names) (2 * k)
    = Some (tunable_marker U name)
    /\ nth_error (tunable_output U i names) (2 * k + 1)
       = Some (tunable_accessor U name (i + Z.of_nat k)).
Proof.
  induction names as [|n names IH]; intros k i name Hk.
  - destruct k; discriminate.
  - destruct k as [|k].
    + injection Hk as ->. simpl. now rewrite Z.add_0_r.
    + simpl in Hk. destruct (IH k (i + 1)%Z name Hk) as [H1 H2].
      replace (2 * S k) with (S (S (2 * k))) by lia.
      replace (S (S (2 * k)) + 1) with (S (S (2 * k + 1))) by lia.
      cbn [tunable_output nth_error]. split; [exact H1|].
      rewrite H2. do 2 f_equal. lia.
Qed.

Lemma final_loop (U : unicodedata) (rollouts : list record) :
  forall (attrs : list record) (names : list pystr) (policies : list policy)
         (done : list pystr) (st : state),
    map (fun attr => dict_find attr k_name) attrs
    = map (fun n => Some (VStr n)) names ->
    Forall2 (has_policy rollouts) names policies ->
    for_each (render_final U rollouts) attrs (emit ExperimentsH done st)
    = (emit ExperimentsH
            (done ++ fixed_section U (combine names policies)) st, Ok tt).
Proof.
  induction attrs as [|attr attrs IH];
    intros names policies done st Hnames Hpol.
  - destruct names; [|discriminate]. simpl. now rewrite app_nil_r.
  - destruct names as [|name names]; [discriminate|].
    injection Hnames as Hname Hnames.
    inversion Hpol as [|? p ? policies' (r & d & Hr & Hd & Hp) Hpol']; subst.
    rewrite for_each_cons. unfold bind.
    rewrite (render_final_lines U rollouts attr r name d p _ Hname Hr Hd Hp).
    rewrite emit_emit, (IH names policies' _ st Hnames Hpol').
    unfold fixed_section. cbn [combine map concat fst snd].
    now rewrite <- app_assoc.
Qed.

(** X10.  experiments.h in full, for experiments whose names are strings
    and whose rollout records have each one of the four policies: after
    the copyright notice (or nothing, when [put_copyright] raises) the
    banner and lines 226-236, the lines of the fixed mode, [#else], the
    lines of the tunable mode and lines 254-263.  In the tunable mode the
    experiment at position [k] of the document, counted from 0, has its
    inclusion marker and an accessor that asks for
    [IsExperimentEnabled(k)]. *)
Theorem tunable_mode_lines (U : unicodedata) (my_source : list pystr)
        (attrs rollouts : list record) (names : list pystr)
        (policies : list policy) (st : state)
        (Hnames : map (fun attr => dict_find attr k_name) attrs
                  = map (fun n => Some (VStr n)) names)
        (Hpolicies : Forall2 (has_policy rollouts) names policies) :
  render_h U my_source attrs rollouts st
  = match put_copyright U my_source ExperimentsH (str "//")
                        (set_file ExperimentsH (Some []) st) with
    | (s1, Ok _) =>
        (emit ExperimentsH
              (banner_output (generated_by :: WTF_lines) (str "//")
               ++ h_head
               ++ fixed_section U (combine names policies)
               ++ [str "#else"]
               ++ tunable_output U 0 names
               ++ h_tail (Z.of_nat (length attrs))) s1, Ok tt)
    | (s1, Raise e) => (s1, Raise e)
    end
  /\ forall (k : nat) (name : pystr),
       nth_error names k = Some name ->
       nth_error (tunable_output U 0 names) (2 * k)
       = Some (tunable_marker U name)
       /\ nth_error (tunable_output U 0 names) (2 * k + 1)
          = Some (tunable_accessor U name (Z.of_nat k)).
Proof.
  split; [|intros k name Hk; exact (tunable_output_nth U names k 0 name Hk)].
  unfold render_h. unfold bind at 1, open_w at 1. unfold bind at 1.
  destruct (put_copyright U my_source ExperimentsH (str "//")
              (set_file ExperimentsH (Some []) st)) as [s1 [[]|e]];
    [|reflexivity].
  unfold bind at 1. rewrite put_banner_single.
  do 11 (unfold bind at 1; rewrite fprint_emit, emit_emit).
  unfold bind at 1.
  rewrite (final_loop U rollouts attrs names policies _ s1 Hnames Hpolicies).
  unfold bind at 1. rewrite fprint_emit, emit_emit.
  unfold bind at 1.
  rewrite (tunable_loop U attrs names _ 0 s1 Hnames).
  do 7 (unfold bind at 1; rewrite fprint_emit, emit_emit).
  rewrite fprint_emit, emit_emit.
  unfold h_head, h_tail. rewrite <- !app_assoc. reflexivity.
Qed.

Lemma tunable_mode_lines_witness :
  map (fun attr => dict_find attr k_name) [foo_bar; at_the_limit]
  = map (fun n => Some (VStr n)) [str "foo_bar"; str "edge"]
  /\ Forall2 (has_policy [rollout "foo_bar" (VBool true);
                          rollout "edge" (VBool false)])
             [str "foo_bar"; str "edge"] [Enabled; Disabled]
  /\ option_map (fun l => firstn 8 (skipn 46 l))
       (experiments_h
          (fst (render_h ascii_only sample_source [foo_bar; at_the_limit]
                  [rollout "foo_bar" (VBool true);
                   rollout "edge" (VBool false)] initial_state)))
     = Some [ str "#ifdef GRPC_EXPERIMENTS_ARE_FINAL";
              str "#define GRPC_EXPERIMENT_IS_INCLUDED_FOO_BAR";
              str "inline bool IsFooBarEnabled() { return true; }";
              str "inline bool IsEdgeEnabled() { return false; }";
              str "#else";
              str "#define GRPC_EXPERIMENT_IS_INCLUDED_FOO_BAR";
              str "inline bool IsFooBarEnabled() { return IsExperimentEnabled(0); }";
              str "#define GRPC_EXPERIMENT_IS_INCLUDED_EDGE" ].
Proof.
  assert (Hpol : Forall2 (has_policy [rollout "foo_bar" (VBool true);
                                      rollout "edge" (VBool false)])
                         [str "foo_bar"; str "edge"] [Enabled; Disabled]).
  { constructor;
      [exists (rollout "foo_bar" (VBool true)), (VBool true);
       repeat split|].
    constructor;
      [exists (rollout "edge" (VBool false)), (VBool false);
       repeat split|].
    constructor. }
  split; [reflexivity|]. split; [exact Hpol|].
  rewrite (proj1 (tunable_mode_lines ascii_only sample_source
                    [foo_bar; at_the_limit]
                    [rollout "foo_bar" (VBool true);
                     rollout "edge" (VBool false)]
                    [str "foo_bar"; str "edge"] [Enabled; Disabled]
                    initial_state eq_refl Hpol)).
  reflexivity.
Defined.

(** *** Names of accessors *)

Lemma split_on_first (sep : N) (s : pystr) :
  exists w ws, split_on sep s = w :: ws.
Proof.
  induction s as [|c s (w & ws & IH)]; simpl.
  - now exists [], [].
  - rewrite IH. destruct (c =? sep)%N; eexists; eexists; reflexivity.
Qed.

Lemma split_on_app (a b : pystr) :
  split_on 95 (a ++ 95%N :: b) = split_on 95 a ++ split_on 95 b.
Proof.
  induction a as [|c a IH]; [reflexivity|].
  simpl. rewrite IH. destruct (c =? 95)%N; [reflexivity|].
  destruct (split_on_first 95 a) as (w & ws & E). rewrite E. reflexivity.
Qed.

(** X11.  [snake_to_pascal] works word by word: the name made of two
    names and an underscore between them gives the two results one after
    the other.  So an underscore at the start or at the end of a name is
    lost, and two different experiment names can give the same accessor. *)
Theorem snake_to_pascal_words (U : unicodedata) (a b : pystr) :
  snake_to_pascal U (a ++ 95%N :: b)
  = snake_to_pascal U a ++ snake_to_pascal U b
  /\ snake_to_pascal U (a ++ [95%N]) = snake_to_pascal U a
  /\ snake_to_pascal U (95%N :: a) = snake_to_pascal U a
  /\ a ++ [95%N] <> a.
Proof.
  assert (Happ : forall x y, snake_to_pascal U (x ++ 95%N :: y)
                             = snake_to_pascal U x ++ snake_to_pascal U y).
  { intros x y. unfold snake_to_pascal.
    now rewrite split_on_app, map_app, concat_app. }
  assert (Hnil : snake_to_pascal U [] = []) by reflexivity.
  split; [apply Happ|].
  split; [now rewrite Happ, Hnil, app_nil_r|].
  split; [reflexivity|].
  intros H. apply (f_equal (@length N)) in H.
  rewrite length_app in H. simpl in H. lia.
Qed.

Lemma ascii_lower_upper (c : N) : ascii_lower (ascii_upper c) = ascii_lower c.
Proof.
  unfold ascii_lower, ascii_upper.
  destruct (N.leb_spec 97 c), (N.leb_spec c 122); simpl;
    repeat match goal with
           | |- context [(?a <=? ?b)%N] => destruct (N.leb_spec a b)
           end; simpl; lia.
Qed.

Lemma ascii_lower_lower (c : N) : ascii_lower (ascii_lower c) = ascii_lower c.
Proof.
  unfold ascii_lower.
  destruct (N.leb_spec 65 c), (N.leb_spec c 90); simpl;
    repeat match goal with
           | |- context [(?a <=? ?b)%N] => destruct (N.leb_spec a b)
           end; simpl; lia.
Qed.

Lemma ascii_upper_underscore (c : N) : ascii_upper c = 95%N -> c = 95%N.
Proof.
  unfold ascii_upper.
  destruct (N.leb_spec 97 c), (N.leb_spec c 122); simpl; lia.
Qed.

Lemma ascii_lower_underscore (c : N) : ascii_lower c = 95%N -> c = 95%N.
Proof.
  unfold ascii_lower.
  destruct (N.leb_spec 65 c), (N.leb_spec c 90); simpl; lia.
Qed.

(** The words of an ASCII string: ASCII, free of underscores, and
    together the string without its underscores. *)
Lemma split_on_words (s : pystr) :
  is_ascii s = true ->
  Forall (fun w => is_ascii w = true /\ ~ In 95%N w) (split_on 95 s)
  /\ concat (split_on 95 s) = without_underscores s.
Proof.
  induction s as [|c s IH]; intros Hs.
  - split; [repeat constructor; intros [] | reflexivity].
  - simpl in Hs. apply andb_prop in Hs. destruct Hs as [Hc Hs].
    destruct (IH Hs) as [Hall Hcat].
    destruct (split_on_first 95 s) as (w & ws & E).
    simpl. rewrite E in *. unfold without_underscores in *. simpl filter.
    destruct (N.eqb_spec c 95) as [->|Hne]; simpl.
    + split; [|exact Hcat]. constructor; [|exact Hall].
      split; [reflexivity | intros []].
    + split; [|simpl in Hcat; now rewrite Hcat].
      inversion Hall as [|? ? [Hw Hno] Hws]; subst.
      constructor; [|exact Hws]. split.
      * simpl. now rewrite Hc, Hw.
      * intros [Hin|Hin]; [congruence | contradiction].
Qed.

Lemma capitalize_word (U : unicodedata) (w : pystr) :
  is_ascii w = true -> ~ In 95%N w ->
  map ascii_lower (capitalize U w) = map ascii_lower w
  /\ ~ In 95%N (capitalize U w).
Proof.
  intros Hw Hno. unfold capitalize. rewrite Hw.
  destruct w as [|c w]; [split; [reflexivity | intros []]|].
  split.
  - simpl. rewrite ascii_lower_upper. f_equal.
    rewrite map_map. apply map_ext. intros x. apply ascii_lower_lower.
  - intros [Hin|Hin].
    + apply ascii_upper_underscore in Hin. apply Hno. now left.
    + apply in_map_iff in Hin. destruct Hin as (x & Hx & Hin).
      apply ascii_lower_underscore in Hx. subst x. apply Hno. now right.
Qed.

(** X12.  On an ASCII name [snake_to_pascal] changes nothing but the
    underscores, which it drops, and the case of letters: the result has no
    underscore, and with all letters in lower case it is the name without
    its underscores, in lower case. *)
Theorem snake_to_pascal_letters (U : unicodedata) (s : pystr)
        (Hs : is_ascii s = true) :
  map ascii_lower (snake_to_pascal U s)
  = map ascii_lower (without_underscores s)
  /\ ~ In 95%N (snake_to_pascal U s).
Proof.
  destruct (split_on_words s Hs) as [Hall Hcat].
  unfold snake_to_pascal. rewrite <- Hcat. clear Hcat Hs.
  induction Hall as [|w ws [Hw Hno] _ IH]; [split; [reflexivity | intros []]|].
  destruct (capitalize_word U w Hw Hno) as [Hlow Hno'].
  destruct IH as [IH1 IH2].
  simpl. rewrite !map_app, Hlow, IH1. split; [reflexivity|].
  rewrite in_app_iff. tauto.
Qed.

Lemma snake_to_pascal_letters_witness :
  is_ascii (str "new_Car__project_") = true
  /\ map ascii_lower (snake_to_pascal ascii_only (str "new_Car__project_"))
     = map ascii_lower (without_underscores (str "new_Car__project_"))
  /\ ~ In 95%N (snake_to_pascal ascii_only (str "new_Car__project_")).
Proof.
  split; [reflexivity|].
  exact (snake_to_pascal_letters ascii_only (str "new_Car__project_")
           eq_refl).
Defined.

(** *** Reading a literal back *)

Lemma c_unescape_char (c : N) (rest : pystr) :
  (c < 128)%N ->
  c_unescape ((if escaped c then 92%N :: octal3 c else [c]) ++ rest)
  = option_map (cons c) (c_unescape rest).
Proof.
  intros Hc.
  pose (P := fun c : N =>
                   if escaped c then
                     match octal_value (48 + c / 64),
                           octal_value (48 + (c / 8) mod 8),
                           octal_value (48 + c mod 8) with
                     | Some x, Some y, Some z => (64 * x + 8 * y + z =? c)%N
                     | _, _, _ => false
                     end
                   else negb (c =? 92)%N && negb (c =? 34)%N).
  assert (Hok : P c = true).
  { apply (below_forallb P 128); [vm_compute; reflexivity | exact Hc]. }
  unfold P in Hok. clear P.
  destruct (escaped c).
  - unfold octal3. cbn [app c_unescape]. change (92 =? 92)%N with true.
    cbv iota.
    destruct (octal_value (48 + c / 64)) as [x|]; [|discriminate].
    destruct (octal_value (48 + (c / 8) mod 8)) as [y|]; [|discriminate].
    destruct (octal_value (48 + c mod 8)) as [z|]; [|discriminate].
    apply N.eqb_eq in Hok. now rewrite Hok.
  - apply andb_prop in Hok. destruct Hok as [H1 H2].
    cbn [app c_unescape].
    destruct (c =? 92)%N; [discriminate|].
    destruct (c =? 34)%N; [discriminate|]. reflexivity.
Qed.

Lemma c_unescape_body (s : pystr) :
  is_ascii s = true ->
  c_unescape (flat_map (fun c => if escaped c then 92%N :: octal3 c else [c]) s)
  = Some s.
Proof.
  induction s as [|c s IH]; intros Hs; [reflexivity|].
  simpl in Hs. apply andb_prop in Hs. destruct Hs as [Hc Hs].
  apply N.ltb_lt in Hc.
  cbn [flat_map]. rewrite (c_unescape_char c _ Hc), (IH Hs). reflexivity.
Qed.

Lemma c_str_literal (s : pystr) (l : pystr) :
  c_str (VStr s) = Ok l -> is_ascii s = true /\ l = c_literal s.
Proof.
  unfold c_str. destruct (is_ascii s) eqn:Hs; [|discriminate].
  cbn [rbind]. rewrite (c_str_loop_ascii s [] Hs). cbn [rbind app].
  intros [= <-]. split; reflexivity.
Qed.

(** X13.  The literal of a string determines the string: reading the
    result of [c_str] back, with each escape of three octal digits undone
    and the quotes removed, gives the string again, so two strings with the
    same literal are the same. *)
Theorem c_str_round_trip (s l : pystr) (Hl : c_str (VStr s) = Ok l) :
  c_unquote l = Some s
  /\ forall t, c_str (VStr t) = Ok l -> t = s.
Proof.
  assert (Hback : forall x y, c_str (VStr x) = Ok y -> c_unquote y = Some x).
  { intros x y Hy. destruct (c_str_literal x y Hy) as [Hx ->].
    unfold c_literal, c_unquote, dq. cbn [app].
    rewrite rev_app_distr. cbn [rev app].
    change (34 =? 34)%N with true. cbn [andb].
    rewrite rev_involutive. now apply c_unescape_body. }
  split; [now apply Hback|].
  intros t Ht. apply Hback in Ht. rewrite (Hback s l Hl) in Ht.
  now injection Ht.
Qed.

Lemma c_str_round_trip_witness :
  c_str (text "a\b") = Ok (c_literal (str "a\b"))
  /\ c_unquote (c_literal (str "a\b")) = Some (str "a\b")
  /\ forall t, c_str (VStr t) = Ok (c_literal (str "a\b")) -> t = str "a\b".
Proof.
  split; [reflexivity|].
  exact (c_str_round_trip (str "a\b") (c_literal (str "a\b")) eq_refl).
Defined.

(** *** The categories of experiments.bzl *)

Lemma dict_set_keys (V : Type) (d : dict V) (k : value) (v0 v : V) :
  dict_find d k = Some v0 -> map fst (dict_set d k v) = map fst d.
Proof.
  induction d as [|[k' v'] d IH]; [discriminate|].
  simpl. destruct (py_eq k' k); [reflexivity|].
  intros H. simpl. now rewrite IH.
Qed.

Lemma add_tag_keys (attr rollout_attr : record) (bzl bzl' : tag_map)
      (tag : value) :
  add_tag attr rollout_attr bzl tag = Ok bzl' -> map fst bzl' = map fst bzl.
Proof.
  unfold add_tag.
  destruct (dict_getitem rollout_attr k_default) as [default|]; [|discriminate].
  cbn [rbind].
  destruct (dict_getitem bzl default) as [tags|] eqn:Htags; [|discriminate].
  cbn [rbind].
  destruct (hashable tag); [|discriminate].
  destruct (dict_getitem attr k_name) as [name|]; [|discriminate].
  cbn [rbind]. intros [= <-].
  apply getitem_ok in Htags. now apply dict_set_keys with (v0 := tags).
Qed.

Lemma add_tags_keys (attr rollout_attr : record) (tags : list value) :
  forall bzl bzl' : tag_map,
    add_tags attr rollout_attr tags bzl = Ok bzl' ->
    map fst bzl' = map fst bzl.
Proof.
  induction tags as [|tag tags IH]; intros bzl bzl'; cbn [add_tags].
  - now intros [= <-].
  - destruct (add_tag attr rollout_attr bzl tag) as [bzl1|] eqn:H1;
      [|discriminate].
    cbn [rbind]. intros H. rewrite (IH _ _ H). now apply add_tag_keys in H1.
Qed.

(** The loop of lines 317-321 adds no policy and drops none. *)
Lemma collect_tags_keys (rollouts l : list record) :
  forall (bzl bzl' : tag_map) (st st' : state),
    collect_tags rollouts l bzl st = (st', Ok bzl') ->
    map fst bzl' = map fst bzl.
Proof.
  induction l as [|attr l IH]; intros bzl bzl' st st'; cbn [collect_tags].
  - unfold ret. now intros [= _ <-].
  - unfold bind at 1, lift at 1.
    destruct (dict_getitem attr k_name) as [name|]; [|discriminate].
    unfold bind at 1.
    destruct (get_rollout_attr_for_experiment rollouts name st)
      as [st1 [rollout_attr|]]; [|discriminate].
    unfold bind at 1, lift at 1.
    destruct (dict_getitem attr k_test_tags) as [test_tags|]; [|discriminate].
    unfold bind at 1, lift at 1.
    destruct (iterate test_tags) as [tags|]; [|discriminate].
    unfold bind at 1, lift at 1.
    destruct (add_tags attr rollout_attr tags bzl) as [bzl1|] eqn:H1;
      [|discriminate].
    intros H. rewrite (IH _ _ _ _ H). now apply add_tags_keys in H1.
Qed.

(** X14.  Whatever the experiments and their rollouts are, the tags are
    collected under the four policies of [BZL_LIST_FOR_DEFAULTS], and
    [render_bzl] writes, after the copyright notice, the banner, the
    docstring and the opening line, the category dbg, then off, then on,
    each by the code of lines 343-349, which may raise, and then the
    closing brace: what was collected under [broken] is not written. *)
Theorem bzl_categories (U : unicodedata) (my_source : list pystr)
        (rollouts attrs : list record) (st0 st0' st : state) (bzl : tag_map)
        (Hrun : collect_tags rollouts attrs bzl_initial st0 = (st0', Ok bzl)) :
  exists broken off on dbg : dict (list value),
    bzl = [ (text "broken", broken); (VBool false, off); (VBool true, on);
            (text "debug", dbg) ]
    /\ render_bzl U my_source bzl st
       = match put_copyright U my_source ExperimentsBzl (str "#")
                             (set_file ExperimentsBzl (Some []) st) with
         | (s1, Ok _) =>
             bind (for_each (render_category U)
                            [ (str "dbg", dbg); (str "off", off);
                              (str "on", on) ])
                  (fun _ => fprint ExperimentsBzl (str "}"))
                  (emit ExperimentsBzl bzl_head s1)
         | (s1, Raise e) => (s1, Raise e)
         end.
Proof.
  apply collect_tags_keys in Hrun.
  destruct bzl as [|[k1 broken] [|[k2 off] [|[k3 on] [|[k4 dbg] [|]]]]];
    try discriminate.
  injection Hrun as -> -> -> ->.
  exists broken, off, on, dbg. split; [reflexivity|].
  unfold render_bzl. unfold bind at 1, open_w at 1.
  unfold bind at 1.
  destruct (put_copyright U my_source ExperimentsBzl (str "#")
              (set_file ExperimentsBzl (Some []) st)) as [s1 [[]|e]];
    [|reflexivity].
  unfold bind at 1. rewrite put_banner_single.
  unfold bind at 1. rewrite fprint_emit, emit_emit.
  unfold bind at 1, lift at 1.
  change (categories _)
    with (Ok [ (str "off", off); (str "on", on); (str "dbg", dbg) ]).
  cbv beta iota.
  unfold bind at 1, lift at 1.
  change (sorted _ _)
    with (Ok [ (str "dbg", dbg); (str "off", off); (str "on", on) ]).
  cbv beta iota.
  unfold bind at 1. rewrite fprint_emit, emit_emit.
  unfold bind at 1. rewrite fprint_emit, emit_emit.
  unfold bzl_head. rewrite <- !app_assoc. reflexivity.
Qed.

Lemma bzl_categories_witness :
  let bzl := [ (text "broken", []); (VBool false, []);
               (VBool true, [(text "core", [text "foo_bar"])]);
               (text "debug", []) ] in
  collect_tags foo_bar_on [foo_bar] bzl_initial initial_state
  = (initial_state, Ok bzl)
  /\ exists broken off on dbg : dict (list value),
       bzl = [ (text "broken", broken); (VBool false, off); (VBool true, on);
               (text "debug", dbg) ]
       /\ render_bzl ascii_only sample_source bzl initial_state
          = match put_copyright ascii_only sample_source ExperimentsBzl
                                (str "#")
                                (set_file ExperimentsBzl (Some [])
                                          initial_state) with
            | (s1, Ok _) =>
                bind (for_each (render_category ascii_only)
                               [ (str "dbg", dbg); (str "off", off);
                                 (str "on", on) ])
                     (fun _ => fprint ExperimentsBzl (str "}"))
                     (emit ExperimentsBzl bzl_head s1)
            | (s1, Raise e) => (s1, Raise e)
            end.
Proof.
  cbv zeta. split; [reflexivity|].
  exact (bzl_categories ascii_only sample_source foo_bar_on [foo_bar]
           initial_state initial_state initial_state
           [ (text "broken", []); (VBool false, []);
             (VBool true, [(text "core", [text "foo_bar"])]);
             (text "debug", []) ] eq_refl).
Defined.

(** *** The rows of experiments.cc *)

Lemma DEFAULTS_policy (d : value) (p : policy) :
  policy_of d = Some p -> dict_getitem DEFAULTS d = Ok (default_constant p).
Proof.
  intros H. apply policy_of_cases in H.
  repeat destruct H as [H|H]; destruct H as [-> ->]; reflexivity.
Qed.

Lemma c_str_of_str (s : pystr) :
  c_str (VStr s)
  = if is_ascii s then Ok (c_literal s) else Raise UnicodeEncodeError.
Proof.
  unfold c_str, c_literal. destruct (is_ascii s) eqn:Hs; [|reflexivity].
  cbn [rbind]. rewrite (c_str_loop_ascii s [] Hs). reflexivity.
Qed.

(** X15.  The row of the metadata table for an experiment whose rollout
    has one of the four policies: the literal of the name, the names of its
    two constants, [false] for broken and disabled, [true] for enabled and
    [kDefaultForDebugOnly] for debug-only, and the fuzzing flag, which is
    [true] when the record has no [allow_in_fuzzing_config].  A name that
    is not ASCII has no literal: the row is not written and the script
    stops with a [UnicodeEncodeError]. *)
Theorem metadata_row_written (U : unicodedata) (rollouts : list record)
        (attr rollout_attr : record) (name : pystr) (default : value)
        (p : policy) (st : state)
        (Hname : dict_find attr k_name = Some (VStr name))
        (Hrollout : find_rollout rollouts (VStr name) = Ok (Some rollout_attr))
        (Hdefault : dict_find rollout_attr k_default = Some default)
        (Hpolicy : policy_of default = Some p) :
  render_metadata U rollouts attr st
  = if is_ascii name
    then (emit ExperimentsCC
               [metadata_row name p (allowed_in_fuzzing attr)] st, Ok tt)
    else (st, Raise UnicodeEncodeError).
Proof.
  unfold render_metadata, get_rollout_attr_for_experiment.
  rewrite (getitem_found _ attr k_name _ eq_refl Hname).
  unfold bind, lift, ret. rewrite Hrollout. cbv beta iota.
  rewrite c_str_of_str.
  destruct (is_ascii name); [|reflexivity].
  rewrite (getitem_found _ rollout_attr k_default _ eq_refl Hdefault).
  rewrite (DEFAULTS_policy default p Hpolicy).
  rewrite fprint_emit. unfold metadata_row, allowed_in_fuzzing, format_s.
  reflexivity.
Qed.

Lemma metadata_row_written_witness :
  render_metadata ascii_only foo_bar_on foo_bar initial_state
  = (emit ExperimentsCC
          [str "  {" ++ dq ++ str "foo_bar" ++ dq
           ++ str ", description_foo_bar, additional_constraints_foo_bar, true, true},"]
          initial_state, Ok tt).
Proof.
  exact (metadata_row_written ascii_only foo_bar_on foo_bar
           (rollout "foo_bar" (VBool true)) (str "foo_bar") (VBool true)
           Enabled initial_state eq_refl eq_refl eq_refl eq_refl).
Defined.

(** X16.  For an experiment with a name and a description that are
    strings, experiments.cc gets two constants: the description as the
    literal of [c_str], and an empty string of constraints.  A description
    that is not ASCII, which validation lets pass, has no literal: nothing
    is written for the experiment and the script stops with a
    [UnicodeEncodeError]. *)
Theorem description_written (U : unicodedata) (attr : record)
        (name description : pystr) (st : state)
        (Hname : dict_find attr k_name = Some (VStr name))
        (Hdescription : dict_find attr k_description
                        = Some (VStr description)) :
  render_description U attr st
  = if is_ascii description
    then (emit ExperimentsCC (description_lines name description) st, Ok tt)
    else (st, Raise UnicodeEncodeError).
Proof.
  unfold render_description.
  rewrite (getitem_found _ attr k_name _ eq_refl Hname).
  rewrite (getitem_found _ attr k_description _ eq_refl Hdescription).
  unfold bind, lift. rewrite c_str_of_str.
  destruct (is_ascii description); [|reflexivity].
  rewrite !fprint_emit, emit_emit. reflexivity.
Qed.

Lemma description_written_witness :
  render_description ascii_only accented initial_state
  = (initial_state, Raise UnicodeEncodeError).
Proof.
  exact (description_written ascii_only accented (str "cafe")
           (str "caf" ++ [233%N]) initial_state eq_refl eq_refl).
Defined.

(** *** The order of the lists of experiments.bzl *)

Lemma pystr_ltb_asym (s : pystr) :
  forall t, pystr_ltb s t = true -> pystr_ltb t s = false.
Proof.
  induction s as [|c s IH]; intros [|d t]; simpl; try easy.
  destruct (N.ltb_spec c d), (N.ltb_spec d c); try easy; try lia.
  apply IH.
Qed.

Lemma pystr_le_trans (s : pystr) :
  forall t u, pystr_le s t -> pystr_le t u -> pystr_le s u.
Proof.
  unfold pystr_le.
  induction s as [|c s IH]; intros [|d t] [|e u]; simpl; try easy.
  destruct (N.ltb_spec d c), (N.ltb_spec c d), (N.ltb_spec e d),
    (N.ltb_spec d e), (N.ltb_spec e c), (N.ltb_spec c e);
    try easy; try lia.
  apply IH.
Qed.

Section SortedByStrings.
Context {A : Type} (key : A -> value) (k : A -> pystr).

Lemma insert_sorted_strings (x : A) (Hx : key x = VStr (k x)) :
  forall l,
    Forall (fun y => key y = VStr (k y)) l ->
    StronglySorted (le_key k) l ->
    exists l', insert_sorted key x l = Ok l'
               /\ Permutation (x :: l) l' /\ StronglySorted (le_key k) l'.
Proof.
  induction l as [|y l IH]; intros Hkeys Hsorted.
  - exists [x]. repeat split; [apply Permutation_refl|].
    constructor; constructor.
  - inversion Hkeys as [|? ? Hy Hl]; subst.
    inversion Hsorted as [|? ? Hs Hall]; subst.
    cbn [insert_sorted]. rewrite Hy, Hx. cbn [py_lt rbind].
    destruct (pystr_ltb (k y) (k x)) eqn:Hlt.
    + destruct (IH Hl Hs) as (l' & -> & Hperm & Hs').
      cbn [rbind]. exists (y :: l'). split; [reflexivity|]. split.
      * apply perm_trans with (y :: x :: l); [apply perm_swap|].
        now apply perm_skip.
      * constructor; [exact Hs'|].
        apply Forall_forall. intros z Hz.
        apply (Permutation_in _ (Permutation_sym Hperm)) in Hz.
        destruct Hz as [<-|Hz].
        -- unfold le_key, pystr_le. now apply pystr_ltb_asym.
        -- rewrite Forall_forall in Hall. now apply Hall.
    + exists (x :: y :: l). split; [reflexivity|].
      split; [apply Permutation_refl|].
      constructor; [exact Hsorted|].
      constructor; [exact Hlt|].
      apply Forall_forall. intros z Hz.
      rewrite Forall_forall in Hall.
      apply pystr_le_trans with (t := k y); [exact Hlt | now apply Hall].
Qed.

(** On a list whose keys are strings [sorted] does not raise, and returns
    the elements of the list in ascending order of their keys. *)
Lemma sorted_strings :
  forall l,
    Forall (fun y => key y = VStr (k y)) l ->
    exists l', sorted key l = Ok l'
               /\ Permutation l l' /\ StronglySorted (le_key k) l'.
Proof.
  induction l as [|x l IH]; intros Hkeys.
  - exists []. repeat split; [apply perm_nil | constructor].
  - inversion Hkeys as [|? ? Hx Hl]; subst.
    destruct (IH Hl) as (l1 & H1 & Hperm & Hs1).
    assert (Hl1 : Forall (fun y => key y = VStr (k y)) l1).
    { apply Forall_forall. intros z Hz. rewrite Forall_forall in Hl.
      apply Hl. now apply (Permutation_in _ (Permutation_sym Hperm)). }
    destruct (insert_sorted_strings x Hx l1 Hl1 Hs1) as (l' & H' & Hp' & Hs').
    exists l'. cbn [sorted]. rewrite H1. cbn [rbind].
    split; [exact H'|]. split; [|exact Hs'].
    apply perm_trans with (x :: l1); [now apply perm_skip | exact Hp'].
Qed.
End SortedByStrings.

Lemma fprint_loop (A : Type) (f : file) (line : A -> pystr) (l : list A) :
  forall (done : list pystr) (st : state),
    for_each (fun x => fprint f (line x)) l (emit f done st)
    = (emit f (done ++ map line l) st, Ok tt).
Proof.
  induction l as [|x l IH]; intros done st.
  - simpl. now rewrite app_nil_r.
  - cbn [for_each map]. unfold bind. rewrite fprint_emit, emit_emit, IH.
    now rewrite <- app_assoc.
Qed.

Lemma sorted_names (names : list pystr) :
  exists ordered,
    sorted (fun x => x) (map VStr names) = Ok (map VStr ordered)
    /\ Permutation names ordered /\ StronglySorted pystr_le ordered.
Proof.
  destruct (sorted_strings (fun x => x) str_of (map VStr names))
    as (l' & Hsorted & Hperm & Hs).
  { apply Forall_forall. intros v Hv. apply in_map_iff in Hv.
    now destruct Hv as (n & <- & _). }
  assert (Hl' : map VStr (map str_of l') = l').
  { rewrite map_map. rewrite <- (map_id l') at 2. apply map_ext_in.
    intros v Hv. apply (Permutation_in _ (Permutation_sym Hperm)) in Hv.
    apply in_map_iff in Hv. now destruct Hv as (n & <- & _). }
  exists (map str_of l'). rewrite Hl'. split; [exact Hsorted|]. split.
  - apply (Permutation_map str_of) in Hperm.
    rewrite map_map in Hperm. simpl in Hperm. now rewrite map_id in Hperm.
  - clear Hsorted Hperm Hl'.
    induction Hs as [|v l Hs IH Hall]; [constructor|].
    simpl. constructor; [exact IH|].
    apply Forall_forall. intros s Hin. apply in_map_iff in Hin.
    destruct Hin as (w & <- & Hw). rewrite Forall_forall in Hall.
    now apply Hall.
Qed.

(** X17.  The list of a tag in experiments.bzl: after the line of the tag,
    the names of its experiments, one on a line, all of them and each as
    often as it was collected, in ascending order of their code points, and
    then the closing line. *)
Theorem tag_experiments_sorted (U : unicodedata) (tag : pystr)
        (names : list pystr) (st : state) :
  exists ordered,
    Permutation names ordered
    /\ StronglySorted pystr_le ordered
    /\ render_tag U (VStr tag, map VStr names) st
       = (emit ExperimentsBzl (tag_output tag ordered) st, Ok tt).
Proof.
  destruct (sorted_names names) as (ordered & Hsorted & Hperm & Hs).
  exists ordered. split; [exact Hperm|]. split; [exact Hs|].
  unfold render_tag. cbn [fst snd format_s].
  unfold bind at 1. rewrite fprint_emit.
  unfold bind at 1, lift. rewrite Hsorted.
  unfold bind at 1.
  rewrite (for_each_ext _ _
             (fun e => fprint ExperimentsBzl
                         (str "            " ++ dq ++ str_of e ++ dq
                          ++ str ","))).
  - rewrite fprint_loop, fprint_emit, emit_emit, map_map.
    unfold tag_output. cbn [str_of]. now rewrite <- app_assoc.
  - intros e He st0. apply in_map_iff in He.
    now destruct He as (n & <- & _).
Qed.

(** *** Runs that end normally *)

Lemma bind_ok_inv (A B : Type) (m : M A) (k : A -> M B) (st st' : state)
      (b : B) :
  bind m k st = (st', Ok b) ->
  exists s a, m st = (s, Ok a) /\ k a s = (st', Ok b).
Proof.
  unfold bind. destruct (m st) as [s [a|e]]; [|discriminate].
  intros H. now exists s, a.
Qed.

Lemma lift_ok_inv (A : Type) (r : result A) (st st' : state) (a : A) :
  lift r st = (st', Ok a) -> st' = st /\ r = Ok a.
Proof. unfold lift. now intros [= <- <-]. Qed.

(** A loop that ends normally has run its body on every element. *)
Lemma for_each_ok_inv (A : Type) (body : A -> M unit) (l : list A) :
  forall st st',
    for_each body l st = (st', Ok tt) ->
    Forall (fun x => exists s s', body x s = (s', Ok tt)) l.
Proof.
  induction l as [|x l IH]; intros st st' H; [constructor|].
  cbn [for_each] in H. apply bind_ok_inv in H.
  destruct H as (s & [] & Hx & Hl).
  constructor; [now exists st, s | exact (IH _ _ Hl)].
Qed.

Lemma FINAL_DEFINE_key (d : value) (x : option (pystr * pystr)) :
  dict_getitem FINAL_DEFINE d = Ok x -> exists p, policy_of d = Some p.
Proof.
  destruct d as [ |b|z|s|l]; try discriminate.
  - intros _. now eexists.
  - destruct z as [|[q|q|]|q]; try discriminate; intros _; now eexists.
  - unfold dict_getitem. simpl.
    destruct (pystr_eqb (str "broken") s) eqn:E1.
    { apply pystr_eqb_eq in E1. subst s. intros _. now eexists. }
    destruct (pystr_eqb (str "debug") s) eqn:E2; [|discriminate].
    apply pystr_eqb_eq in E2. subst s. intros _. now eexists.
Qed.

(** The fixed mode gets through an experiment only if it is resolved. *)
Lemma render_final_resolved (U : unicodedata) (rollouts : list record)
      (attr : record) (s s' : state) :
  render_final U rollouts attr s = (s', Ok tt) -> resolved rollouts attr.
Proof.
  unfold render_final, get_rollout_attr_for_experiment. intros H.
  apply bind_ok_inv in H. destruct H as (s1 & name & Hname & H).
  apply lift_ok_inv in Hname. destruct Hname as [-> Hname].
  apply bind_ok_inv in H. destruct H as (s2 & r & Hr & H).
  apply bind_ok_inv in Hr. destruct Hr as (s3 & found & Hfound & Hr).
  apply lift_ok_inv in Hfound. destruct Hfound as [-> Hfound].
  apply bind_ok_inv in H. destruct H as (s4 & default & Hd & H).
  apply lift_ok_inv in Hd. destruct Hd as [-> Hd].
  apply bind_ok_inv in H. destruct H as (s5 & fmt & Hfmt & _).
  apply lift_ok_inv in Hfmt. destruct Hfmt as [-> Hfmt].
  destruct found as [r0|].
  - injection Hr as <- <-.
    destruct (FINAL_DEFINE_key default fmt Hfmt) as [p Hp].
    exists name, r0, default, p.
    repeat split; try assumption; now apply getitem_ok.
  - apply bind_ok_inv in Hr. destruct Hr as (s6 & [] & _ & Hr).
    injection Hr as <- <-.
    injection Hd as <-. discriminate.
Qed.

Lemma collect_tags_fields (rollouts l : list record) :
  forall (bzl bzl' : tag_map) (st st' : state),
    collect_tags rollouts l bzl st = (st', Ok bzl') ->
    Forall (fun attr => has_field attr k_test_tags = true) l.
Proof.
  induction l as [|attr l IH]; intros bzl bzl' st st' H; [constructor|].
  cbn [collect_tags] in H.
  apply bind_ok_inv in H. destruct H as (s1 & name & _ & H).
  apply bind_ok_inv in H. destruct H as (s2 & r & _ & H).
  apply bind_ok_inv in H. destruct H as (s3 & tags & Htags & H).
  apply lift_ok_inv in Htags. destruct Htags as [-> Htags].
  apply bind_ok_inv in H. destruct H as (s4 & ts & _ & H).
  apply bind_ok_inv in H. destruct H as (s5 & bzl1 & _ & H).
  constructor; [|exact (IH _ _ _ _ H)].
  unfold has_field. now rewrite (getitem_ok _ _ _ _ Htags).
Qed.

Lemma preserves_bind_lift (A B : Type) (P : state -> Prop) (r : result A)
      (k : A -> M B) :
  (forall a, r = Ok a -> preserves P (k a)) -> preserves P (bind (lift r) k).
Proof.
  intros Hk st st' x Hrun HP. unfold bind, lift in Hrun.
  destruct r as [a|e].
  - exact (Hk a eq_refl st st' x Hrun HP).
  - now injection Hrun as <- <-.
Qed.

Lemma preserves_for_each_in (A : Type) (P : state -> Prop)
      (body : A -> M unit) (l : list A) :
  (forall x, In x l -> preserves P (body x)) -> preserves P (for_each body l).
Proof.
  induction l as [|x l IH]; intros Hbody; simpl.
  - apply preserves_ret.
  - apply preserves_bind; [apply Hbody; now left|].
    intros _. apply IH. intros y Hy. apply Hbody. now right.
Qed.

(** What rendering keeps: a property of the state that writing to a file
    and opening one keep, and that resolving the experiments keeps. *)
Section Rendered.
Variable P : state -> Prop.
Variable U : unicodedata.
Variable my_source : list pystr.
Variables attrs rollouts : list record.
Hypothesis Hfprint : forall f s, preserves P (fprint f s).
Hypothesis Hopen : forall f, preserves P (open_w f).
Hypothesis Hresolve :
  forall attr name,
    In attr attrs -> dict_getitem attr k_name = Ok name ->
    preserves P (get_rollout_attr_for_experiment rollouts name).

(** One step through the structure of a statement that writes. *)
Ltac rendered_basic :=
  match goal with
  | |- preserves _ (bind _ _) => apply preserves_bind; [|intros ?]
  | |- preserves _ (ret _) => apply preserves_ret
  | |- preserves _ (lift _) => apply preserves_lift
  | |- preserves _ (fprint _ _) => apply Hfprint
  | |- preserves _ (open_w _) => apply Hopen
  | |- preserves _ (for_each _ _) =>
      apply preserves_for_each; intros ?; cbv beta
  | |- preserves _ (for_enumerate _ _ _) =>
      apply preserves_for_enumerate; intros ? ?; cbv beta
  | |- preserves _ (if ?b then _ else _) => destruct b
  | |- preserves _ (match ?x with _ => _ end) => destruct x
  end.

Lemma put_banner_rendered (files : list file) (banner : list pystr)
      (prefix : pystr) :
  preserves P (put_banner files banner prefix).
Proof. unfold put_banner. repeat rendered_basic. Qed.

Lemma put_copyright_rendered (f : file) (prefix : pystr) :
  preserves P (put_copyright U my_source f prefix).
Proof.
  unfold put_copyright.
  repeat first [ apply put_banner_rendered | rendered_basic ].
Qed.

Lemma render_final_rendered (attr : record) :
  In attr attrs -> preserves P (render_final U rollouts attr).
Proof.
  intros Hin. unfold render_final.
  apply preserves_bind_lift. intros name Hname.
  apply preserves_bind; [exact (Hresolve attr name Hin Hname)|].
  intros r. repeat rendered_basic.
Qed.

Lemma render_metadata_rendered (attr : record) :
  In attr attrs -> preserves P (render_metadata U rollouts attr).
Proof.
  intros Hin. unfold render_metadata.
  apply preserves_bind_lift. intros name Hname.
  apply preserves_bind; [exact (Hresolve attr name Hin Hname)|].
  intros r. repeat rendered_basic.
Qed.

Ltac rendered_step :=
  match goal with
  | |- preserves _ (put_banner _ _ _) => apply put_banner_rendered
  | |- preserves _ (put_copyright _ _ _ _) => apply put_copyright_rendered
  | |- preserves _ (for_each (render_final _ _) _) =>
      apply preserves_for_each_in; intros ? ?;
      apply render_final_rendered; assumption
  | |- preserves _ (for_each (render_metadata _ _) _) =>
      apply preserves_for_each_in; intros ? ?;
      apply render_metadata_rendered; assumption
  | _ => rendered_basic
  end.

Lemma render_h_rendered : preserves P (render_h U my_source attrs rollouts).
Proof. unfold render_h, render_tunable. repeat rendered_step. Qed.

Lemma render_cc_rendered : preserves P (render_cc U my_source attrs rollouts).
Proof. unfold render_cc, render_description, when. repeat rendered_step. Qed.

Lemma collect_tags_rendered (l : list record) :
  incl l attrs -> forall bzl, preserves P (collect_tags rollouts l bzl).
Proof.
  induction l as [|attr l IH]; intros Hincl bzl; cbn [collect_tags].
  - apply preserves_ret.
  - apply preserves_bind_lift. intros name Hname.
    apply preserves_bind.
    { apply (Hresolve attr name); [apply Hincl; now left | exact Hname]. }
    intros r. apply preserves_bind; [apply preserves_lift|]. intros tags.
    apply preserves_bind; [apply preserves_lift|]. intros ts.
    apply preserves_bind; [apply preserves_lift|]. intros bzl1.
    apply IH. intros x Hx. apply Hincl. now right.
Qed.

Lemma render_bzl_rendered (bzl : tag_map) :
  preserves P (render_bzl U my_source bzl).
Proof.
  unfold render_bzl, render_category, render_tag. repeat rendered_step.
Qed.

Lemma render_rendered : preserves P (render U my_source attrs rollouts).
Proof.
  unfold render.
  apply preserves_bind; [apply render_h_rendered|]. intros _.
  apply preserves_bind; [apply render_cc_rendered|]. intros _.
  apply preserves_bind; [apply collect_tags_rendered, incl_refl|].
  intros bzl. apply render_bzl_rendered.
Qed.
End Rendered.

Lemma written_fprint (f g : file) (s : pystr) :
  preserves (written f) (fprint g s).
Proof.
  intros st st' r [= <- <-] HP. unfold written in *.
  destruct f, g; simpl in *; try exact HP; discriminate.
Qed.

Lemma written_open (f g : file) : preserves (written f) (open_w g).
Proof.
  intros st st' r [= <- <-] HP. unfold written in *.
  destruct f, g; simpl in *; try exact HP; discriminate.
Qed.

Lemma written_resolve (f : file) (rollouts : list record) (name : value) :
  preserves (written f) (get_rollout_attr_for_experiment rollouts name).
Proof.
  unfold get_rollout_attr_for_experiment.
  preserve fail.
  intros st st' r [= <- <-] HP. unfold written in *. destruct f; exact HP.
Qed.

Lemma quiet_fprint (f : file) (s : pystr) :
  preserves (fun st => stdout st = []) (fprint f s).
Proof. intros st st' r [= <- <-] HP. destruct f; exact HP. Qed.

Lemma quiet_open (f : file) : preserves (fun st => stdout st = []) (open_w f).
Proof. intros st st' r [= <- <-] HP. destruct f; exact HP. Qed.

(** For a resolved experiment [get_rollout_attr_for_experiment] prints no
    warning. *)
Lemma quiet_resolve (rollouts : list record) (attr : record) (name : value) :
  resolved rollouts attr -> dict_getitem attr k_name = Ok name ->
  preserves (fun st => stdout st = []) (get_rollout_attr_for_experiment rollouts name).
Proof.
  intros (n & r & d & p & Hn & Hfind & _) Hname.
  apply getitem_ok in Hname. rewrite Hn in Hname. injection Hname as ->.
  intros st st' x Hrun HP. unfold get_rollout_attr_for_experiment in Hrun.
  unfold bind, lift in Hrun. rewrite Hfind in Hrun.
  now injection Hrun as <- _.
Qed.

(** Opening a file that has just been opened changes nothing. *)
Lemma open_w_again (A : Type) (f : file) (k : unit -> M A) (st : state) :
  bind (open_w f) k st = bind (open_w f) k (set_file f (Some []) st).
Proof. unfold bind, open_w. now rewrite set_set_file. Qed.

Lemma written_set_file (f : file) (c : list pystr) (st : state) :
  written f (set_file f (Some c) st).
Proof. unfold written. now destruct f. Qed.

(** X18.  A run that ends normally has found, for every experiment, a
    rollout record with one of the four policies, and a [test_tags] field;
    it has printed nothing, so the warning that an experiment has no
    rollout never goes with a normal end; and it has written the three
    files. *)
Theorem successful_run (U : unicodedata) (my_source : list pystr)
        (today : Date.date) (check_dates : bool)
        (attrs rollouts : list record) (st : state)
        (Hrun : run U my_source today check_dates attrs rollouts
                = (st, Ok tt)) :
  Forall (resolved rollouts) attrs
  /\ Forall (fun attr => has_field attr k_test_tags = true) attrs
  /\ stdout st = []
  /\ written ExperimentsH st
  /\ written ExperimentsCC st
  /\ written ExperimentsBzl st.
Proof.
  unfold run, main in Hrun.
  apply bind_ok_inv in Hrun. destruct Hrun as (s1 & [] & Hval & Hren).
  pose proof Hren as H. unfold render in H.
  apply bind_ok_inv in H. destruct H as (s2 & [] & Hh & H).
  apply bind_ok_inv in H. destruct H as (s3 & [] & Hcc & H).
  apply bind_ok_inv in H. destruct H as (s4 & bzl & Hct & Hbzl).
  assert (Hres : Forall (resolved rollouts) attrs).
  { pose proof Hh as H. unfold render_h in H.
    repeat match type of H with
           | bind (for_each (render_final _ _) _) _ _ = _ => fail 1
           | bind _ _ _ = _ =>
               apply bind_ok_inv in H; destruct H as (? & ? & _ & H)
           end.
    apply bind_ok_inv in H. destruct H as (sa & [] & H & _).
    apply for_each_ok_inv in H.
    apply (Forall_impl _ (P := fun x => exists s s',
                                 render_final U rollouts x s = (s', Ok tt)));
      [|exact H].
    intros attr (s & s' & Hattr).
    exact (render_final_resolved U rollouts attr s s' Hattr). }
  split; [exact Hres|].
  split; [exact (collect_tags_fields _ _ _ _ _ _ Hct)|].
  split.
  - apply (render_rendered (fun st => stdout st = []) U my_source attrs
             rollouts quiet_fprint quiet_open) with (st := s1) (r := Ok tt);
      [|exact Hren|].
    + intros attr name Hin Hname.
      apply (quiet_resolve rollouts attr name); [|exact Hname].
      rewrite Forall_forall in Hres. now apply Hres.
    + apply (validate_silent U today check_dates attrs rollouts
               initial_state s1 (Ok tt) Hval); [now intros _|].
      exact (validate_ok_error _ _ _ _ _ _ _ Hval).
  - assert (Hkeep : forall f,
               (forall f' s, preserves (written f) (fprint f' s))
               /\ (forall f', preserves (written f) (open_w f'))
               /\ (forall attr name,
                      In attr attrs -> dict_getitem attr k_name = Ok name ->
                      preserves (written f)
                        (get_rollout_attr_for_experiment rollouts name))).
    { intros f. split; [apply written_fprint|].
      split; [apply written_open|].
      intros attr name _ _. apply written_resolve. }
    assert (Hh2 : written ExperimentsH s2).
    { destruct (Hkeep ExperimentsH) as (K1 & K2 & K3).
      unfold render_h in Hh. rewrite open_w_again in Hh.
      apply (render_h_rendered _ U my_source attrs rollouts K1 K2 K3
               _ _ _ Hh).
      apply written_set_file. }
    assert (Hc3 : written ExperimentsCC s3).
    { destruct (Hkeep ExperimentsCC) as (K1 & K2 & K3).
      unfold render_cc in Hcc. rewrite open_w_again in Hcc.
      apply (render_cc_rendered _ U my_source attrs rollouts K1 K2 K3
               _ _ _ Hcc).
      apply written_set_file. }
    assert (Hb : written ExperimentsBzl st).
    { destruct (Hkeep ExperimentsBzl) as (K1 & K2 & K3).
      unfold render_bzl in Hbzl. rewrite open_w_again in Hbzl.
      apply (render_bzl_rendered _ U my_source K1 K2 bzl _ _ _ Hbzl).
      apply written_set_file. }
    assert (Hrest : forall f, written f s3 -> written f st).
    { intros f Hf. destruct (Hkeep f) as (K1 & K2 & K3).
      apply (render_bzl_rendered _ U my_source K1 K2 bzl _ _ _ Hbzl).
      apply (collect_tags_rendered _ attrs rollouts K3 attrs
               (incl_refl _) bzl_initial _ _ _ Hct).
      exact Hf. }
    split; [|split; [|exact Hb]].
    + apply Hrest. destruct (Hkeep ExperimentsH) as (K1 & K2 & K3).
      exact (render_cc_rendered _ U my_source attrs rollouts K1 K2 K3
               _ _ _ Hcc Hh2).
    + now apply Hrest.
Qed.

Lemma successful_run_witness :
  run ascii_only sample_source sample_today true [foo_bar] foo_bar_on
  = (fst (run ascii_only sample_source sample_today true [foo_bar]
              foo_bar_on), Ok tt)
  /\ Forall (resolved foo_bar_on) [foo_bar]
  /\ Forall (fun attr => has_field attr k_test_tags = true) [foo_bar]
  /\ stdout (fst (run ascii_only sample_source sample_today true [foo_bar]
                      foo_bar_on)) = []
  /\ written ExperimentsH
       (fst (run ascii_only sample_source sample_today true [foo_bar]
                 foo_bar_on))
  /\ written ExperimentsCC
       (fst (run ascii_only sample_source sample_today true [foo_bar]
                 foo_bar_on))
  /\ written ExperimentsBzl
       (fst (run ascii_only sample_source sample_today true [foo_bar]
                 foo_bar_on)).
Proof.
  assert (H : run ascii_only sample_source sample_today true [foo_bar]
                  foo_bar_on
              = (fst (run ascii_only sample_source sample_today true
                          [foo_bar] foo_bar_on), Ok tt))
    by (vm_compute; reflexivity).
  split; [exact H|].
  exact (successful_run ascii_only sample_source sample_today true
           [foo_bar] foo_bar_on _ H).
Defined.

(** ** The window of the expiry dates *)

Lemma missing_fields_no_dates (attr : record) (name0 : value) (far : bool)
      (name e : value) :
  ~ In (date_message far name e) (missing_fields attr name0).
Proof.
  unfold missing_fields, date_message.
  destruct far, (has_field attr k_description), (has_field attr k_owner),
    (has_field attr k_expiry); simpl; intuition discriminate.
Qed.

Lemma date_complaints_in (today tq expiry0 : Date.date) (name0 e0 : value)
      (far : bool) (name e : value) :
  In (date_message far name e) (date_complaints today tq expiry0 name0 e0)
  <-> name = name0 /\ e = e0 /\ outside far today tq expiry0 = true.
Proof.
  unfold date_complaints, date_message, outside. rewrite in_app_iff.
  destruct far; split.
  - intros [H|H].
    + destruct (Date.ltb expiry0 today); [|destruct H].
      destruct H as [H|[]]. discriminate.
    + destruct (Date.gtb expiry0 tq); [|destruct H].
      destruct H as [H|[H|[]]]; [|discriminate].
      injection H as <- <-. now repeat split.
  - intros (-> & -> & ->). right. now left.
  - intros [H|H].
    + destruct (Date.ltb expiry0 today); [|destruct H].
      destruct H as [H|[]]. injection H as <- <-. now repeat split.
    + destruct (Date.gtb expiry0 tq); [|destruct H].
      destruct H as [H|[H|[]]]; discriminate.
  - intros (-> & -> & ->). left. now left.
Qed.

(** A round of the loop over the experiments that ends normally, in
    strict mode: the complaints about dates it prints are those of the
    record, and a complaint sets [error]. *)
Lemma check_attr_dates (U : unicodedata) (today tq : Date.date)
      (attr : record) (st st' : state) :
  check_attr U today true tq attr st = (st', Ok tt) ->
  (forall far name e,
      In (date_message far name e) (stdout st')
      <-> In (date_message far name e) (stdout st)
          \/ exists expiry,
               dated U attr name e expiry
               /\ outside far today tq expiry = true)
  /\ (forall far name e expiry,
         dated U attr name e expiry -> outside far today tq expiry = true ->
         error st' = true).
Proof.
  intros Hrun.
  destruct (dict_find attr k_name) as [name0|] eqn:Hn.
  2:{ rewrite (check_attr_unnamed U today tq true attr st Hn) in Hrun.
      injection Hrun as <-. split.
      - intros far name e. unfold report. cbn [stdout].
        rewrite in_app_iff. split.
        + intros [H|[H|[]]]; [now left|]. destruct far; discriminate.
        + intros [H|(x & (H & _) & _)]; [now left | congruence].
      - intros far name e expiry (H & _). congruence. }
  destruct (dict_find attr k_expiry) as [e0|] eqn:He.
  2:{ rewrite (check_attr_no_expiry U today tq true attr name0 st Hn He)
        in Hrun. discriminate. }
  destruct (py_eq name0 (text "monitoring_experiment")) eqn:Hm.
  { rewrite (check_attr_monitoring U today tq true attr name0 e0 st Hn Hm He)
      in Hrun.
    injection Hrun as <-. split.
    - intros far name e. unfold report. cbn [stdout].
      rewrite !in_app_iff. split.
      + intros [H|[H|H]]; [now left| |].
        * now apply missing_fields_no_dates in H.
        * destruct (py_eq e0 (text "never-ever")); [destruct H|].
          destruct H as [H|[]]. destruct far; discriminate.
      + intros [H|(x & (H & H' & _) & _)]; [now left|].
        rewrite Hn in H. injection H as <-. unfold text in Hm. congruence.
    - intros far name e expiry (H & H' & _).
      rewrite Hn in H. injection H as <-. unfold text in Hm. congruence. }
  destruct (strptime_date U e0) as [expiry0|x] eqn:Hp.
  2:{ rewrite (check_attr_unparsed U today tq true attr name0 e0 x st
                 Hn Hm He Hp) in Hrun. discriminate. }
  rewrite (check_attr_strict U today tq attr name0 e0 expiry0 st Hn Hm He Hp)
    in Hrun.
  cbv zeta in Hrun.
  destruct (annotation_entry name0) as [entry|x]; [|discriminate].
  injection Hrun as <-. split.
  - intros far name e. unfold append_annotation, report. cbn [stdout].
    rewrite !in_app_iff, date_complaints_in. split.
    + intros [H|[H|(-> & -> & H)]]; [now left| |].
      * now apply missing_fields_no_dates in H.
      * right. exists expiry0. now repeat split.
    + intros [H|(expiry & (H1 & _ & H3 & H4) & Hout)]; [now left|].
      rewrite Hn in H1. injection H1 as <-.
      rewrite He in H3. injection H3 as <-.
      rewrite Hp in H4. injection H4 as <-. right. right. now repeat split.
  - intros far name e expiry (H1 & _ & H3 & H4) Hout.
    rewrite Hn in H1. injection H1 as <-.
    rewrite He in H3. injection H3 as <-.
    rewrite Hp in H4. injection H4 as <-.
    unfold append_annotation, report. cbn [error].
    unfold outside in Hout. destruct far; rewrite Hout;
      now rewrite ?orb_true_r.
Qed.

(** The loop over the experiments, when it ends normally. *)
Lemma attrs_loop_dates (U : unicodedata) (today tq : Date.date)
      (attrs : list record) :
  forall st st',
    for_each (check_attr U today true tq) attrs st = (st', Ok tt) ->
    (forall far name e,
        In (date_message far name e) (stdout st')
        <-> In (date_message far name e) (stdout st)
            \/ exists attr expiry,
                 In attr attrs /\ dated U attr name e expiry
                 /\ outside far today tq expiry = true)
    /\ (forall far attr name e expiry,
           In attr attrs -> dated U attr name e expiry ->
           outside far today tq expiry = true -> error st' = true).
Proof.
  induction attrs as [|a attrs IH]; intros st st' Hrun.
  - injection Hrun as <-. split.
    + intros far name e. split; [now left|].
      intros [H|(attr & expiry & [] & _)]. exact H.
    + intros far attr name e expiry [].
  - rewrite for_each_cons in Hrun. apply bind_ok_inv in Hrun.
    destruct Hrun as (s1 & [] & Ha & Hrest).
    destruct (check_attr_dates U today tq a st s1 Ha) as [Ha1 Ha2].
    destruct (IH s1 st' Hrest) as [IH1 IH2]. split.
    + intros far name e. rewrite IH1, Ha1. split.
      * intros [[H|(expiry & Hd & Hout)]|(attr & expiry & Hin & Hd & Hout)].
        -- now left.
        -- right. exists a, expiry. split; [now left|]. now split.
        -- right. exists attr, expiry. split; [now right|]. now split.
      * intros [H|(attr & expiry & [<-|Hin] & Hd & Hout)].
        -- left. now left.
        -- left. right. now exists expiry.
        -- right. now exists attr, expiry.
    + intros far attr name e expiry [<-|Hin] Hd Hout.
      * apply (attrs_loop_error U today tq true attrs s1 st' Hrest).
        exact (Ha2 far name e expiry Hd Hout).
      * exact (IH2 far attr name e expiry Hin Hd Hout).
Qed.

Lemma print_no_dates (m : message) :
  (forall far name e, m <> date_message far name e) ->
  preserves no_dates (print m).
Proof.
  intros Hm st st' r [= <- <-] HP far name e. cbn [stdout].
  rewrite in_app_iff. intros [H|[H|[]]].
  - exact (HP far name e H).
  - exact (Hm far name e H).
Qed.

Lemma set_error_no_dates : preserves no_dates set_error.
Proof. intros st st' r [= <- <-] HP. exact HP. Qed.

(** The loop over the rollouts prints no complaint about a date. *)
Lemma check_rollout_no_dates (rollout_attr : record) :
  preserves no_dates (check_rollout rollout_attr).
Proof.
  unfold check_rollout, when.
  preserve ltac:(first [ apply set_error_no_dates
                       | apply print_no_dates; intros [] ? ?; discriminate ]).
Qed.


